(** * Form filling tool of [toolCalling3.py]: locator resolution and the fill pass

    A shallow embedding of [find_element_with_multiple_strategies],
    [simulate_human_typing] and the field loop, summary and fault handler of
    [fill_job_application_form], followed by the whole of
    [fill_job_application_form] and of
    [extract_job_application_fields_with_locators].

    Modelling conventions.
    - Python [str] values are [string]s; [str.lower] folds the ASCII letters
      (other bytes are left as they are).
    - A raised Python [Exception] is represented by the text of [str(e)],
      which is all the handlers of this code ever read from it.
    - The browser is a parameter: its session state is an abstract type
      [driver], element lookup is a read-only query of that state, and every
      other WebDriver call is a [command] that returns a value or raises and
      may change the session.  Every call made to the browser is appended to
      a call log, with the exception a command raised, so that "was
      attempted", "was not attempted" and "raised" can be stated.
    - [time.sleep], [random.uniform] and [logger] calls have no effect on the
      values computed and are left out.
    - A Python float is represented by its value, a rational ([Q]); float
      division, multiplication and [round] are parameters, constrained by
      the rounding properties of binary64 arithmetic. *)

From Stdlib Require Import String Ascii List Bool Arith ZArith QArith Qabs Lia Lqa.
Import ListNotations.
Open Scope string_scope.

(** ** Python string operations used by the tool *)

Module PyStr.

(** [c.lower()] on one ASCII character. *)
Definition lower_ascii (c : ascii) : ascii :=
  let n := nat_of_ascii c in
  if andb (65 <=? n)%nat (n <=? 90)%nat then ascii_of_nat (n + 32) else c.

(** [s.lower()] *)
Fixpoint lower (s : string) : string :=
  match s with
  | EmptyString => EmptyString
  | String c rest => String (lower_ascii c) (lower rest)
  end.

(** [s.replace(old, new)] for one-character [old] and [new]. *)
Fixpoint replace (old new : ascii) (s : string) : string :=
  match s with
  | EmptyString => EmptyString
  | String c rest =>
      String (if Ascii.eqb c old then new else c) (replace old new rest)
  end.

(** [needle in hay] *)
Fixpoint contains (needle hay : string) : bool :=
  if String.prefix needle hay then true
  else match hay with
       | EmptyString => false
       | String _ rest => contains needle rest
       end.

Definition is_space (c : ascii) : bool :=
  let n := nat_of_ascii c in
  orb (n =? 32)%nat (andb (9 <=? n)%nat (n <=? 13)%nat).

(** [s.split()]: the maximal runs of non-whitespace characters.
    [cur] is the run being read, in reverse. *)
Fixpoint split_from (cur : list ascii) (s : string) : list string :=
  let flush (k : list string) :=
    match cur with
    | [] => k
    | _ => string_of_list_ascii (rev cur) :: k
    end in
  match s with
  | EmptyString => flush []
  | String c rest =>
      if is_space c then flush (split_from [] rest)
      else split_from (c :: cur) rest
  end.

Definition split (s : string) : list string := split_from [] s.

(** [x in [a, b, ...]] for strings. *)
Definition mem (x : string) (l : list string) : bool :=
  existsb (String.eqb x) l.

End PyStr.

(** ** Results and raised exceptions *)

(** The text of [str(e)] of a raised exception. *)
Definition exn := string.

Inductive outcome (A : Type) : Type :=
| Ok (a : A)
| Raise (e : exn).
Arguments Ok {A} a.
Arguments Raise {A} e.

(** ** Selenium interface *)

(** [selenium.webdriver.common.by.By] *)
Module By.
Definition ID := "id".
Definition NAME := "name".
Definition XPATH := "xpath".
Definition CSS_SELECTOR := "css selector".
Definition CLASS_NAME := "class name".
End By.

(** A (strategy, value) pair as passed to [presence_of_element_located]. *)
Definition locator : Type := string * string.

(** A [WebElement] is a handle on an element of the page. *)
Record WebElement := { element_id : string }.

(** WebDriver calls other than element lookup, indexed by the type of the
    value they return.  [NewSelect el] is [Select(el)]; the select commands
    take the element the [Select] object wraps. *)
Inductive command : Type -> Type :=
| ScrollIntoView (el : WebElement) : command unit
| Clear (el : WebElement) : command unit
| SendKeys (el : WebElement) (keys : string) : command unit
| NewSelect (el : WebElement) : command unit
| SelectByVisibleText (el : WebElement) (text : string) : command unit
| SelectByValue (el : WebElement) (value : string) : command unit
| SelectOptions (el : WebElement) : command (list WebElement)
| ElementText (el : WebElement) : command string
| IsSelected (el : WebElement) : command bool
| Click (el : WebElement) : command unit
| TakeScreenshot (filename_prefix : string) : command string.

(** One entry of the call log: an explicit wait for a locator, or a command
    together with the exception it raised, if any. *)
Inductive call : Type :=
| Wait (loc : locator)
| Do {T : Type} (c : command T) (raised : option exn).

Definition raised_by {T : Type} (r : outcome T) : option exn :=
  match r with
  | Ok _ => None
  | Raise e => Some e
  end.

(** ** Data model *)

(** [class FormField(BaseModel)] *)
Record FormField := {
  field_name : string;
  field_type : string;
  locator_type : string;
  locator_value : string;
  is_required : bool;
  placeholder_text : string;
  options : list string
}.

(** One entry of [required_fields] / [optional_fields]: a JSON object.
    [None] stands for an absent key; a key that is present holds a value of
    the type the extraction prompt asks for. *)
Record field_info := {
  fi_field_name : option string;
  fi_field_type : option string;
  fi_locator_type : option string;
  fi_locator_value : option string;
  fi_is_required : option bool;
  fi_placeholder_text : option string;
  fi_options : option (list string)
}.

(** One entry of [failed_fields]: [{"field_name": ..., "error": ...}]. *)
Record failure := { failed_name : string; error : string }.

(** The profile dictionary, with the keys the field mapping reads. *)
Record profile := {
  first_name : string; last_name : string; email : string; phone : string;
  linkedin : string; website : string; github : string;
  street : string; city : string; state_ : string; zip_code : string;
  country : string;
  work_authorization : string; experience_years : string;
  salary_expectation : string; availability : string;
  degree : string; major : string; university : string;
  graduation_year : string;
  skills : string; cover_letter : string; additional_info : string
}.

(** The dictionary returned by [fill_job_application_form].
    [error_message] is present only in the results built by a handler. *)
Record FillingResult := {
  filling_status : string;
  error_message : option string;
  result_filled_fields : list string;
  result_failed_fields : list failure;
  screenshot_path : string;
  total_fields : nat;
  success_rate : Q
}.

(** ** Summary arithmetic *)

(** The success rate is computed on Python floats.  A float or an [int] is
    modelled by its value, a rational; the three operations the tool uses
    (division of two [int]s, multiplication of floats and [round]) are
    parameters of the tool below, with the properties of binary64
    arithmetic that the theorems need.

    [Exact] is the arithmetic that does not round the quotient or the
    product and rounds to an exact number of decimals, half-way cases
    going to the even one.  It has the properties asked of the parameters
    and is the arithmetic of the concrete runs at the end of the file.
    Binary64 arithmetic is another such arithmetic: its results are the
    floats nearest to those of [Exact], and where the exact quotient is
    half-way between two numbers of hundredths it may round the other
    way. *)
Module Exact.

(** The integer nearest to [x], ties going to the even one. *)
Definition round_half_even (x : Q) : Z :=
  let n := Qnum x in
  let d := Zpos (Qden x) in
  let q := (n / d)%Z in
  let r := (n mod d)%Z in
  if (2 * r <? d)%Z then q
  else if (d <? 2 * r)%Z then (q + 1)%Z
  else if Z.even q then q else (q + 1)%Z.

Definition truediv (a b : nat) : Q :=
  inject_Z (Z.of_nat a) / inject_Z (Z.of_nat b).

Definition float_mul (x y : Q) : Q := x * y.

Definition round (x : Q) (ndigits : nat) : Q :=
  let scale := Pos.pow 10 (Pos.of_nat ndigits) in
  match ndigits with
  | O => inject_Z (round_half_even x)
  | _ => round_half_even (x * inject_Z (Zpos scale)) # scale
  end.

End Exact.

(** The [if]/[elif]/[else] that determines the overall status. *)
Definition overall_status (filled total : nat) : string :=
  if (filled =? total)%nat then "success"
  else if (0 <? filled)%nat then "partial"
  else "error".

(** ** Profile lookup *)

(** The [field_mapping] dictionary, in insertion order. *)
Definition field_mapping (p : profile) : list (string * string) :=
  [ ("first name", first_name p);
    ("last name", last_name p);
    ("email", email p);
    ("phone", phone p);
    ("linkedin", linkedin p);
    ("website", website p);
    ("github", github p);
    ("address", street p);
    ("street", street p);
    ("city", city p);
    ("state", state_ p);
    ("zip", zip_code p);
    ("zip code", zip_code p);
    ("country", country p);
    ("work authorization", work_authorization p);
    ("experience", experience_years p);
    ("salary", salary_expectation p);
    ("availability", availability p);
    ("skills", skills p);
    ("degree", degree p);
    ("major", major p);
    ("university", university p);
    ("graduation", graduation_year p);
    ("cover letter", cover_letter p);
    ("additional information", additional_info p);
    ("why", cover_letter p);
    ("motivation", cover_letter p) ].

(** [for key, value in mapping.items(): if test(key): v = value; break] *)
Fixpoint first_value (test : string -> bool) (mapping : list (string * string))
  : option string :=
  match mapping with
  | [] => None
  | (key, value) :: rest => if test key then Some value else first_value test rest
  end.

(** Truth value of [value_to_fill]: [None] and the empty string are false. *)
Definition truthy (v : option string) : bool :=
  match v with
  | None => false
  | Some s => negb (String.eqb s "")
  end.

(** The two search loops over the mapping; [name] is the lowered field name. *)
Definition find_value (mapping : list (string * string)) (name : string)
  : option string :=
  let value_to_fill := first_value (fun key => PyStr.contains key name) mapping in
  if truthy value_to_fill then value_to_fill
  else
    match first_value
            (fun key => existsb (fun word => PyStr.contains word name) (PyStr.split key))
            mapping with
    | Some value => Some value
    | None => value_to_fill
    end.

(** ** Candidate locators *)

(** The [strategies] list of [find_element_with_multiple_strategies]. *)
Definition strategies (field : FormField) : list locator :=
  let name := PyStr.lower (field_name field) in
  [ (locator_type field, locator_value field);
    (By.NAME, PyStr.replace " " "_" name);
    (By.NAME, PyStr.replace " " "-" name);
    (By.ID, PyStr.replace " " "_" name);
    (By.ID, PyStr.replace " " "-" name) ]
  ++ (if PyStr.contains "name" name then
        [ (By.XPATH, "//input[contains(@placeholder, 'name')]");
          (By.XPATH, "//input[contains(@aria-label, 'name')]") ]
      else if PyStr.contains "email" name then
        [ (By.XPATH, "//input[@type='email']");
          (By.XPATH, "//input[contains(@placeholder, 'email')]") ]
      else if PyStr.contains "phone" name then
        [ (By.XPATH, "//input[@type='tel']");
          (By.XPATH, "//input[contains(@placeholder, 'phone')]") ]
      else []).

(** The first entry of the list: the locator the field declares. *)
Definition declared_locator (field : FormField) : locator :=
  (locator_type field, locator_value field).

(** The first of the two probes added for an "email" field. *)
Definition email_type_probe : locator := (By.XPATH, "//input[@type='email']").

(** The renaming of the strategy names done at the head of the loop body. *)
Definition normalise (locator_type : string) : string :=
  if String.eqb locator_type "css_selector" then By.CSS_SELECTOR
  else if String.eqb locator_type "xpath" then By.XPATH
  else if String.eqb locator_type "id" then By.ID
  else if String.eqb locator_type "name" then By.NAME
  else if String.eqb locator_type "class_name" then By.CLASS_NAME
  else locator_type.

Definition normalise_locator (s : locator) : locator :=
  (normalise (fst s), snd s).

(** ** A small concrete browser, for running the model

    The session state is the list of locators that resolve, with the element
    each resolves to.  A command raises when [faults] says so and otherwise
    returns a fixed reply; the session never changes. *)
Module Toy.

Definition driver : Type := list (locator * WebElement).

Definition locator_eqb (a b : locator) : bool :=
  andb (String.eqb (fst a) (fst b)) (String.eqb (snd a) (snd b)).

Fixpoint presence (d : driver) (loc : locator) : outcome WebElement :=
  match d with
  | [] => Raise "Message: "
  | (l, el) :: rest => if locator_eqb l loc then Ok el else presence rest loc
  end.

Definition reply {T : Type} (c : command T) : T :=
  match c in command T return T with
  | ScrollIntoView _ => tt
  | Clear _ => tt
  | SendKeys _ _ => tt
  | NewSelect _ => tt
  | SelectByVisibleText _ _ => tt
  | SelectByValue _ _ => tt
  | SelectOptions _ => []
  | ElementText _ => ""
  | IsSelected _ => false
  | Click _ => tt
  | TakeScreenshot prefix => "screenshots/" ++ prefix ++ ".png"
  end.

Definition perform (faults : forall T, command T -> option exn)
    (T : Type) (c : command T) (d : driver) : outcome T * driver :=
  match faults T c with
  | Some e => (Raise e, d)
  | None => (Ok (reply c), d)
  end.

Definition no_faults (T : Type) (c : command T) : option exn := None.

(** [DUMMY_PROFILE] *)
Definition DUMMY_PROFILE : profile :=
  {| first_name := "John";
     last_name := "Doe";
     email := "john.doe@email.com";
     phone := "+1-555-123-4567";
     linkedin := "https://linkedin.com/in/johndoe";
     website := "https://johndoe.dev";
     github := "https://github.com/johndoe";
     street := "123 Main St";
     city := "San Francisco";
     state_ := "CA";
     zip_code := "94105";
     country := "United States";
     work_authorization := "US Citizen";
     experience_years := "3-5 years";
     salary_expectation := "$120,000";
     availability := "2 weeks notice";
     degree := "Bachelor of Science";
     major := "Computer Science";
     university := "University of California, Berkeley";
     graduation_year := "2020";
     skills := "Python, JavaScript, React, Node.js, SQL, AWS";
     cover_letter := "I am excited to apply for this position and believe my experience in software development makes me a strong candidate.";
     additional_info := "I am passionate about building scalable applications and have experience working in agile environments." |}.

(** A field entry as the extraction step delivers it, with every key of
    the prompt's template. *)
Definition entry (name type_ by_ value : string) : field_info :=
  {| fi_field_name := Some name;
     fi_field_type := Some type_;
     fi_locator_type := Some by_;
     fi_locator_value := Some value;
     fi_is_required := Some true;
     fi_placeholder_text := Some "";
     fi_options := Some [] |}.

(** The descriptor constructed from [entry name type_ by_ value]. *)
Definition descriptor (name type_ by_ value : string) : FormField :=
  {| field_name := name;
     field_type := type_;
     locator_type := by_;
     locator_value := value;
     is_required := true;
     placeholder_text := "";
     options := [] |}.

(** An entry from which the two locator keys are missing. *)
Definition entry_without_locator (name type_ : string) : field_info :=
  {| fi_field_name := Some name;
     fi_field_type := Some type_;
     fi_locator_type := None;
     fi_locator_value := None;
     fi_is_required := Some true;
     fi_placeholder_text := Some "";
     fi_options := Some [] |}.

Definition element (id : string) : WebElement := {| element_id := id |}.

(** A page whose only input is [<input type="email">]. *)
Definition email_page : driver :=
  [ (email_type_probe, element "email-input") ].

(** A page with an e-mail input and a file input with id "resume-upload". *)
Definition application_page : driver :=
  [ (email_type_probe, element "email-input");
    ((By.ID, "resume-upload"), element "resume-input") ].

Definition three_fields : list field_info :=
  [ entry "Email Address" "email" "id" "applicant-email";
    entry "Favorite Color" "text" "css_selector" "#favorite";
    entry "Resume" "file" "id" "resume-upload" ].

(** Selecting by visible text finds no such option. *)
Definition no_such_visible_text (T : Type) (c : command T) : option exn :=
  match c with
  | SelectByVisibleText _ text =>
      Some ("Message: Could not locate element with visible text: " ++ text)
  | _ => None
  end.

(** The element cannot be cleared. *)
Definition not_interactable (T : Type) (c : command T) : option exn :=
  match c with
  | Clear _ => Some "Message: element not interactable"
  | _ => None
  end.

(** The element has gone stale by the time it is scrolled into view. *)
Definition stale_on_scroll (T : Type) (c : command T) : option exn :=
  match c with
  | ScrollIntoView _ => Some "Message: stale element reference"
  | _ => None
  end.

End Toy.

(** ** A page with a country selector, for running the select branch

    Selecting by visible text and selecting by value both fail; the selector
    has the two options "Canada" and "Mexico". *)
Module Selector.

Definition canada : WebElement := Toy.element "option-ca".
Definition mexico : WebElement := Toy.element "option-mx".

Definition perform (T : Type) (c : command T) (d : Toy.driver)
  : outcome T * Toy.driver :=
  match c in command T return outcome T * Toy.driver with
  | SelectByVisibleText _ text =>
      (Raise ("Message: Could not locate element with visible text: " ++ text), d)
  | SelectByValue _ value =>
      (Raise ("Message: Cannot locate option with value: " ++ value), d)
  | SelectOptions _ => (Ok [canada; mexico], d)
  | ElementText el =>
      (Ok (if String.eqb (element_id el) "option-ca" then "Canada" else "Mexico"), d)
  | ScrollIntoView el => (Ok (Toy.reply (ScrollIntoView el)), d)
  | Clear el => (Ok (Toy.reply (Clear el)), d)
  | SendKeys el keys => (Ok (Toy.reply (SendKeys el keys)), d)
  | NewSelect el => (Ok (Toy.reply (NewSelect el)), d)
  | IsSelected el => (Ok (Toy.reply (IsSelected el)), d)
  | Click el => (Ok (Toy.reply (Click el)), d)
  | TakeScreenshot prefix => (Ok (Toy.reply (TakeScreenshot prefix)), d)
  end.

End Selector.

(** ** The tool, over an arbitrary browser *)

Section Tool.

(** State of the browser session. *)
Variable driver : Type.

(** [WebDriverWait(driver, 3).until(EC.presence_of_element_located(loc))]:
    the element, or the exception raised (time-out, invalid strategy, ...). *)
Variable presence_of_element_located : driver -> locator -> outcome WebElement.

(** Every other WebDriver call. *)
Variable perform : forall T : Type, command T -> driver -> outcome T * driver.

(** *** Float arithmetic

    [a / b] on two [int]s, [x * y] on floats and [round(x, ndigits)], each
    as a function on the values. *)
Variable truediv : nat -> nat -> Q.
Variable float_mul : Q -> Q -> Q.
Variable round : Q -> nat -> Q.

(** What the theorems on the success rate use of binary64 arithmetic.
    The quotient of two [int]s and the product of two floats are the
    floats nearest to the exact results: they stay within bounds that are
    floats themselves ([0], [1], [100]) and within half a unit in the
    last place of the exact results, which is less than [2^-53] for a
    result up to 1 and less than [2^-47] for a result up to 100.
    [round(x, 2)] is the float nearest to a number of hundredths nearest
    to [x]; [round(0, 2)] is 0. *)
Hypothesis truediv_unit : forall a b : nat,
  (0 < b)%nat -> (a <= b)%nat -> 0 <= truediv a b <= 1.
Hypothesis truediv_near : forall a b : nat,
  (0 < b)%nat -> (a <= b)%nat ->
  Qabs (truediv a b - inject_Z (Z.of_nat a) / inject_Z (Z.of_nat b)) <= 1 # 2 ^ 53.
Hypothesis float_mul_range : forall x : Q,
  0 <= x <= 1 -> 0 <= float_mul x 100 <= 100.
Hypothesis float_mul_near : forall x : Q,
  0 <= x <= 1 -> Qabs (float_mul x 100 - x * 100) <= 1 # 2 ^ 47.
Hypothesis round_range : forall x : Q,
  0 <= x <= 100 -> 0 <= round x 2 <= 100.
Hypothesis round_near : forall x : Q,
  0 <= x <= 100 ->
  exists n : Z, Qabs ((n # 100) - x) <= 1 # 200
             /\ Qabs (round x 2 - (n # 100)) <= 1 # 2 ^ 47.
Hypothesis round_zero : round 0 2 == 0.

(** [round(x, 2)] *)
Definition round2 (x : Q) : Q := round x 2.

(** [(len(filled_fields) / total_fields * 100) if total_fields > 0 else 0] *)
Definition compute_success_rate (filled total : nat) : Q :=
  if (0 <? total)%nat
  then float_mul (truediv filled total) 100
  else 0.

(** What a run of the tool reads and writes: the browser session, the log
    of the calls made to it, and the two result lists, which are locals of
    [fill_job_application_form] shared by the loop and both return sites. *)
Record state := {
  browser : driver;
  calls : list call;
  filled_fields : list string;
  failed_fields : list failure
}.

(** Computations that read and write the state and may raise; what was
    done before an exception was raised stays done. *)
Definition M (A : Type) : Type := state -> outcome A * state.

Definition ret {A : Type} (a : A) : M A := fun s => (Ok a, s).

Definition bind {A B : Type} (m : M A) (k : A -> M B) : M B :=
  fun s =>
    match m s with
    | (Ok a, s') => k a s'
    | (Raise e, s') => (Raise e, s')
    end.

Definition raise {A : Type} (e : exn) : M A := fun s => (Raise e, s).

(** [try: m  except Exception as e: handler(e)] (also the bare [except:]). *)
Definition try_except {A : Type} (m : M A) (handler : exn -> M A) : M A :=
  fun s =>
    match m s with
    | (Ok a, s') => (Ok a, s')
    | (Raise e, s') => handler e s'
    end.

Notation "x <- m ;; k" := (bind m (fun x => k))
  (at level 61, m at next level, right associativity).
Notation "m ;; k" := (bind m (fun _ => k))
  (at level 61, right associativity).

Definition log (c : call) (s : state) : state :=
  {| browser := browser s; calls := calls s ++ [c];
     filled_fields := filled_fields s; failed_fields := failed_fields s |}.

(** The explicit wait of the strategy loop. *)
Definition until_presence (loc : locator) : M WebElement :=
  fun s => (presence_of_element_located (browser s) loc, log (Wait loc) s).

(** Any other call to the browser. *)
Definition do {T : Type} (c : command T) : M T :=
  fun s =>
    let (r, d) := perform T c (browser s) in
    (r, {| browser := d; calls := calls s ++ [Do c (raised_by r)];
           filled_fields := filled_fields s; failed_fields := failed_fields s |}).

(** [filled_fields.append(name)] *)
Definition append_filled (name : string) : M unit :=
  fun s => (Ok tt, {| browser := browser s; calls := calls s;
                      filled_fields := filled_fields s ++ [name];
                      failed_fields := failed_fields s |}).

(** [failed_fields.append({"field_name": name, "error": reason})] *)
Definition append_failed (name reason : string) : M unit :=
  fun s => (Ok tt, {| browser := browser s; calls := calls s;
                      filled_fields := filled_fields s;
                      failed_fields := failed_fields s ++
                        [{| failed_name := name; error := reason |}] |}).

(** *** [find_element_with_multiple_strategies] *)

(** The [for strategy in strategies] loop.  One iteration yields the
    element ([return element]) or [None] ([continue]). *)
Fixpoint try_strategies (l : list locator) : M (option WebElement) :=
  match l with
  | [] => ret None
  | strategy :: rest =>
      found <- try_except
                 (element <- until_presence (normalise_locator strategy) ;;
                  ret (Some element))
                 (fun _ => ret None) ;;
      match found with
      | Some element => ret (Some element)
      | None => try_strategies rest
      end
  end.

Definition find_element_with_multiple_strategies (field : FormField)
  : M (option WebElement) :=
  try_strategies (strategies field).

(** *** [simulate_human_typing] *)

Fixpoint send_each (element : WebElement) (text : string) : M unit :=
  match text with
  | EmptyString => ret tt
  | String char rest =>
      do (SendKeys element (String char EmptyString)) ;;
      send_each element rest
  end.

Definition simulate_human_typing (element : WebElement) (text : string) : M unit :=
  do (Clear element) ;;
  send_each element text.

(** *** The body of the field loop *)

(** [d[key]] on a JSON object: [KeyError] when the key is absent. *)
Definition getitem {A : Type} (key : string) (v : option A) : M A :=
  match v with
  | Some a => ret a
  | None => raise ("'" ++ key ++ "'")
  end.

(** The construction of a [FormField] from the keys of [field_info]: the
    five fields declared without a default are required; a missing one
    raises a [ValidationError], whose text names the first missing field
    here. *)
Definition validation_error (missing : string) : exn :=
  "1 validation error for FormField " ++ missing ++ " Field required".

Definition new_FormField (fi : field_info) : M FormField :=
  match fi_field_name fi, fi_field_type fi, fi_locator_type fi,
        fi_locator_value fi, fi_is_required fi with
  | Some n, Some t, Some lt, Some lv, Some r =>
      ret {| field_name := n; field_type := t;
             locator_type := lt; locator_value := lv; is_required := r;
             placeholder_text :=
               match fi_placeholder_text fi with Some p => p | None => "" end;
             options :=
               match fi_options fi with Some o => o | None => [] end |}
  | None, _, _, _, _ => raise (validation_error "field_name")
  | _, None, _, _, _ => raise (validation_error "field_type")
  | _, _, None, _, _ => raise (validation_error "locator_type")
  | _, _, _, None, _ => raise (validation_error "locator_value")
  | _, _, _, _, None => raise (validation_error "is_required")
  end.

(** The last fallback of the [select] branch: the first option whose text
    contains the value is selected by its text. *)
Fixpoint select_first_containing (element : WebElement)
    (opts : list WebElement) (value : string) : M unit :=
  match opts with
  | [] => ret tt
  | option :: rest =>
      text <- do (ElementText option) ;;
      if PyStr.contains (PyStr.lower value) (PyStr.lower text)
      then (text' <- do (ElementText option) ;;
            do (SelectByVisibleText element text'))
      else select_first_containing element rest value
  end.

(** "Fill the field based on type": the [if]/[elif] chain on [field_type]. *)
Definition fill_by_type (field_type : string) (element : WebElement)
    (value_to_fill : string) : M unit :=
  if PyStr.mem field_type ["text"; "email"; "tel"; "url"; "password"] then
    simulate_human_typing element value_to_fill
  else if String.eqb field_type "textarea" then
    simulate_human_typing element value_to_fill
  else if String.eqb field_type "select" then
    do (NewSelect element) ;;
    try_except (do (SelectByVisibleText element value_to_fill))
      (fun _ =>
         try_except (do (SelectByValue element value_to_fill))
           (fun _ =>
              opts <- do (SelectOptions element) ;;
              select_first_containing element opts value_to_fill))
  else if PyStr.mem field_type ["checkbox"; "radio"] then
    selected <- do (IsSelected element) ;;
    if negb selected then do (Click element) else ret tt
  else ret tt.

(** The [try] block of one iteration. *)
Definition fill_field (mapping : list (string * string))
    (fi : field_info) (name display_name field_type : string) : M unit :=
  field <- new_FormField fi ;;
  element <- find_element_with_multiple_strategies field ;;
  match element with
  | None => append_failed display_name "Element not found with any strategy"
  | Some element =>
      do (ScrollIntoView element) ;;
      let value_to_fill := find_value mapping name in
      if negb (truthy value_to_fill) then
        append_failed display_name "No matching profile data found"
      else
        fill_by_type field_type element
          (match value_to_fill with Some v => v | None => "" end) ;;
        append_filled display_name
  end.

(** One iteration of [for field_info in all_fields].  The two subscripts at
    its head are outside the [try]. *)
Definition process_field (mapping : list (string * string))
    (fi : field_info) : M unit :=
  display_name <- getitem "field_name" (fi_field_name fi) ;;
  let name := PyStr.lower display_name in
  field_type <- getitem "field_type" (fi_field_type fi) ;;
  try_except (fill_field mapping fi name display_name field_type)
    (fun field_error => append_failed display_name field_error).

Fixpoint process_fields (mapping : list (string * string))
    (all_fields : list field_info) : M unit :=
  match all_fields with
  | [] => ret tt
  | fi :: rest => process_field mapping fi ;; process_fields mapping rest
  end.

Definition get_filled : M (list string) := fun s => (Ok (filled_fields s), s).
Definition get_failed : M (list failure) := fun s => (Ok (failed_fields s), s).

(** *** The fill pass

    [fill_job_application_form] from "Process each field" to its [return],
    with the handler of the enclosing [try].  What comes before (decoding
    the JSON arguments, starting the browser, loading the page, the first
    screenshot) is the state the pass starts in and its two arguments. *)
Definition fill_pass (mapping : list (string * string))
    (all_fields : list field_info) : M FillingResult :=
  try_except
    (process_fields mapping all_fields ;;
     final_screenshot <- do (TakeScreenshot "filled_form") ;;
     filled <- get_filled ;;
     failed <- get_failed ;;
     let total := length all_fields in
     let rate := compute_success_rate (length filled) total in
     let status := overall_status (length filled) total in
     ret {| filling_status := status;
            error_message := None;
            result_filled_fields := filled;
            result_failed_fields := failed;
            screenshot_path := final_screenshot;
            total_fields := total;
            success_rate := round2 rate |})
    (fun e =>
       error_screenshot <- try_except (do (TakeScreenshot "error_form"))
                             (fun _ => ret "") ;;
       filled <- get_filled ;;
       failed <- get_failed ;;
       ret {| filling_status := "error";
              error_message := Some e;
              result_filled_fields := filled;
              result_failed_fields := failed;
              screenshot_path := error_screenshot;
              total_fields := length all_fields;
              success_rate := 0 |}).

(** A pass starts with both result lists empty. *)
Definition initial (d : driver) : state :=
  {| browser := d; calls := []; filled_fields := []; failed_fields := [] |}.

Definition run_fill_pass (p : profile) (all_fields : list field_info)
    (d : driver) : outcome FillingResult * state :=
  fill_pass (field_mapping p) all_fields (initial d).

(** *** Vocabulary of the statements *)

(** The candidate resolves in session [d]. *)
Definition resolves (d : driver) (x : locator) : bool :=
  match presence_of_element_located d (normalise_locator x) with
  | Ok _ => true
  | Raise _ => false
  end.

(** The candidates the loop waits for in session [d], in order, and the
    element it ends with. *)
Fixpoint search (d : driver) (l : list locator)
  : list locator * option WebElement :=
  match l with
  | [] => ([], None)
  | x :: rest =>
      match presence_of_element_located d (normalise_locator x) with
      | Ok el => ([x], Some el)
      | Raise _ => let (tried, r) := search d rest in (x :: tried, r)
      end
  end.

(** [s] after the calls [cs]. *)
Definition logs (cs : list call) (s : state) : state :=
  {| browser := browser s; calls := calls s ++ cs;
     filled_fields := filled_fields s; failed_fields := failed_fields s |}.

Definition waits (l : list locator) : list call :=
  map (fun x => Wait (normalise_locator x)) l.

(** [s] after [failed_fields.append]. *)
Definition with_failed (name reason : string) (s : state) : state :=
  {| browser := browser s; calls := calls s;
     filled_fields := filled_fields s;
     failed_fields := failed_fields s ++
       [{| failed_name := name; error := reason |}] |}.

(** [s] after [filled_fields.append]. *)
Definition with_filled (name : string) (s : state) : state :=
  {| browser := browser s; calls := calls s;
     filled_fields := filled_fields s ++ [name];
     failed_fields := failed_fields s |}.

(** The computation leaves both result lists as they are. *)
Definition frames {A : Type} (m : M A) : Prop :=
  forall s,
    filled_fields (snd (m s)) = filled_fields s
    /\ failed_fields (snd (m s)) = failed_fields s.

(** What the pass records for one field: its name, and the reason when it
    failed. *)
Definition filled_of (records : list (string * option string)) : list string :=
  flat_map (fun r => match snd r with None => [fst r] | Some _ => [] end) records.

Definition failed_of (records : list (string * option string)) : list failure :=
  flat_map (fun r => match snd r with
                     | Some reason => [{| failed_name := fst r; error := reason |}]
                     | None => []
                     end) records.

(** The result built at the [return] of the pass, and the one built by the
    handler of the enclosing [try]. *)
Definition summary (all_fields : list field_info) (final_screenshot : string)
    (s : state) : FillingResult :=
  {| filling_status :=
       overall_status (length (filled_fields s)) (length all_fields);
     error_message := None;
     result_filled_fields := filled_fields s;
     result_failed_fields := failed_fields s;
     screenshot_path := final_screenshot;
     total_fields := length all_fields;
     success_rate :=
       round2 (compute_success_rate (length (filled_fields s)) (length all_fields)) |}.

Definition fault_result (all_fields : list field_info) (e : exn) : M FillingResult :=
  fun s =>
    let (shot, s') := try_except (do (TakeScreenshot "error_form"))
                        (fun _ => ret "") s in
    (Ok {| filling_status := "error";
           error_message := Some e;
           result_filled_fields := filled_fields s';
           result_failed_fields := failed_fields s';
           screenshot_path := match shot with Ok path => path | Raise _ => "" end;
           total_fields := length all_fields;
           success_rate := 0 |}, s').

(** Why a field was recorded in [failed_fields]. *)
Inductive failure_kind : Type :=
| LookupFailure     (* no candidate locator resolved *)
| NoProfileData     (* element found, no usable value in the mapping *)
| DescriptorFault   (* the [FormField] could not be constructed *)
| ScrollFault       (* element found, scrolling it into view raised *)
| FillFault.        (* element found, the type-specific interaction raised *)

(** The value handed to the interaction. *)
Definition value_for (mapping : list (string * string)) (name : string) : string :=
  match find_value mapping name with
  | Some v => v
  | None => ""
  end.

(** [recorded mapping fi s f k]: processing [fi] from state [s] appends
    the failure [f], and [k] is why. *)
Inductive recorded (mapping : list (string * string)) (fi : field_info)
    (s : state) : failure -> failure_kind -> Prop :=
| recorded_lookup display field :
    fi_field_name fi = Some display ->
    fst (new_FormField fi s) = Ok field ->
    fst (find_element_with_multiple_strategies field s) = Ok None ->
    recorded mapping fi s
      {| failed_name := display; error := "Element not found with any strategy" |}
      LookupFailure
| recorded_no_profile display field element s1 s2 :
    fi_field_name fi = Some display ->
    fst (new_FormField fi s) = Ok field ->
    find_element_with_multiple_strategies field s = (Ok (Some element), s1) ->
    do (ScrollIntoView element) s1 = (Ok tt, s2) ->
    truthy (find_value mapping (PyStr.lower display)) = false ->
    recorded mapping fi s
      {| failed_name := display; error := "No matching profile data found" |}
      NoProfileData
| recorded_descriptor display e :
    fi_field_name fi = Some display ->
    fst (new_FormField fi s) = Raise e ->
    recorded mapping fi s {| failed_name := display; error := e |} DescriptorFault
| recorded_scroll display field element s1 e :
    fi_field_name fi = Some display ->
    fst (new_FormField fi s) = Ok field ->
    find_element_with_multiple_strategies field s = (Ok (Some element), s1) ->
    fst (do (ScrollIntoView element) s1) = Raise e ->
    recorded mapping fi s {| failed_name := display; error := e |} ScrollFault
| recorded_fill display field_type field element s1 s2 e :
    fi_field_name fi = Some display ->
    fi_field_type fi = Some field_type ->
    fst (new_FormField fi s) = Ok field ->
    find_element_with_multiple_strategies field s = (Ok (Some element), s1) ->
    do (ScrollIntoView element) s1 = (Ok tt, s2) ->
    truthy (find_value mapping (PyStr.lower display)) = true ->
    fst (fill_by_type field_type element
           (value_for mapping (PyStr.lower display)) s2) = Raise e ->
    recorded mapping fi s {| failed_name := display; error := e |} FillFault.

(** The exceptions raised by the commands of a stretch of the call log. *)
Definition faults (cs : list call) : list exn :=
  flat_map (fun c => match c with
                     | Do _ (Some e) => [e]
                     | _ => []
                     end) cs.

(** The computation lets every fault of its commands through: when it
    returns, none of the commands it ran has raised; when it raises [e],
    its last command raised [e] and none before it raised. *)
Definition propagates {A : Type} (m : M A) : Prop :=
  forall s,
  exists cs,
    calls (snd (m s)) = (calls s ++ cs)%list
    /\ match fst (m s) with
       | Ok _ => faults cs = []
       | Raise e =>
           exists pre (T : Type) (c : command T),
             cs = (pre ++ [Do c (Some e)])%list /\ faults pre = []
       end.

(** *** The whole tool

    [fill_job_application_form] from its first line: decoding the two
    arguments, the check of the extraction status, the start of the
    browser session, and the [try] block with its handler.  Starting the
    browser and loading the page are further parameters; they are not
    entries of the call log.  The [finally] clause, which closes the
    browser after the result is built, is left out. *)

(** What [json.loads] makes of an argument. *)
Inductive decoded (A : Type) : Type :=
| Decoded (a : A)
| JSONDecodeError (msg : string).
Arguments Decoded {A} a.
Arguments JSONDecodeError {A} msg.

(** The decoded [field_data], with the keys the tool reads; [None] stands
    for an absent key. *)
Record fields_info := {
  extraction_status : option string;
  url : option string;
  required_fields : option (list field_info);
  optional_fields : option (list field_info)
}.

(** [webdriver.Chrome(options=chrome_options)]: a new session, or the
    exception raised. *)
Variable Chrome : outcome driver.

(** [driver.get(url)] *)
Variable driver_get : string -> driver -> outcome unit * driver.

(** [WebDriverWait(driver, 15).until(EC.presence_of_element_located((By.TAG_NAME, "body")))] *)
Variable body_located : driver -> outcome WebElement.

Definition load_page (u : string) : M unit :=
  fun s =>
    let (r, d) := driver_get u (browser s) in
    (r, {| browser := d; calls := calls s;
           filled_fields := filled_fields s; failed_fields := failed_fields s |}).

Definition wait_for_body : M WebElement :=
  fun s => (body_located (browser s), log (Wait ("tag name", "body")) s).

(** The three returns that precede the browser session: all lists empty,
    no screenshot, zero fields. *)
Definition rejected (message : string) : FillingResult :=
  {| filling_status := "error";
     error_message := Some message;
     result_filled_fields := [];
     result_failed_fields := [];
     screenshot_path := "";
     total_fields := 0;
     success_rate := 0 |}.

(** The inner [try] block and its handler, run in a session that has just
    been started. *)
Definition fill_session (u : string) (p : profile)
    (all_fields : list field_info) : M FillingResult :=
  try_except
    (load_page u ;;
     wait_for_body ;;
     initial_screenshot <- do (TakeScreenshot "initial_form") ;;
     let mapping := field_mapping p in
     process_fields mapping all_fields ;;
     final_screenshot <- do (TakeScreenshot "filled_form") ;;
     filled <- get_filled ;;
     failed <- get_failed ;;
     let total := length all_fields in
     let rate := compute_success_rate (length filled) total in
     let status := overall_status (length filled) total in
     ret {| filling_status := status;
            error_message := None;
            result_filled_fields := filled;
            result_failed_fields := failed;
            screenshot_path := final_screenshot;
            total_fields := total;
            success_rate := round2 rate |})
    (fun e =>
       error_screenshot <- try_except (do (TakeScreenshot "error_form"))
                             (fun _ => ret "") ;;
       filled <- get_filled ;;
       failed <- get_failed ;;
       ret {| filling_status := "error";
              error_message := Some e;
              result_filled_fields := filled;
              result_failed_fields := failed;
              screenshot_path := error_screenshot;
              total_fields := length all_fields;
              success_rate := 0 |}).

(** [fill_job_application_form(field_data, profile_data)].  [profile_data]
    is [None] when the argument is omitted or empty; a profile that decodes
    holds every key the field mapping reads.  The second component of the
    result is the final state of the session, if one was started. *)
Definition fill_job_application_form (field_data : decoded fields_info)
    (profile_data : option (decoded profile))
  : FillingResult * option state :=
  match field_data with
  | JSONDecodeError msg => (rejected ("Invalid JSON data: " ++ msg), None)
  | Decoded info =>
      match match profile_data with
            | Some data => data
            | None => Decoded Toy.DUMMY_PROFILE
            end with
      | JSONDecodeError msg => (rejected ("Invalid JSON data: " ++ msg), None)
      | Decoded p =>
          match extraction_status info with
          | Some "success" =>
              match url info, required_fields info, optional_fields info with
              | None, _, _ => (rejected "Unexpected error: 'url'", None)
              | Some _, None, _ =>
                  (rejected "Unexpected error: 'required_fields'", None)
              | Some _, Some _, None =>
                  (rejected "Unexpected error: 'optional_fields'", None)
              | Some u, Some required, Some optional =>
                  let all_fields := (required ++ optional)%list in
                  match Chrome with
                  | Raise e =>
                      ({| filling_status := "error";
                          error_message := Some e;
                          result_filled_fields := [];
                          result_failed_fields := [];
                          screenshot_path := "";
                          total_fields := length all_fields;
                          success_rate := 0 |}, None)
                  | Ok d =>
                      match fill_session u p all_fields (initial d) with
                      | (Ok r, s) => (r, Some s)
                      | (Raise e, s) => (rejected ("Unexpected error: " ++ e), Some s)
                      end
                  end
              end
          | _ => (rejected "Invalid field data - extraction was not successful", None)
          end
      end
  end.

(** The text typed into the elements by a stretch of the call log. *)
Definition keys_sent (cs : list call) : string :=
  fold_right (fun c rest =>
                match c with
                | Do (SendKeys _ keys) _ => keys ++ rest
                | _ => rest
                end) "" cs.

(** The commands of a stretch of the call log that act on an element to
    change it (clearing, typing, selecting, clicking). *)
Definition changes_page (c : call) : bool :=
  match c with
  | Do (Clear _) _ | Do (SendKeys _ _) _ | Do (SelectByVisibleText _ _) _
  | Do (SelectByValue _ _) _ | Do (Click _) _ => true
  | _ => false
  end.

(** The three ways the tool returns. *)
Inductive tool_return (field_data : decoded fields_info)
    (profile_data : option (decoded profile))
  : FillingResult -> option state -> Prop :=
| return_rejected message :
    tool_return field_data profile_data (rejected message) None
| return_no_browser info u required optional e :
    field_data = Decoded info ->
    extraction_status info = Some "success" ->
    url info = Some u ->
    required_fields info = Some required ->
    optional_fields info = Some optional ->
    Chrome = Raise e ->
    tool_return field_data profile_data
      {| filling_status := "error";
         error_message := Some e;
         result_filled_fields := [];
         result_failed_fields := [];
         screenshot_path := "";
         total_fields := length (required ++ optional);
         success_rate := 0 |} None
| return_session info p u required optional d r s' :
    field_data = Decoded info ->
    match profile_data with
    | Some data => data
    | None => Decoded Toy.DUMMY_PROFILE
    end = Decoded p ->
    extraction_status info = Some "success" ->
    url info = Some u ->
    required_fields info = Some required ->
    optional_fields info = Some optional ->
    Chrome = Ok d ->
    fill_session u p (required ++ optional) (initial d) = (Ok r, s') ->
    tool_return field_data profile_data r (Some s').

(** *** The extraction tool

    [extract_job_application_fields_with_locators].  The language model and
    the decoding of its answer are parameters, as are the texts of the two
    prompts (f-strings over the page title, the samples of the page and the
    URL).  The keys "error_type" and "full_traceback" of the error result,
    which describe the Python exception object, are left out, and so is the
    [finally] clause that closes the browser. *)

(** Values the tool passes through without reading them: the entries of
    "file_upload_fields" and of "dropdown_options". *)
Variable json : Type.

(** The decoded answer of the model; [None] stands for an absent key.
    The values of "required_fields" and "optional_fields" are taken to be
    lists of entries, as the prompt asks of the model; an answer that
    holds another JSON value under these keys is not represented. *)
Record result_data := {
  rd_job_title : option string;
  rd_company_name : option string;
  rd_required_fields : option (list field_info);
  rd_optional_fields : option (list field_info);
  rd_file_upload_fields : option (list json);
  rd_dropdown_options : option (list json)
}.

(** The dictionary returned by the extraction tool. *)
Record ExtractionResult := {
  x_job_title : string;
  x_company_name : string;
  x_required_fields : list field_info;
  x_optional_fields : list field_info;
  x_file_upload_fields : list json;
  x_dropdown_options : list json;
  x_extraction_status : string;
  x_url : string;
  x_total_fields : nat;
  x_warning : option string;
  x_error_message : option string
}.

(** [webdriver.Chrome(options=chrome_options)] with the headless options. *)
Variable Chrome_headless : outcome driver.

(** [driver.title], [driver.page_source] and
    [driver.find_element(By.TAG_NAME, "body").text] *)
Variable driver_title : driver -> outcome string.
Variable page_source : driver -> outcome string.
Variable body_text : driver -> outcome string.

(** [structured_llm.invoke(prompt).content] *)
Variable llm_invoke : string -> outcome string.

(** [json.loads] on the answer of the model. *)
Variable json_loads : string -> decoded result_data.

(** The two prompts, as functions of what their f-strings interpolate. *)
Variable extraction_prompt : forall (page_title html_sample url : string), string.
Variable simplified_prompt :
  forall (page_title html_tiny body_tiny url : string), string.

(** [d.get(key, default)] *)
Definition get_default {A : Type} (v : option A) (default : A) : A :=
  match v with
  | Some a => a
  | None => default
  end.

(** [s[:n]] *)
Definition take (n : nat) (s : string) : string := String.substring 0 n s.

(** The test that decides whether the fallback is tried. *)
Definition mentions_length_limit (e : exn) : bool :=
  orb (PyStr.contains "LengthFinishReasonError" e)
      (PyStr.contains "length limit" (PyStr.lower e)).

(** The last [return] of the function. *)
Definition extraction_error (u : string) (e : exn) : ExtractionResult :=
  {| x_job_title := "Could not extract";
     x_company_name := "Could not extract";
     x_required_fields := [];
     x_optional_fields := [];
     x_file_upload_fields := [];
     x_dropdown_options := [];
     x_extraction_status := "error";
     x_url := u;
     x_total_fields := 0;
     x_warning := None;
     x_error_message := Some e |}.

(** The handler of the [try] block, for an exception raised when
    [page_title], [html_content] and [body_text] are all bound.  (Raised
    earlier, the exception leads to [extraction_error] in every case: the
    fallback, if tried, reads an unbound name and is abandoned.) *)
Definition extraction_handler (u page_title html_content body : string)
    (e : exn) : ExtractionResult :=
  if mentions_length_limit e then
    match llm_invoke (simplified_prompt page_title (take 3000 html_content)
                        (take 1000 body) u) with
    | Raise _ => extraction_error u e
    | Ok content =>
        match json_loads content with
        | JSONDecodeError _ => extraction_error u e
        | Decoded data =>
            {| x_job_title := get_default (rd_job_title data) "Could not extract";
               x_company_name :=
                 get_default (rd_company_name data) "Could not extract";
               x_required_fields := get_default (rd_required_fields data) [];
               x_optional_fields := get_default (rd_optional_fields data) [];
               x_file_upload_fields := get_default (rd_file_upload_fields data) [];
               x_dropdown_options := get_default (rd_dropdown_options data) [];
               x_extraction_status := "partial";
               x_url := u;
               x_total_fields := 0;
               x_warning := Some "Token limit reached - basic extraction only";
               x_error_message := None |}
        end
    end
  else extraction_error u e.

Definition extract_job_application_fields_with_locators (u : string)
  : ExtractionResult :=
  match Chrome_headless with
  | Raise e => extraction_error u e
  | Ok d0 =>
      match driver_get u d0 with
      | (Raise e, _) => extraction_error u e
      | (Ok _, d) =>
          match body_located d with
          | Raise e => extraction_error u e
          | Ok _ =>
              match driver_title d with
              | Raise e => extraction_error u e
              | Ok page_title =>
                  match page_source d with
                  | Raise e => extraction_error u e
                  | Ok html_content =>
                      match body_text d with
                      | Raise e => extraction_error u e
                      | Ok body =>
                          let handler :=
                            extraction_handler u page_title html_content body in
                          let html_sample := take 8000 html_content in
                          match llm_invoke
                                  (extraction_prompt page_title html_sample u) with
                          | Raise e => handler e
                          | Ok content =>
                              match json_loads content with
                              | JSONDecodeError msg =>
                                  handler ("Invalid JSON response from LLM: " ++ msg)
                              | Decoded data =>
                                  let required :=
                                    get_default (rd_required_fields data) [] in
                                  let optional :=
                                    get_default (rd_optional_fields data) [] in
                                  {| x_job_title :=
                                       get_default (rd_job_title data)
                                         "Could not extract";
                                     x_company_name :=
                                       get_default (rd_company_name data)
                                         "Could not extract";
                                     x_required_fields := required;
                                     x_optional_fields := optional;
                                     x_file_upload_fields :=
                                       get_default (rd_file_upload_fields data) [];
                                     x_dropdown_options :=
                                       get_default (rd_dropdown_options data) [];
                                     x_extraction_status := "success";
                                     x_url := u;
                                     x_total_fields :=
                                       length required + length optional;
                                     x_warning := None;
                                     x_error_message := None |}
                              end
                          end
                      end
                  end
              end
          end
      end
  end.

(** The shape of a result: successful, partial or failed. *)
Definition extraction_shape (u : string) (x : ExtractionResult) : Prop :=
  x_url x = u
  /\ ((x_extraction_status x = "success"
       /\ x_total_fields x =
            (length (x_required_fields x) + length (x_optional_fields x))%nat
       /\ x_warning x = None /\ x_error_message x = None)
      \/ (x_extraction_status x = "partial"
          /\ x_total_fields x = 0%nat
          /\ x_warning x <> None /\ x_error_message x = None)
      \/ (x_extraction_status x = "error"
          /\ x_total_fields x = 0%nat
          /\ x_required_fields x = [] /\ x_optional_fields x = []
          /\ x_error_message x <> None)).

(** *** Basic facts about the computations *)

Lemma logs_nil (s : state) : logs [] s = s.
Proof. destruct s; unfold logs; simpl. now rewrite app_nil_r. Qed.

Lemma logs_logs (a b : list call) (s : state) :
  logs b (logs a s) = logs (a ++ b) s.
Proof. unfold logs; simpl. now rewrite app_assoc. Qed.

Lemma log_logs (c : call) (s : state) : log c s = logs [c] s.
Proof. reflexivity. Qed.

Lemma do_run {T : Type} (c : command T) (s : state) :
  do c s =
    (fst (perform T c (browser s)),
     {| browser := snd (perform T c (browser s));
        calls := calls s ++ [Do c (raised_by (fst (perform T c (browser s))))];
        filled_fields := filled_fields s; failed_fields := failed_fields s |}).
Proof. unfold do. now destruct (perform T c (browser s)). Qed.

(** The strategy loop computes [search]: it never raises, leaves the
    session and the result lists alone, and waits exactly for the
    candidates [search] lists. *)
Lemma try_strategies_search (l : list locator) (s : state) :
  try_strategies l s =
    (Ok (snd (search (browser s) l)),
     logs (waits (fst (search (browser s) l))) s).
Proof.
  revert s. induction l as [|x rest IH]; intros s.
  - simpl. now rewrite logs_nil.
  - cbn [try_strategies search].
    unfold bind at 1, try_except, bind, until_presence, ret.
    destruct (presence_of_element_located (browser s) (normalise_locator x))
      as [el|e] eqn:E.
    + reflexivity.
    + rewrite IH. rewrite log_logs. cbn [browser logs].
      destruct (search (browser s) rest) as [tried r]. cbn [fst snd].
      now rewrite logs_logs.
Qed.

Lemma search_none (d : driver) (l : list locator) :
  snd (search d l) = None <->
  forall x, In x l -> resolves d x = false.
Proof.
  unfold resolves. induction l as [|x rest IH]; simpl.
  - split; [intros _ y []|reflexivity].
  - destruct (presence_of_element_located d (normalise_locator x)) eqn:E.
    + split; [discriminate|]. intros H. specialize (H x (or_introl eq_refl)).
      rewrite E in H. discriminate.
    + destruct (search d rest) as [tried r]. simpl in *. rewrite IH.
      split.
      * intros H y [<-|Hy]; [now rewrite E|auto].
      * intros H y Hy. apply H. now right.
Qed.

Lemma search_none_tried (d : driver) (l : list locator) :
  snd (search d l) = None -> fst (search d l) = l.
Proof.
  induction l as [|x rest IH]; simpl; [reflexivity|].
  destruct (presence_of_element_located d (normalise_locator x)).
  - discriminate.
  - destruct (search d rest) as [tried r]. simpl in *. intros H.
    now rewrite IH.
Qed.

(** When the loop ends with an element, the candidates waited for are a
    prefix of the list: all but the last fail, the last yields the element. *)
Lemma search_some (d : driver) (l : list locator) (el : WebElement) :
  snd (search d l) = Some el ->
  exists pre x post,
    l = (pre ++ x :: post)%list
    /\ fst (search d l) = (pre ++ [x])%list
    /\ (forall y, In y pre -> resolves d y = false)
    /\ presence_of_element_located d (normalise_locator x) = Ok el.
Proof.
  unfold resolves. induction l as [|x rest IH]; simpl; [discriminate|].
  destruct (presence_of_element_located d (normalise_locator x)) as [e0|e0] eqn:E.
  - simpl. intros [= ->]. exists [], x, rest. simpl. repeat split; auto.
    intros y [].
  - destruct (search d rest) as [tried r]. simpl in *. intros H.
    destruct (IH H) as (pre & y & post & -> & -> & Hpre & Hy).
    exists (x :: pre), y, post. simpl. repeat split; auto.
    intros z [<-|Hz]; [now rewrite E|auto].
Qed.

Lemma search_skip (d : driver) (pre post : list locator) :
  (forall y, In y pre -> resolves d y = false) ->
  search d (pre ++ post)%list =
    ((pre ++ fst (search d post))%list, snd (search d post)).
Proof.
  unfold resolves. induction pre as [|x pre IH]; simpl; intros H.
  - now destruct (search d post).
  - pose proof (H x (or_introl eq_refl)) as Hx.
    destruct (presence_of_element_located d (normalise_locator x)); [discriminate|].
    rewrite IH by auto. reflexivity.
Qed.

Lemma find_element_search (field : FormField) (s : state) :
  find_element_with_multiple_strategies field s =
    (Ok (snd (search (browser s) (strategies field))),
     logs (waits (fst (search (browser s) (strategies field)))) s).
Proof. apply try_strategies_search. Qed.

Lemma strategies_split (field : FormField) :
  strategies field =
    (firstn 5 (strategies field) ++ skipn 5 (strategies field))%list.
Proof. now rewrite firstn_skipn. Qed.

Lemma search_head (d : driver) (x : locator) (rest : list locator) :
  exists later, fst (search d (x :: rest)) = x :: later.
Proof.
  cbn [search].
  destruct (presence_of_element_located d (normalise_locator x)).
  - now exists [].
  - destruct (search d rest) as [tried r]. now exists tried.
Qed.

(** *** The result lists are touched only by the two appends *)

Lemma frames_ret {A : Type} (a : A) : frames (ret a).
Proof. intros s. now split. Qed.

Lemma frames_raise {A : Type} (e : exn) : frames (@raise A e).
Proof. intros s. now split. Qed.

Lemma frames_bind {A B : Type} (m : M A) (k : A -> M B) :
  frames m -> (forall a, frames (k a)) -> frames (bind m k).
Proof.
  intros Hm Hk s. unfold bind. specialize (Hm s).
  destruct (m s) as [[a|e] s1]; cbn [snd] in *.
  - destruct (Hk a s1) as [H1 H2]. destruct Hm as [H3 H4].
    rewrite H1, H2. now split.
  - exact Hm.
Qed.

Lemma frames_try {A : Type} (m : M A) (h : exn -> M A) :
  frames m -> (forall e, frames (h e)) -> frames (try_except m h).
Proof.
  intros Hm Hh s. unfold try_except. specialize (Hm s).
  destruct (m s) as [[a|e] s1]; cbn [snd] in *.
  - exact Hm.
  - destruct (Hh e s1) as [H1 H2]. destruct Hm as [H3 H4].
    rewrite H1, H2. now split.
Qed.

Lemma frames_do {T : Type} (c : command T) : frames (do c).
Proof. intros s. unfold do. now destruct (perform T c (browser s)). Qed.

Lemma frames_until (loc : locator) : frames (until_presence loc).
Proof. intros s. now split. Qed.

Create HintDb frames.
Hint Resolve frames_ret frames_raise frames_do frames_until : frames.

Ltac frame :=
  repeat first
    [ apply frames_bind; [|intros ?]
    | apply frames_try; [|intros ?]
    | solve [auto with frames] ].

Lemma frames_send_each (element : WebElement) (text : string) :
  frames (send_each element text).
Proof. induction text; cbn [send_each]; frame. Qed.

Lemma frames_simulate_human_typing (element : WebElement) (text : string) :
  frames (simulate_human_typing element text).
Proof. unfold simulate_human_typing. frame. apply frames_send_each. Qed.

Lemma frames_select_first_containing (element : WebElement)
    (opts : list WebElement) (value : string) :
  frames (select_first_containing element opts value).
Proof.
  induction opts as [|o rest IH]; cbn [select_first_containing]; frame.
  destruct (PyStr.contains _ _); frame.
Qed.

Lemma frames_fill_by_type (field_type : string) (element : WebElement)
    (value : string) :
  frames (fill_by_type field_type element value).
Proof.
  unfold fill_by_type.
  destruct (PyStr.mem field_type _); [apply frames_simulate_human_typing|].
  destruct (String.eqb field_type "textarea"); [apply frames_simulate_human_typing|].
  destruct (String.eqb field_type "select").
  - frame. apply frames_select_first_containing.
  - destruct (PyStr.mem field_type _); frame.
    destruct (negb _); frame.
Qed.

(** *** One field *)

Lemma new_FormField_pure (fi : field_info) (s : state) :
  new_FormField fi s = (fst (new_FormField fi s), s).
Proof.
  unfold new_FormField.
  destruct (fi_field_name fi), (fi_field_type fi), (fi_locator_type fi),
    (fi_locator_value fi), (fi_is_required fi); reflexivity.
Qed.

Lemma new_FormField_name (fi : field_info) (field : FormField) (s : state) :
  fst (new_FormField fi s) = Ok field ->
  fi_field_name fi = Some (field_name field)
  /\ fi_field_type fi = Some (field_type field)
  /\ fi_locator_type fi = Some (locator_type field)
  /\ fi_locator_value fi = Some (locator_value field).
Proof.
  unfold new_FormField.
  destruct (fi_field_name fi), (fi_field_type fi), (fi_locator_type fi),
    (fi_locator_value fi), (fi_is_required fi); try discriminate.
  cbn. intros [= <-]. cbn. auto.
Qed.

(** The [try] block of one iteration, path by path. *)
Lemma fill_field_run (mapping : list (string * string)) (fi : field_info)
    (name display field_type : string) (s : state) :
  fill_field mapping fi name display field_type s =
    match fst (new_FormField fi s) with
    | Raise e => (Raise e, s)
    | Ok field =>
        let s1 := logs (waits (fst (search (browser s) (strategies field)))) s in
        match snd (search (browser s) (strategies field)) with
        | None =>
            (Ok tt, with_failed display "Element not found with any strategy" s1)
        | Some element =>
            match do (ScrollIntoView element) s1 with
            | (Raise e, s2) => (Raise e, s2)
            | (Ok _, s2) =>
                if truthy (find_value mapping name) then
                  match fill_by_type field_type element
                          (match find_value mapping name with
                           | Some v => v
                           | None => ""
                           end) s2 with
                  | (Ok _, s3) => (Ok tt, with_filled display s3)
                  | (Raise e, s3) => (Raise e, s3)
                  end
                else
                  (Ok tt, with_failed display "No matching profile data found" s2)
            end
        end
    end.
Proof.
  unfold fill_field, bind at 1. rewrite new_FormField_pure. cbn [fst].
  destruct (fst (new_FormField fi s)) as [field|e]; [|reflexivity].
  unfold bind at 1. rewrite find_element_search. cbn zeta.
  destruct (snd (search (browser s) (strategies field))) as [element|];
    [|reflexivity].
  unfold bind at 1.
  destruct (do (ScrollIntoView element) _) as [[[]|e] s2]; [|reflexivity].
  destruct (truthy (find_value mapping name)); cbn [negb]; [|reflexivity].
  unfold bind.
  destruct (fill_by_type _ _ _ s2) as [[[]|e] s3]; reflexivity.
Qed.

(** One iteration of the field loop, path by path. *)
Lemma process_field_run (mapping : list (string * string)) (fi : field_info)
    (s : state) :
  process_field mapping fi s =
    match fi_field_name fi, fi_field_type fi with
    | None, _ => (Raise "'field_name'", s)
    | Some _, None => (Raise "'field_type'", s)
    | Some display, Some field_type =>
        match fill_field mapping fi (PyStr.lower display) display field_type s with
        | (Ok _, s') => (Ok tt, s')
        | (Raise e, s') => (Ok tt, with_failed display e s')
        end
    end.
Proof.
  unfold process_field, getitem, bind at 1.
  destruct (fi_field_name fi) as [display|]; [|reflexivity].
  unfold ret at 1, bind at 1.
  destruct (fi_field_type fi) as [field_type|]; [|reflexivity].
  unfold ret at 1, try_except.
  destruct (fill_field _ _ _ _ _ s) as [[[]|e] s']; reflexivity.
Qed.

(** Each field that is processed lands in exactly one of the two lists. *)
Lemma process_field_one_list (mapping : list (string * string))
    (fi : field_info) (s s' : state) :
  process_field mapping fi s = (Ok tt, s') ->
  exists display verdict,
    fi_field_name fi = Some display
    /\ filled_fields s' = (filled_fields s ++ filled_of [(display, verdict)])%list
    /\ failed_fields s' = (failed_fields s ++ failed_of [(display, verdict)])%list.
Proof.
  rewrite process_field_run.
  destruct (fi_field_name fi) as [display|]; [|discriminate].
  destruct (fi_field_type fi) as [ty|]; [|discriminate].
  rewrite fill_field_run.
  destruct (fst (new_FormField fi s)) as [field|e].
  - cbn zeta.
    destruct (snd (search (browser s) (strategies field))) as [element|].
    + pose proof (frames_do (ScrollIntoView element)
                    (logs (waits (fst (search (browser s) (strategies field)))) s)) as Hs.
      destruct (do (ScrollIntoView element) _) as [[[]|e] s2];
        cbn [snd logs filled_fields failed_fields] in Hs.
      * destruct (truthy (find_value mapping (PyStr.lower display))).
        -- pose proof (frames_fill_by_type ty element
                         (match find_value mapping (PyStr.lower display) with
                          | Some v => v | None => "" end) s2) as Hf.
           destruct (fill_by_type _ _ _ s2) as [[[]|e] s3]; cbn [snd] in Hf;
             intros [= <-].
           ++ exists display, None. cbn. rewrite app_nil_r.
              destruct Hs, Hf. repeat split; congruence.
           ++ exists display, (Some e). cbn. rewrite app_nil_r.
              destruct Hs, Hf. repeat split; congruence.
        -- intros [= <-]. exists display, (Some "No matching profile data found").
           cbn. rewrite app_nil_r. destruct Hs. repeat split; congruence.
      * intros [= <-]. exists display, (Some e). cbn. rewrite app_nil_r.
        destruct Hs. repeat split; congruence.
    + intros [= <-]. exists display, (Some "Element not found with any strategy").
      cbn. rewrite app_nil_r. auto.
  - intros [= <-]. exists display, (Some e). cbn. rewrite app_nil_r. auto.
Qed.

(** *** The field loop and the pass *)

Lemma records_length (records : list (string * option string)) :
  (length (filled_of records) + length (failed_of records) = length records)%nat.
Proof.
  unfold filled_of, failed_of.
  induction records as [|[name [reason|]] rest IH];
    cbn [flat_map snd fst app length] in *; lia.
Qed.

Lemma process_fields_records (mapping : list (string * string))
    (all_fields : list field_info) (s s' : state) :
  process_fields mapping all_fields s = (Ok tt, s') ->
  exists records,
    map (fun r => Some (fst r)) records = map fi_field_name all_fields
    /\ filled_fields s' = (filled_fields s ++ filled_of records)%list
    /\ failed_fields s' = (failed_fields s ++ failed_of records)%list.
Proof.
  revert s. induction all_fields as [|fi rest IH]; intros s.
  - cbn. intros [= <-]. exists []. cbn. now rewrite !app_nil_r.
  - cbn [process_fields]. unfold bind.
    destruct (process_field mapping fi s) as [[[]|e] s1] eqn:E; [|discriminate].
    intros H. destruct (IH _ H) as (records & Hn & Hf & Hx).
    destruct (process_field_one_list _ _ _ _ E) as (display & verdict & Hd & Hf1 & Hx1).
    exists ((display, verdict) :: records). cbn [map fst]. split; [congruence|].
    rewrite Hf, Hx, Hf1, Hx1, <- !app_assoc.
    change ((display, verdict) :: records)
      with ([(display, verdict)] ++ records)%list.
    unfold filled_of, failed_of. rewrite !flat_map_app. split; reflexivity.
Qed.

Lemma fault_result_run (all_fields : list field_info) (e : exn) (s : state) :
  (error_screenshot <- try_except (do (TakeScreenshot "error_form"))
                         (fun _ => ret "") ;;
   filled <- get_filled ;;
   failed <- get_failed ;;
   ret {| filling_status := "error";
          error_message := Some e;
          result_filled_fields := filled;
          result_failed_fields := failed;
          screenshot_path := error_screenshot;
          total_fields := length all_fields;
          success_rate := 0 |}) s
  = fault_result all_fields e s.
Proof.
  unfold fault_result, bind, try_except, get_filled, get_failed, ret.
  destruct (do (TakeScreenshot "error_form") s) as [[path|e'] s1]; reflexivity.
Qed.

(** The pass, path by path: the summary when the loop and the final
    screenshot go through, the handler's result otherwise. *)
Lemma fill_pass_run (mapping : list (string * string))
    (all_fields : list field_info) (s : state) :
  fill_pass mapping all_fields s =
    match process_fields mapping all_fields s with
    | (Ok _, s1) =>
        match do (TakeScreenshot "filled_form") s1 with
        | (Ok path, s2) => (Ok (summary all_fields path s2), s2)
        | (Raise e, s2) => fault_result all_fields e s2
        end
    | (Raise e, s1) => fault_result all_fields e s1
    end.
Proof.
  unfold fill_pass, try_except at 1, bind at 1.
  destruct (process_fields mapping all_fields s) as [[[]|e] s1].
  - unfold bind at 1.
    destruct (do (TakeScreenshot "filled_form") s1) as [[path|e] s2].
    + reflexivity.
    + apply fault_result_run.
  - apply fault_result_run.
Qed.

Lemma fault_result_message (all_fields : list field_info) (e : exn)
    (s s' : state) (r : FillingResult) :
  fault_result all_fields e s = (Ok r, s') ->
  error_message r = Some e /\ filling_status r = "error".
Proof.
  unfold fault_result. destruct (try_except _ _ s) as [shot s1].
  intros [= <- <-]. now split.
Qed.

(** A pass that returns without an overall fault went through the whole
    loop, and its result is the summary of the two lists. *)
Lemma fill_pass_completed (mapping : list (string * string))
    (all_fields : list field_info) (s s' : state) (r : FillingResult) :
  fill_pass mapping all_fields s = (Ok r, s') ->
  error_message r = None ->
  exists s1 path,
    process_fields mapping all_fields s = (Ok tt, s1)
    /\ filled_fields s' = filled_fields s1
    /\ failed_fields s' = failed_fields s1
    /\ r = summary all_fields path s'.
Proof.
  rewrite fill_pass_run.
  destruct (process_fields mapping all_fields s) as [[[]|e] s1] eqn:E.
  - pose proof (frames_do (TakeScreenshot "filled_form") s1) as Hs.
    destruct (do (TakeScreenshot "filled_form") s1) as [[path|e] s2];
      cbn [snd] in Hs.
    + intros [= <- <-] _. exists s1, path. destruct Hs. auto.
    + intros H Hn. apply fault_result_message in H. destruct H; congruence.
  - intros H Hn. apply fault_result_message in H. destruct H; congruence.
Qed.

(** The pass always returns a result dictionary. *)
Lemma fill_pass_returns (mapping : list (string * string))
    (all_fields : list field_info) (s : state) :
  exists r, fst (fill_pass mapping all_fields s) = Ok r.
Proof.
  rewrite fill_pass_run.
  assert (H : forall e s0, exists r, fst (fault_result all_fields e s0) = Ok r).
  { intros e s0. unfold fault_result. destruct (try_except _ _ s0). cbn. eauto. }
  destruct (process_fields mapping all_fields s) as [[[]|e] s1]; [|apply H].
  destruct (do (TakeScreenshot "filled_form") s1) as [[path|e] s2]; [|apply H].
  cbn. eauto.
Qed.

(** *** Rounding to two decimals

    First the exact arithmetic: it has each of the properties asked of
    the float operations. *)

Lemma round_half_even_cases (n : Z) (d : positive) :
  let m := Exact.round_half_even (n # d) in
  (2 * Z.abs (m * Zpos d - n) <= Zpos d)%Z
  /\ ((2 * Z.abs (m * Zpos d - n) = Zpos d)%Z -> Z.even m = true).
Proof.
  unfold Exact.round_half_even. cbn [Qnum Qden].
  pose proof (Z.div_mod n (Zpos d) ltac:(lia)) as E.
  pose proof (Z.mod_pos_bound n (Zpos d) ltac:(lia)) as B.
  set (q := (n / Zpos d)%Z) in *. set (r := (n mod Zpos d)%Z) in *.
  destruct (Z.ltb_spec (2 * r) (Zpos d)); [|destruct (Z.ltb_spec (Zpos d) (2 * r))].
  - split; [nia|]. intros H'. exfalso. nia.
  - split; [nia|]. intros H'. exfalso. nia.
  - destruct (Z.even q) eqn:Ev.
    + split; [nia|auto].
    + split; [nia|]. intros _. rewrite Z.even_add, Ev. reflexivity.
Qed.

Lemma Qabs_diff_num (m n : Z) (d : positive) :
  Qabs (inject_Z m - (n # d)) == Z.abs (m * Zpos d - n) # d.
Proof.
  unfold Qabs, Qminus, Qplus, Qopp, inject_Z, Qeq. cbn [Qnum Qden].
  rewrite Pos.mul_1_l. f_equal. f_equal. lia.
Qed.

Lemma round_half_even_near (x : Q) :
  Qabs (inject_Z (Exact.round_half_even x) - x) <= 1 # 2.
Proof.
  destruct x as [n d]. rewrite Qabs_diff_num.
  destruct (round_half_even_cases n d) as [H _].
  unfold Qle. cbn [Qnum Qden]. lia.
Qed.

Lemma exact_round2 (x : Q) :
  Exact.round x 2 = Exact.round_half_even (x * 100) # 100.
Proof. reflexivity. Qed.

Lemma exact_round2_error (x : Q) :
  Exact.round x 2 - x ==
    (inject_Z (Exact.round_half_even (x * 100)) - x * 100) * (1 # 100).
Proof. rewrite exact_round2. rewrite (Qmake_Qdiv _ 100). field. Qed.

Lemma exact_round2_near (x : Q) : Qabs (Exact.round x 2 - x) <= 1 # 200.
Proof.
  pose proof (round_half_even_near (x * 100)) as H.
  rewrite exact_round2_error, Qabs_Qmult.
  change (Qabs (1 # 100)) with (1 # 100). lra.
Qed.

Lemma exact_truediv_unit (a b : nat) :
  (0 < b)%nat -> (a <= b)%nat -> 0 <= Exact.truediv a b <= 1.
Proof.
  intros Hb Hab. unfold Exact.truediv.
  assert (Hpos : 0 < inject_Z (Z.of_nat b)).
  { unfold Qlt. cbn. lia. }
  assert (Ha : 0 <= inject_Z (Z.of_nat a)).
  { unfold Qle. cbn. lia. }
  assert (Hle : inject_Z (Z.of_nat a) <= inject_Z (Z.of_nat b)).
  { unfold Qle. cbn. lia. }
  split.
  - apply Qle_shift_div_l; [exact Hpos|]. lra.
  - apply Qle_shift_div_r; [exact Hpos|]. lra.
Qed.

Lemma exact_truediv_near (a b : nat) :
  (0 < b)%nat -> (a <= b)%nat ->
  Qabs (Exact.truediv a b - inject_Z (Z.of_nat a) / inject_Z (Z.of_nat b))
    <= 1 # 2 ^ 53.
Proof.
  intros _ _. unfold Exact.truediv.
  setoid_replace (inject_Z (Z.of_nat a) / inject_Z (Z.of_nat b)
                  - inject_Z (Z.of_nat a) / inject_Z (Z.of_nat b)) with 0 by ring.
  discriminate.
Qed.

Lemma exact_float_mul_range (x : Q) :
  0 <= x <= 1 -> 0 <= Exact.float_mul x 100 <= 100.
Proof. unfold Exact.float_mul. intros [Hlo Hhi]. split; lra. Qed.

Lemma exact_float_mul_near (x : Q) :
  0 <= x <= 1 -> Qabs (Exact.float_mul x 100 - x * 100) <= 1 # 2 ^ 47.
Proof.
  intros _. unfold Exact.float_mul.
  setoid_replace (x * 100 - x * 100) with 0 by ring. discriminate.
Qed.

Lemma exact_round_range (x : Q) :
  0 <= x <= 100 -> 0 <= Exact.round x 2 <= 100.
Proof.
  intros [Hlo Hhi]. pose proof (round_half_even_near (x * 100)) as Hn.
  apply Qabs_Qle_condition in Hn. destruct Hn as [Hn1 Hn2].
  set (m := Exact.round_half_even (x * 100)) in *.
  assert (Hm : (0 <= m <= 10000)%Z).
  { assert (H1 : - (1 # 2) <= inject_Z m) by lra.
    assert (H2 : inject_Z m <= 10000 + (1 # 2)) by lra.
    unfold Qle in H1, H2. cbn in H1, H2. lia. }
  rewrite exact_round2. fold m. unfold Qle. cbn. lia.
Qed.

Lemma exact_round_near (x : Q) :
  0 <= x <= 100 ->
  exists n : Z, Qabs ((n # 100) - x) <= 1 # 200
             /\ Qabs (Exact.round x 2 - (n # 100)) <= 1 # 2 ^ 47.
Proof.
  intros _. exists (Exact.round_half_even (x * 100)). split.
  - rewrite <- exact_round2. apply exact_round2_near.
  - rewrite exact_round2.
    setoid_replace ((Exact.round_half_even (x * 100) # 100)
                    - (Exact.round_half_even (x * 100) # 100)) with 0 by ring.
    discriminate.
Qed.

Lemma exact_round_zero : Exact.round 0 2 == 0.
Proof. reflexivity. Qed.

(** Then the arithmetic of the tool.  The rate computed from the two
    counts stays between 0 and 100 and within [2^-45] of the quotient
    [100 * filled / total]. *)
Lemma compute_success_rate_range (filled total : nat) :
  (filled <= total)%nat -> 0 <= compute_success_rate filled total <= 100.
Proof.
  intros Hle. unfold compute_success_rate.
  destruct (Nat.ltb_spec 0 total) as [Hpos|_]; [|split; discriminate].
  apply float_mul_range, truediv_unit; assumption.
Qed.

Lemma compute_success_rate_near (filled total : nat) :
  (0 < total)%nat -> (filled <= total)%nat ->
  Qabs (compute_success_rate filled total
        - 100 * inject_Z (Z.of_nat filled) / inject_Z (Z.of_nat total))
    <= 1 # 2 ^ 45.
Proof.
  intros Hpos Hle. unfold compute_success_rate.
  destruct (Nat.ltb_spec 0 total); [|lia].
  pose proof (truediv_unit filled total Hpos Hle) as Hu.
  pose proof (truediv_near filled total Hpos Hle) as Hd.
  pose proof (float_mul_near (truediv filled total) Hu) as Hm.
  set (q := inject_Z (Z.of_nat filled) / inject_Z (Z.of_nat total)) in *.
  setoid_replace (100 * inject_Z (Z.of_nat filled) / inject_Z (Z.of_nat total))
    with (q * 100).
  2:{ unfold q. field. intros E. unfold Qeq in E. cbn in E. lia. }
  set (d := truediv filled total) in *. set (m := float_mul d 100) in *.
  apply Qabs_Qle_condition in Hd. apply Qabs_Qle_condition in Hm.
  apply Qabs_Qle_condition.
  assert (E53 : (1 # 2 ^ 53) * 100 <= 1 # 2 ^ 46) by (unfold Qle; cbn; lia).
  assert (E47 : (1 # 2 ^ 47) + (1 # 2 ^ 46) <= 1 # 2 ^ 45) by (unfold Qle; cbn; lia).
  split; lra.
Qed.

(** *** What one iteration records *)

Lemma process_field_not_found (mapping : list (string * string))
    (fi : field_info) (field : FormField) (s : state) :
  fst (new_FormField fi s) = Ok field ->
  (forall x, In x (strategies field) -> resolves (browser s) x = false) ->
  process_field mapping fi s =
    (Ok tt,
     with_failed (field_name field) "Element not found with any strategy"
       (logs (waits (strategies field)) s)).
Proof.
  intros Hnew Hall. apply search_none in Hall.
  destruct (new_FormField_name _ _ _ Hnew) as (Hn & Ht & _).
  rewrite process_field_run, Hn, Ht, fill_field_run, Hnew. cbn zeta.
  now rewrite Hall, (search_none_tried _ _ Hall).
Qed.

(** One iteration that returns has appended the name to [filled_fields],
    or one failure, of one of the five kinds, to [failed_fields]. *)
Lemma process_field_verdict (mapping : list (string * string))
    (fi : field_info) (s s' : state) :
  process_field mapping fi s = (Ok tt, s') ->
  exists display,
    fi_field_name fi = Some display
    /\ ((filled_fields s' = (filled_fields s ++ [display])%list
         /\ failed_fields s' = failed_fields s)
        \/ (exists f k,
               recorded mapping fi s f k
               /\ failed_name f = display
               /\ filled_fields s' = filled_fields s
               /\ failed_fields s' = (failed_fields s ++ [f])%list)).
Proof.
  rewrite process_field_run.
  destruct (fi_field_name fi) as [display|] eqn:En; [|discriminate].
  destruct (fi_field_type fi) as [ty|] eqn:Et; [|discriminate].
  rewrite fill_field_run. intros H. exists display. split; [reflexivity|].
  revert H.
  destruct (fst (new_FormField fi s)) as [field|e] eqn:Enew.
  - cbn zeta.
    pose proof (find_element_search field s) as Hfind.
    destruct (snd (search (browser s) (strategies field))) as [element|].
    + set (s1 := logs (waits (fst (search (browser s) (strategies field)))) s) in *.
      pose proof (frames_do (ScrollIntoView element) s1) as Hs.
      destruct (do (ScrollIntoView element) s1) as [[[]|e] s2] eqn:Escroll;
        cbn [snd s1 logs filled_fields failed_fields] in Hs; destruct Hs as [Hs1 Hs2].
      * destruct (truthy (find_value mapping (PyStr.lower display))) eqn:Etruthy.
        -- pose proof (frames_fill_by_type ty element
                         (value_for mapping (PyStr.lower display)) s2) as Hf.
           fold (value_for mapping (PyStr.lower display)).
           destruct (fill_by_type _ _ _ s2) as [[[]|e] s3] eqn:Efill;
             cbn [snd] in Hf; destruct Hf as [Hf1 Hf2]; intros [= <-]; cbn.
           ++ left. split; congruence.
           ++ right. eexists; exists FillFault. split.
              { eapply recorded_fill; eauto. now rewrite Efill. }
              cbn. repeat split; congruence.
        -- intros [= <-]. right. eexists; exists NoProfileData. split.
           { eapply recorded_no_profile; eauto. }
           cbn. repeat split; congruence.
      * intros [= <-]. right. eexists; exists ScrollFault. split.
        { eapply recorded_scroll; eauto. now rewrite Escroll. }
        cbn. repeat split; congruence.
    + intros [= <-]. right. eexists; exists LookupFailure. split.
      { eapply recorded_lookup; eauto. now rewrite Hfind. }
      cbn. auto.
  - intros [= <-]. right. eexists; exists DescriptorFault. split.
    { eapply recorded_descriptor; eauto. }
    cbn. auto.
Qed.

Lemma process_field_raise (mapping : list (string * string))
    (fi : field_info) (s s' : state) (e : exn) :
  process_field mapping fi s = (Raise e, s') -> s' = s.
Proof.
  rewrite process_field_run.
  destruct (fi_field_name fi) as [display|]; [|now intros [= _ <-]].
  destruct (fi_field_type fi) as [ty|]; [|now intros [= _ <-]].
  destruct (fill_field _ _ _ _ _ s) as [[[]|e'] s1]; discriminate.
Qed.

(** Whatever the loop returns, every failure it has appended is explained
    by one of the fields. *)
Lemma process_fields_failures (mapping : list (string * string))
    (all_fields : list field_info) (s s' : state) (o : outcome unit) :
  process_fields mapping all_fields s = (o, s') ->
  forall f, In f (failed_fields s') ->
    In f (failed_fields s)
    \/ exists fi s0 k, In fi all_fields /\ recorded mapping fi s0 f k.
Proof.
  revert s. induction all_fields as [|fi rest IH]; intros s.
  - cbn. intros [= _ <-]. auto.
  - cbn [process_fields]. unfold bind.
    destruct (process_field mapping fi s) as [[[]|e] s1] eqn:E.
    + intros H f Hf. destruct (IH _ H f Hf) as [Hin|(fi' & s0 & k & Hin & Hr)].
      * destruct (process_field_verdict _ _ _ _ E)
          as (display & _ & [[_ Hx]|(f' & k & Hr & _ & _ & Hx)]).
        -- left. congruence.
        -- rewrite Hx in Hin. apply in_app_or in Hin.
           destruct Hin as [Hin|[<-|[]]]; [now left|].
           right. exists fi, s, k. split; [now left|exact Hr].
      * right. exists fi', s0, k. split; [now right|exact Hr].
    + intros [= _ <-] f Hf. apply process_field_raise in E. subst s1. now left.
Qed.

(** The lists of the returned dictionary are the lists left by the loop. *)
Lemma fill_pass_lists (mapping : list (string * string))
    (all_fields : list field_info) (s s' : state) (r : FillingResult) :
  fill_pass mapping all_fields s = (Ok r, s') ->
  exists o s1,
    process_fields mapping all_fields s = (o, s1)
    /\ result_filled_fields r = filled_fields s1
    /\ result_failed_fields r = failed_fields s1.
Proof.
  rewrite fill_pass_run.
  assert (Hfault : forall e s1,
             fault_result all_fields e s1 = (Ok r, s') ->
             result_filled_fields r = filled_fields s1
             /\ result_failed_fields r = failed_fields s1).
  { intros e s1. unfold fault_result.
    assert (Hfr : frames (try_except (do (TakeScreenshot "error_form"))
                            (fun _ => ret ""))) by frame.
    specialize (Hfr s1). destruct (try_except _ _ s1) as [shot s2].
    cbn [snd] in Hfr. destruct Hfr. intros [= <- <-]. cbn. auto. }
  destruct (process_fields mapping all_fields s) as [[[]|e] s1] eqn:E.
  - pose proof (frames_do (TakeScreenshot "filled_form") s1) as Hs.
    destruct (do (TakeScreenshot "filled_form") s1) as [[path|e] s2];
      cbn [snd] in Hs; destruct Hs as [Hs1 Hs2].
    + intros [= <- <-]. exists (Ok tt), s1. cbn. auto.
    + intros H. destruct (Hfault _ _ H). exists (Ok tt), s1.
      repeat split; congruence.
  - intros H. destruct (Hfault _ _ H). exists (Raise e), s1. auto.
Qed.

(** After an iteration that returns, the loop goes on with the rest. *)
Lemma process_fields_step (mapping : list (string * string))
    (fi : field_info) (rest : list field_info) (s s1 : state) :
  process_field mapping fi s = (Ok tt, s1) ->
  process_fields mapping (fi :: rest) s = process_fields mapping rest s1.
Proof. intros H. cbn [process_fields]. unfold bind. now rewrite H. Qed.

(** *** Faults of typing and clicking leave their branch *)

Lemma faults_app (a b : list call) : faults (a ++ b) = (faults a ++ faults b)%list.
Proof. apply flat_map_app. Qed.

Lemma propagates_ret {A : Type} (a : A) : propagates (ret a).
Proof. intros s. exists []. cbn. now rewrite app_nil_r. Qed.

Lemma propagates_do {T : Type} (c : command T) : propagates (do c).
Proof.
  intros s. rewrite do_run. cbn [fst snd calls]. eexists. split; [reflexivity|].
  destruct (fst (perform T c (browser s))) as [a|e]; cbn; [reflexivity|].
  exists [], T, c. now split.
Qed.

Lemma propagates_bind {A B : Type} (m : M A) (k : A -> M B) :
  propagates m -> (forall a, propagates (k a)) -> propagates (bind m k).
Proof.
  intros Hm Hk s. unfold bind. destruct (Hm s) as (cs & Hc & Ho).
  destruct (m s) as [[a|e] s1]; cbn [fst snd] in *.
  - destruct (Hk a s1) as (cs' & Hc' & Ho'). exists (cs ++ cs')%list.
    rewrite Hc', Hc, app_assoc. split; [reflexivity|].
    destruct (fst (k a s1)) as [b|e].
    + now rewrite faults_app, Ho, Ho'.
    + destruct Ho' as (pre & T & c & -> & Hpre).
      exists (cs ++ pre)%list, T, c. rewrite app_assoc. split; [reflexivity|].
      now rewrite faults_app, Ho, Hpre.
  - exists cs. auto.
Qed.

Lemma propagates_send_each (element : WebElement) (text : string) :
  propagates (send_each element text).
Proof.
  induction text; cbn [send_each].
  - apply propagates_ret.
  - apply propagates_bind; [apply propagates_do|intros _; exact IHtext].
Qed.

Lemma propagates_simulate_human_typing (element : WebElement) (text : string) :
  propagates (simulate_human_typing element text).
Proof.
  apply propagates_bind; [apply propagates_do|intros _; apply propagates_send_each].
Qed.

Lemma propagates_typing_and_clicking (field_type : string)
    (element : WebElement) (value : string) :
  PyStr.mem field_type
    ["text"; "email"; "tel"; "url"; "password"; "textarea"; "checkbox"; "radio"]
    = true ->
  propagates (fill_by_type field_type element value).
Proof.
  intros H. unfold fill_by_type.
  destruct (PyStr.mem field_type ["text"; "email"; "tel"; "url"; "password"]) eqn:E1;
    [apply propagates_simulate_human_typing|].
  destruct (String.eqb field_type "textarea") eqn:E2;
    [apply propagates_simulate_human_typing|].
  destruct (String.eqb field_type "select") eqn:E3.
  - apply String.eqb_eq in E3. subst field_type. discriminate.
  - destruct (PyStr.mem field_type ["checkbox"; "radio"]) eqn:E4.
    + apply propagates_bind; [apply propagates_do|intros selected].
      destruct (negb selected); [apply propagates_do|apply propagates_ret].
    + exfalso. unfold PyStr.mem in *. cbn [existsb] in *.
      rewrite !orb_false_r in *. rewrite E2 in H.
      repeat match goal with
             | H : (_ || _)%bool = false |- _ => apply orb_false_iff in H; destruct H
             end.
      repeat match goal with
             | H : String.eqb field_type _ = false |- _ => rewrite H in *; clear H
             end.
      discriminate.
Qed.

(** The last fallback of the [select] branch has no [try] of its own. *)
Lemma propagates_select_first_containing (element : WebElement)
    (opts : list WebElement) (value : string) :
  propagates (select_first_containing element opts value).
Proof.
  induction opts as [|option rest IH]; cbn [select_first_containing].
  - apply propagates_ret.
  - apply propagates_bind; [apply propagates_do|intros text].
    destruct (PyStr.contains (PyStr.lower value) (PyStr.lower text)).
    + apply propagates_bind; [apply propagates_do|intros text'; apply propagates_do].
    + exact IH.
Qed.

Lemma fill_by_type_select (element : WebElement) (value : string) :
  fill_by_type "select" element value =
    (do (NewSelect element) ;;
     try_except (do (SelectByVisibleText element value))
       (fun _ =>
          try_except (do (SelectByValue element value))
            (fun _ =>
               opts <- do (SelectOptions element) ;;
               select_first_containing element opts value))).
Proof. reflexivity. Qed.

(** An unhandled type takes no branch of the chain. *)
Lemma fill_by_type_unhandled (field_type : string) (element : WebElement)
    (value : string) :
  PyStr.mem field_type
    ["text"; "email"; "tel"; "url"; "password"; "textarea"; "select";
     "checkbox"; "radio"] = false ->
  fill_by_type field_type element value = ret tt.
Proof.
  intros H. unfold fill_by_type, PyStr.mem in *. cbn [existsb] in *.
  rewrite !orb_false_r in *.
  repeat match goal with
         | H : (_ || _)%bool = false |- _ => apply orb_false_iff in H; destruct H
         end.
  repeat match goal with
         | H : String.eqb field_type _ = false |- _ => rewrite H in *; clear H
         end.
  reflexivity.
Qed.

Lemma find_element_found (field : FormField) (element : WebElement)
    (s s1 : state) :
  find_element_with_multiple_strategies field s = (Ok (Some element), s1) ->
  snd (search (browser s) (strategies field)) = Some element
  /\ s1 = logs (waits (fst (search (browser s) (strategies field)))) s.
Proof. rewrite find_element_search. intros [= H1 H2]. auto. Qed.

(** The path of one iteration on which the element is found, scrolled
    into view and a value is found for it. *)
Lemma process_field_reaches_fill (mapping : list (string * string))
    (fi : field_info) (field : FormField) (display field_type : string)
    (element : WebElement) (s s1 s2 : state) :
  fi_field_name fi = Some display ->
  fi_field_type fi = Some field_type ->
  fst (new_FormField fi s) = Ok field ->
  find_element_with_multiple_strategies field s = (Ok (Some element), s1) ->
  do (ScrollIntoView element) s1 = (Ok tt, s2) ->
  truthy (find_value mapping (PyStr.lower display)) = true ->
  process_field mapping fi s =
    match fill_by_type field_type element
            (value_for mapping (PyStr.lower display)) s2 with
    | (Ok _, s3) => (Ok tt, with_filled display s3)
    | (Raise e, s3) => (Ok tt, with_failed display e s3)
    end.
Proof.
  intros Hn Ht Hnew Hfind Hscroll Hv.
  destruct (find_element_found _ _ _ _ Hfind) as [Hsearch ->].
  rewrite process_field_run, Hn, Ht, fill_field_run, Hnew. cbn zeta.
  rewrite Hsearch, Hscroll, Hv. fold (value_for mapping (PyStr.lower display)).
  destruct (fill_by_type _ _ _ s2) as [[[]|e] s3]; reflexivity.
Qed.

(** *** The claims about locator resolution *)

(** C4: the candidates are tried in the fixed priority order: the
    declared locator, by-name underscore, by-name hyphen, by-id underscore,
    by-id hyphen, then the two XPath probes of the first of "name",
    "email", "phone" that the lowered field name contains (none when it
    contains none of them).  Whenever a candidate of that list resolves
    and none before it does, resolution returns the element of that
    candidate, having waited for the candidates up to it, once each and in
    order, and for no later one.  Every element returned is obtained that
    way.  When the declared locator resolves, it is the only candidate
    waited for. *)
Theorem resolution_first_match_in_priority_order
    (field : FormField) (s : state) :
  let name := PyStr.lower (field_name field) in
  let probes :=
    if PyStr.contains "name" name then
      [ (By.XPATH, "//input[contains(@placeholder, 'name')]");
        (By.XPATH, "//input[contains(@aria-label, 'name')]") ]
    else if PyStr.contains "email" name then
      [ (By.XPATH, "//input[@type='email']");
        (By.XPATH, "//input[contains(@placeholder, 'email')]") ]
    else if PyStr.contains "phone" name then
      [ (By.XPATH, "//input[@type='tel']");
        (By.XPATH, "//input[contains(@placeholder, 'phone')]") ]
    else [] in
  strategies field =
    ([ (locator_type field, locator_value field);
       (By.NAME, PyStr.replace " " "_" name);
       (By.NAME, PyStr.replace " " "-" name);
       (By.ID, PyStr.replace " " "_" name);
       (By.ID, PyStr.replace " " "-" name) ] ++ probes)%list
  /\ (forall pre x post el,
        strategies field = (pre ++ x :: post)%list ->
        (forall y, In y pre -> resolves (browser s) y = false) ->
        presence_of_element_located (browser s) (normalise_locator x) = Ok el ->
        find_element_with_multiple_strategies field s =
          (Ok (Some el), logs (waits (pre ++ [x])) s))
  /\ (forall el,
        fst (find_element_with_multiple_strategies field s) = Ok (Some el) ->
        exists pre x post,
          strategies field = (pre ++ x :: post)%list
          /\ (forall y, In y pre -> resolves (browser s) y = false)
          /\ presence_of_element_located (browser s) (normalise_locator x) = Ok el
          /\ snd (find_element_with_multiple_strategies field s) =
               logs (waits (pre ++ [x])) s)
  /\ (forall el,
        presence_of_element_located (browser s)
          (normalise_locator (declared_locator field)) = Ok el ->
        find_element_with_multiple_strategies field s =
          (Ok (Some el),
           logs [Wait (normalise_locator (declared_locator field))] s)).
Proof.
  intros name probes. split; [reflexivity|]. split; [|split].
  - intros pre x post el Hsplit Hpre Hx.
    rewrite find_element_search, Hsplit, (search_skip _ _ _ Hpre).
    cbn [search fst snd]. rewrite Hx. reflexivity.
  - intros el. rewrite find_element_search. cbn [fst snd].
    intros H.
    assert (H' : snd (search (browser s) (strategies field)) = Some el)
      by congruence.
    destruct (search_some _ _ _ H') as (pre & x & post & E1 & E2 & Hpre & Hx).
    exists pre, x, post. now rewrite E2.
  - intros el H. rewrite find_element_search.
    unfold strategies. cbn [app search]. unfold declared_locator in H.
    now rewrite H.
Qed.

(** C5: resolution never raises; when every candidate fails it returns
    [None], having waited for each candidate once, and the caller records
    the field in the failure list with a reason string. *)
Theorem resolution_not_found_is_reported_as_data
    (mapping : list (string * string)) (fi : field_info)
    (field : FormField) (s : state) :
  (exists r, fst (find_element_with_multiple_strategies field s) = Ok r)
  /\ ((forall x, In x (strategies field) -> resolves (browser s) x = false) ->
      find_element_with_multiple_strategies field s =
        (Ok None, logs (waits (strategies field)) s)
      /\ (fst (new_FormField fi s) = Ok field ->
          process_field mapping fi s =
            (Ok tt,
             with_failed (field_name field) "Element not found with any strategy"
               (logs (waits (strategies field)) s)))).
Proof.
  split.
  - rewrite find_element_search. cbn [fst]. eauto.
  - intros Hall. apply search_none in Hall.
    assert (Hfind : find_element_with_multiple_strategies field s =
                      (Ok None, logs (waits (strategies field)) s)).
    { rewrite find_element_search, Hall. now rewrite (search_none_tried _ _ Hall). }
    split; [exact Hfind|].
    intros Hnew. unfold process_field, new_FormField in *.
    destruct (fi_field_name fi) as [n|] eqn:En; [|discriminate].
    destruct (fi_field_type fi) as [t|] eqn:Et; [|discriminate].
    unfold getitem, bind at 1 2, ret, try_except, fill_field, bind at 1.
    unfold new_FormField. rewrite En, Et.
    destruct (fi_locator_type fi); [|discriminate].
    destruct (fi_locator_value fi); [|discriminate].
    destruct (fi_is_required fi); [|discriminate].
    unfold ret in *. cbn [fst] in Hnew. injection Hnew as <-.
    unfold bind. rewrite Hfind. reflexivity.
Qed.

(** C3 (amended): when the lowered field name contains "email" and does
    not contain "name", and none of the declared, by-name and by-id
    candidates resolves, the [type=email] probe is waited for right after
    those five, and it decides the result when it resolves; this covers a
    field named "Email Address". *)
Theorem email_probe_attempted_unless_name_field
    (field : FormField) (s : state) :
  let name := PyStr.lower (field_name field) in
  (forall x, In x (firstn 5 (strategies field)) -> resolves (browser s) x = false) ->
  (PyStr.contains "email" name = true -> PyStr.contains "name" name = false ->
     (exists later,
         calls (snd (find_element_with_multiple_strategies field s)) =
           (calls s ++ waits (firstn 5 (strategies field))
              ++ Wait email_type_probe :: later)%list)
     /\ (forall el,
           presence_of_element_located (browser s) email_type_probe = Ok el ->
           fst (find_element_with_multiple_strategies field s) = Ok (Some el)))
  /\ (field_name field = "Email Address" ->
      forall el,
        presence_of_element_located (browser s) email_type_probe = Ok el ->
        find_element_with_multiple_strategies field s =
          (Ok (Some el),
           logs (waits (firstn 5 (strategies field)) ++ [Wait email_type_probe]) s)).
Proof.
  intros name Hfive.
  assert (Hgen : PyStr.contains "email" name = true ->
                 PyStr.contains "name" name = false ->
                 skipn 5 (strategies field) =
                   [ email_type_probe;
                     (By.XPATH, "//input[contains(@placeholder, 'email')]") ]).
  { intros He Hn. unfold strategies. fold name. rewrite He, Hn. reflexivity. }
  split.
  - intros He Hn. specialize (Hgen He Hn).
    rewrite find_element_search, (strategies_split field).
    rewrite search_skip by exact Hfive. rewrite Hgen. cbn [fst snd logs calls].
    cbn [search]. change (normalise_locator email_type_probe) with email_type_probe.
    destruct (presence_of_element_located (browser s) email_type_probe) as [el|e] eqn:E.
    + cbn [fst snd]. split.
      * exists []. unfold waits. rewrite map_app. reflexivity.
      * intros el' [= ->]. reflexivity.
    + split; [|discriminate].
      destruct (presence_of_element_located (browser s)
                  (normalise_locator (By.XPATH, "//input[contains(@placeholder, 'email')]")));
        cbn [fst snd]; eexists; unfold waits; rewrite map_app; reflexivity.
  - intros Hname el Hel.
    assert (He : PyStr.contains "email" name = true)
      by (unfold name; now rewrite Hname).
    assert (Hn : PyStr.contains "name" name = false)
      by (unfold name; now rewrite Hname).
    specialize (Hgen He Hn).
    rewrite find_element_search, (strategies_split field).
    rewrite search_skip by exact Hfive. rewrite Hgen. cbn [search].
    change (normalise_locator email_type_probe) with email_type_probe.
    rewrite Hel. cbn [fst snd]. unfold waits. rewrite map_app. reflexivity.
Qed.

(** *** The claims about the fill pass *)

(** C9: in a pass that completes without an overall fault, every field is
    recorded in exactly one of [filled_fields] and [failed_fields], in
    order, so the two lengths add up to [total_fields]. *)
Theorem completed_pass_partitions_fields
    (p : profile) (all_fields : list field_info) (d : driver)
    (r : FillingResult) (s' : state) :
  run_fill_pass p all_fields d = (Ok r, s') ->
  error_message r = None ->
  (exists records,
      map (fun x => Some (fst x)) records = map fi_field_name all_fields
      /\ result_filled_fields r = filled_of records
      /\ result_failed_fields r = failed_of records)
  /\ (length (result_filled_fields r) + length (result_failed_fields r)
      = total_fields r)%nat.
Proof.
  unfold run_fill_pass. intros Hrun Hmsg.
  destruct (fill_pass_completed _ _ _ _ _ Hrun Hmsg)
    as (s1 & path & Hloop & Hf & Hx & ->).
  destruct (process_fields_records _ _ _ _ Hloop) as (records & Hn & Hf1 & Hx1).
  cbn [initial filled_fields failed_fields app] in Hf1, Hx1.
  cbn [summary result_filled_fields result_failed_fields total_fields].
  rewrite Hf, Hx, Hf1, Hx1. split.
  - exists records. auto.
  - rewrite records_length. rewrite <- (length_map fi_field_name all_fields), <- Hn.
    now rewrite length_map.
Qed.

(** C1 (amended): in a pass that completes without an overall fault, the
    reported [success_rate] is [100 * filled / total] rounded to two
    decimals in floating point when [total > 0]: it is within one float
    rounding ([2^-47]) of a whole number of hundredths, and that number of
    hundredths is within 0.005, plus the float error of the quotient
    ([2^-45]), of [100 * filled / total]; so when the quotient has at
    most two decimals the reported rate is within one float rounding of
    the quotient itself.  It is 0 when [total = 0].  The float operations
    enter through the bounds stated with them; which way a quotient
    half-way between two numbers of hundredths is rounded is left open. *)
Theorem reported_success_rate_is_rounded_ratio
    (p : profile) (all_fields : list field_info) (d : driver)
    (r : FillingResult) (s' : state) :
  run_fill_pass p all_fields d = (Ok r, s') ->
  error_message r = None ->
  let filled := inject_Z (Z.of_nat (length (result_filled_fields r))) in
  let total := inject_Z (Z.of_nat (total_fields r)) in
  (total_fields r = 0%nat -> success_rate r == 0)
  /\ ((0 < total_fields r)%nat ->
      (exists n : Z,
          Qabs (success_rate r - (n # 100)) <= 1 # 2 ^ 47
          /\ Qabs ((n # 100) - 100 * filled / total) <= (1 # 200) + (1 # 2 ^ 45))
      /\ ((Z.of_nat (total_fields r)
             | 10000 * Z.of_nat (length (result_filled_fields r)))%Z ->
          Qabs (success_rate r - 100 * filled / total) <= 1 # 2 ^ 47)).
Proof.
  unfold run_fill_pass. intros Hrun Hmsg.
  destruct (fill_pass_completed _ _ _ _ _ Hrun Hmsg)
    as (s1 & path & Hloop & Hf & _ & ->).
  destruct (process_fields_records _ _ _ _ Hloop) as (records & Hn & Hf1 & _).
  cbn [initial filled_fields app] in Hf1.
  assert (Hle : (length (filled_fields s') <= length all_fields)%nat).
  { rewrite Hf, Hf1, <- (length_map fi_field_name all_fields), <- Hn, length_map.
    pose proof (records_length records). lia. }
  cbn [summary result_filled_fields total_fields success_rate].
  set (f := length (filled_fields s')) in *. set (t := length all_fields) in *.
  cbn zeta. unfold round2. split.
  - intros Ht. unfold compute_success_rate. rewrite Ht. exact round_zero.
  - intros Ht.
    pose proof (compute_success_rate_range f t Hle) as Hr.
    pose proof (compute_success_rate_near f t Ht Hle) as Hc.
    destruct (round_near _ Hr) as (n & Hn1 & Hn2).
    set (x := compute_success_rate f t) in *.
    set (q := 100 * inject_Z (Z.of_nat f) / inject_Z (Z.of_nat t)) in *.
    assert (Hnq : Qabs ((n # 100) - q) <= (1 # 200) + (1 # 2 ^ 45)).
    { apply Qabs_Qle_condition in Hn1. apply Qabs_Qle_condition in Hc.
      apply Qabs_Qle_condition. split; lra. }
    split.
    + exists n. split; assumption.
    + intros [k Hk].
      assert (Hnz : ~ inject_Z (Z.of_nat t) == 0).
      { intros E. unfold Qeq in E. cbn in E. lia. }
      assert (Hq : q == k # 100).
      { unfold q. rewrite (Qmake_Qdiv k 100).
        assert (Hkt : inject_Z k * inject_Z (Z.of_nat t) ==
                      10000 * inject_Z (Z.of_nat f)).
        { rewrite <- inject_Z_mult, <- Hk. now rewrite inject_Z_mult. }
        apply (Qmult_inj_r _ _ (inject_Z (Z.of_nat t) * 100)).
        { intros E. apply Qmult_integral in E. destruct E as [E|E]; [auto|discriminate]. }
        transitivity (10000 * inject_Z (Z.of_nat f)); [field; exact Hnz|].
        rewrite <- Hkt. field. }
      assert (En : n = k).
      { rewrite Hq in Hnq. apply Qabs_Qle_condition in Hnq.
        destruct Hnq as [H1 H2]. unfold Qle in H1, H2. cbn in H1, H2. lia. }
      subst n. rewrite Hq. exact Hn2.
Qed.

(** C2 (amended): the status of a completed pass is a function of the
    filled count and the total alone: "success" when they are equal,
    "partial" when the filled count is strictly between zero and the
    total, "error" when no field out of a positive total was filled.  A
    pass over a single field that no candidate resolves has status
    "error". *)
Theorem aggregate_status_of_counts
    (p : profile) (all_fields : list field_info) (d : driver)
    (r : FillingResult) (s' : state) :
  run_fill_pass p all_fields d = (Ok r, s') ->
  (error_message r = None ->
     let filled := length (result_filled_fields r) in
     let total := total_fields r in
     filling_status r = overall_status filled total
     /\ (filled = total -> filling_status r = "success")
     /\ ((0 < filled < total)%nat -> filling_status r = "partial")
     /\ (filled = 0%nat -> (0 < total)%nat -> filling_status r = "error"))
  /\ (forall fi field,
        all_fields = [fi] ->
        fst (new_FormField fi (initial d)) = Ok field ->
        (forall x, In x (strategies field) -> resolves d x = false) ->
        filling_status r = "error"
        /\ result_failed_fields r =
             [{| failed_name := field_name field;
                 error := "Element not found with any strategy" |}]).
Proof.
  unfold run_fill_pass. intros Hrun. split.
  - intros Hmsg.
    destruct (fill_pass_completed _ _ _ _ _ Hrun Hmsg)
      as (s1 & path & _ & _ & _ & ->).
    cbn [summary result_filled_fields total_fields filling_status].
    set (f := length (filled_fields s')). set (t := length all_fields).
    cbn zeta. unfold overall_status. split; [reflexivity|]. split; [|split].
    + intros ->. now rewrite Nat.eqb_refl.
    + intros [H1 H2]. destruct (Nat.eqb_spec f t); [lia|].
      destruct (Nat.ltb_spec 0 f); [reflexivity|lia].
    + intros -> Ht. destruct (Nat.eqb_spec 0 t); [lia|]. reflexivity.
  - intros fi field -> Hnew Hall. revert Hrun. rewrite fill_pass_run.
    cbn [process_fields]. unfold bind at 1.
    rewrite (process_field_not_found _ _ _ _ Hnew Hall). unfold ret at 1.
    destruct (do (TakeScreenshot "filled_form") _) as [[path|e] s2] eqn:Eshot.
    + pose proof (frames_do (TakeScreenshot "filled_form")
                    (with_failed (field_name field)
                       "Element not found with any strategy"
                       (logs (waits (strategies field)) (initial d)))) as Hs.
      rewrite Eshot in Hs. cbn in Hs. destruct Hs as [Hs1 Hs2].
      intros [= <- <-]. cbn [summary filling_status result_failed_fields].
      rewrite Hs1, Hs2. split; reflexivity.
    + intros H.
      destruct (fill_pass_lists (field_mapping p) [fi] (initial d) s' r)
        as (o & s1 & Hloop & _ & Hx).
      { rewrite fill_pass_run. cbn [process_fields]. unfold bind at 1.
        rewrite (process_field_not_found _ _ _ _ Hnew Hall). unfold ret at 1.
        now rewrite Eshot. }
      apply fault_result_message in H. destruct H as [_ H]. split; [exact H|].
      rewrite Hx. revert Hloop. cbn [process_fields]. unfold bind at 1.
      rewrite (process_field_not_found _ _ _ _ Hnew Hall). unfold ret.
      intros [= _ <-]. reflexivity.
Qed.

(** C6 (amended): every failure recorded during a pass comes from one of
    its fields and is of one of five kinds: a lookup failure, an element
    for which the profile has no usable value, or a fault raised by the
    construction of the descriptor, by scrolling the element into view or
    by the type-specific interaction.  The first two carry a fixed reason,
    the other three the message of the fault. *)
Theorem recorded_failures_have_five_kinds
    (p : profile) (all_fields : list field_info) (d : driver)
    (r : FillingResult) (s' : state) :
  run_fill_pass p all_fields d = (Ok r, s') ->
  forall f, In f (result_failed_fields r) ->
  exists fi s0 k,
    In fi all_fields
    /\ recorded (field_mapping p) fi s0 f k
    /\ fi_field_name fi = Some (failed_name f)
    /\ (k = LookupFailure -> error f = "Element not found with any strategy")
    /\ (k = NoProfileData -> error f = "No matching profile data found").
Proof.
  unfold run_fill_pass. intros Hrun f Hf.
  destruct (fill_pass_lists _ _ _ _ _ Hrun) as (o & s1 & Hloop & _ & Hx).
  rewrite Hx in Hf.
  destruct (process_fields_failures _ _ _ _ _ Hloop f Hf)
    as [[]|(fi & s0 & k & Hin & Hr)].
  exists fi, s0, k. split; [exact Hin|]. split; [exact Hr|].
  destruct Hr; cbn; repeat split; auto; discriminate.
Qed.

(** C7 (amended): when the type-specific interaction of a field raises a
    fault out of its branch, the fault is caught at the field level, the
    field is recorded in the failure list with the raised message, no
    further call is made to the browser for that field, and the loop goes
    on with the next field.  Every fault of a typing or clicking command
    leaves its branch at once: the command that raised is the last one
    the branch runs.  In the [select] branch a fault of [Select(element)]
    leaves the branch; a fault of [select_by_visible_text] called with
    the value is caught in the branch, which then selects by value on the
    same element and returns if that succeeds; a fault of that
    [select_by_value] is caught too, and the options are searched; every
    fault raised during that search, the one of its
    [select_by_visible_text] included, leaves the branch. *)
Theorem interaction_fault_is_recorded_and_pass_continues
    (mapping : list (string * string)) (fi : field_info)
    (rest : list field_info) (field : FormField) (display field_type : string)
    (element : WebElement) (value : string) :
  (forall (s s1 s2 s3 : state) (e : exn),
      fi_field_name fi = Some display ->
      fi_field_type fi = Some field_type ->
      fst (new_FormField fi s) = Ok field ->
      find_element_with_multiple_strategies field s = (Ok (Some element), s1) ->
      do (ScrollIntoView element) s1 = (Ok tt, s2) ->
      truthy (find_value mapping (PyStr.lower display)) = true ->
      fill_by_type field_type element
        (value_for mapping (PyStr.lower display)) s2 = (Raise e, s3) ->
      process_field mapping fi s = (Ok tt, with_failed display e s3)
      /\ process_fields mapping (fi :: rest) s =
           process_fields mapping rest (with_failed display e s3)
      /\ (PyStr.mem field_type
            ["text"; "email"; "tel"; "url"; "password"; "textarea";
             "checkbox"; "radio"] = true ->
          exists pre (T : Type) (c : command T),
            calls s3 = (calls s2 ++ pre ++ [Do c (Some e)])%list
            /\ faults pre = []))
  /\ (PyStr.mem field_type
        ["text"; "email"; "tel"; "url"; "password"; "textarea";
         "checkbox"; "radio"] = true ->
      propagates (fill_by_type field_type element value))
  /\ (forall (s s1 : state) (e : exn),
        do (NewSelect element) s = (Raise e, s1) ->
        fill_by_type "select" element value s = (Raise e, s1))
  /\ (forall (s s1 s2 s3 : state) (e1 : exn),
        do (NewSelect element) s = (Ok tt, s1) ->
        do (SelectByVisibleText element value) s1 = (Raise e1, s2) ->
        do (SelectByValue element value) s2 = (Ok tt, s3) ->
        fill_by_type "select" element value s = (Ok tt, s3))
  /\ (forall (s s1 s2 s3 : state) (e1 e2 : exn),
        do (NewSelect element) s = (Ok tt, s1) ->
        do (SelectByVisibleText element value) s1 = (Raise e1, s2) ->
        do (SelectByValue element value) s2 = (Raise e2, s3) ->
        fill_by_type "select" element value s =
          (opts <- do (SelectOptions element) ;;
           select_first_containing element opts value) s3)
  /\ propagates (opts <- do (SelectOptions element) ;;
                 select_first_containing element opts value).
Proof.
  split; [|split; [|split; [|split; [|split]]]].
  - intros s s1 s2 s3 e Hn Ht Hnew Hfind Hscroll Hv Hfill.
    assert (Hp : process_field mapping fi s = (Ok tt, with_failed display e s3)).
    { rewrite (process_field_reaches_fill _ _ _ _ _ _ _ _ _ Hn Ht Hnew Hfind Hscroll Hv).
      now rewrite Hfill. }
    split; [exact Hp|]. split; [now apply process_fields_step|].
    intros Hty.
    destruct (propagates_typing_and_clicking field_type element
                (value_for mapping (PyStr.lower display)) Hty s2)
      as (cs & Hc & Ho).
    rewrite Hfill in Hc, Ho. cbn [fst snd] in Hc, Ho.
    destruct Ho as (pre & T & c & -> & Hpre). eauto.
  - intros Hty. now apply propagates_typing_and_clicking.
  - intros s s1 e H. rewrite fill_by_type_select. unfold bind at 1.
    now rewrite H.
  - intros s s1 s2 s3 e1 H1 H2 H3. rewrite fill_by_type_select.
    unfold bind at 1. rewrite H1. unfold try_except at 1. rewrite H2.
    unfold try_except. now rewrite H3.
  - intros s s1 s2 s3 e1 e2 H1 H2 H3. rewrite fill_by_type_select.
    unfold bind at 1. rewrite H1. unfold try_except at 1. rewrite H2.
    unfold try_except. now rewrite H3.
  - apply propagates_bind; [apply propagates_do|intros opts].
    apply propagates_select_first_containing.
Qed.

(** C8 (amended): the declared locator is required.  A descriptor cannot
    be constructed from an entry that lacks the locator strategy or the
    locator value; the pass records such a field as failed without any
    lookup.  For every descriptor the declared locator is the first
    candidate and the first one waited for, and the by-name underscore
    candidate is the second. *)
Theorem declared_locator_is_required
    (mapping : list (string * string)) (fi : field_info)
    (field : FormField) (s : state) :
  (fi_locator_type fi = None \/ fi_locator_value fi = None ->
     (exists e, new_FormField fi s = (Raise e, s))
     /\ (forall display field_type,
           fi_field_name fi = Some display ->
           fi_field_type fi = Some field_type ->
           exists e, process_field mapping fi s = (Ok tt, with_failed display e s)))
  /\ (exists rest,
         strategies field =
           declared_locator field
             :: (By.NAME, PyStr.replace " " "_" (PyStr.lower (field_name field)))
             :: rest)
  /\ (exists later,
         calls (snd (find_element_with_multiple_strategies field s)) =
           (calls s ++ Wait (normalise_locator (declared_locator field)) :: later)%list).
Proof.
  split; [|split].
  - intros Hmissing.
    assert (Hraise : exists e, new_FormField fi s = (Raise e, s)).
    { unfold new_FormField.
      destruct (fi_field_name fi), (fi_field_type fi), (fi_locator_type fi),
        (fi_locator_value fi), (fi_is_required fi);
        try (eexists; reflexivity); destruct Hmissing; discriminate. }
    split; [exact Hraise|].
    intros display ty Hn Ht. destruct Hraise as [e He]. exists e.
    rewrite process_field_run, Hn, Ht, fill_field_run, He. reflexivity.
  - eexists. reflexivity.
  - rewrite find_element_search. cbn [snd logs calls].
    destruct (search_head (browser s) (declared_locator field)
                (tl (strategies field))) as [later H].
    change (strategies field)
      with (declared_locator field :: tl (strategies field)).
    rewrite H. exists (waits later). reflexivity.
Qed.

(** C10 (amended): for a field whose type is outside the handled set, when
    its element is found, scrolling it into view raises no fault and the
    profile has a value for it, no branch of the type dispatch runs (no
    call is made to the browser after the scroll) and the field is
    appended to [filled_fields]. *)
Theorem unhandled_type_is_recorded_as_filled
    (mapping : list (string * string)) (fi : field_info) (field : FormField)
    (display field_type : string) (element : WebElement) (s s1 s2 : state) :
  PyStr.mem field_type
    ["text"; "email"; "tel"; "url"; "password"; "textarea"; "select";
     "checkbox"; "radio"] = false ->
  fi_field_name fi = Some display ->
  fi_field_type fi = Some field_type ->
  fst (new_FormField fi s) = Ok field ->
  find_element_with_multiple_strategies field s = (Ok (Some element), s1) ->
  do (ScrollIntoView element) s1 = (Ok tt, s2) ->
  truthy (find_value mapping (PyStr.lower display)) = true ->
  process_field mapping fi s = (Ok tt, with_filled display s2)
  /\ (forall value s0, fill_by_type field_type element value s0 = (Ok tt, s0))
  /\ calls s2 = (calls s1 ++ [Do (ScrollIntoView element) None])%list.
Proof.
  intros Hty Hn Ht Hnew Hfind Hscroll Hv.
  assert (Hnone : forall value s0,
             fill_by_type field_type element value s0 = (Ok tt, s0)).
  { intros value s0. now rewrite (fill_by_type_unhandled _ _ _ Hty). }
  split; [|split].
  - rewrite (process_field_reaches_fill _ _ _ _ _ _ _ _ _ Hn Ht Hnew Hfind Hscroll Hv).
    now rewrite Hnone.
  - exact Hnone.
  - rewrite do_run in Hscroll. injection Hscroll as Hr <-. cbn [calls].
    now rewrite Hr.
Qed.

(** *** Further properties of locator resolution *)

Lemma search_tried_length (d : driver) (l : list locator) :
  (length (fst (search d l)) <= length l)%nat
  /\ (l <> [] -> 1 <= length (fst (search d l)))%nat.
Proof.
  induction l as [|x rest IH]; cbn [search].
  - split; [cbn; lia|congruence].
  - destruct (presence_of_element_located d (normalise_locator x)).
    + cbn. split; [lia|intros _; lia].
    + destruct (search d rest) as [tried r]. cbn in *. split; [lia|intros _; lia].
Qed.

Lemma strategies_length (field : FormField) :
  (5 <= length (strategies field) <= 7)%nat.
Proof.
  unfold strategies.
  destruct (PyStr.contains "name" _); [cbn; lia|].
  destruct (PyStr.contains "email" _); [cbn; lia|].
  destruct (PyStr.contains "phone" _); cbn; lia.
Qed.

(** X1: Resolution of one field waits for at least one and at most seven
    candidates; when it reports not-found it has waited for the whole
    list, which has five to seven entries. *)
Theorem resolution_waits_for_one_to_seven
    (field : FormField) (s : state) :
  exists tried,
    calls (snd (find_element_with_multiple_strategies field s)) =
      (calls s ++ waits tried)%list
    /\ (1 <= length tried <= 7)%nat
    /\ (fst (find_element_with_multiple_strategies field s) = Ok None ->
        tried = strategies field /\ (5 <= length tried)%nat).
Proof.
  rewrite find_element_search. cbn [fst snd logs calls].
  exists (fst (search (browser s) (strategies field))).
  pose proof (strategies_length field) as Hlen.
  destruct (search_tried_length (browser s) (strategies field)) as [Hle Hge].
  split; [reflexivity|]. split.
  - split; [|lia]. apply Hge. intros E. rewrite E in Hlen. cbn in Hlen. lia.
  - intros H. assert (Hnone : snd (search (browser s) (strategies field)) = None)
      by congruence.
    rewrite (search_none_tried _ _ Hnone). split; [reflexivity|lia].
Qed.

(** X2: Resolution reports not-found exactly when no candidate of the list
    resolves: it never gives up while one of them would resolve. *)
Theorem resolution_gives_up_only_when_nothing_resolves
    (field : FormField) (s : state) :
  fst (find_element_with_multiple_strategies field s) = Ok None
  <-> (forall x, In x (strategies field) -> resolves (browser s) x = false).
Proof.
  rewrite find_element_search. cbn [fst]. rewrite <- search_none.
  split; congruence.
Qed.

Lemma lower_ascii_idempotent (c : ascii) :
  PyStr.lower_ascii (PyStr.lower_ascii c) = PyStr.lower_ascii c.
Proof. destruct c as [[] [] [] [] [] [] [] []]; reflexivity. Qed.

Lemma lower_idempotent (s : string) : PyStr.lower (PyStr.lower s) = PyStr.lower s.
Proof.
  induction s as [|c rest IH]; cbn; [reflexivity|].
  now rewrite lower_ascii_idempotent, IH.
Qed.

Lemma contains_space (s : string) :
  PyStr.contains " " s = false <->
  (forall c, In c (list_ascii_of_string s) -> c <> " "%char).
Proof.
  induction s as [|c rest IH]; cbn [PyStr.contains String.prefix list_ascii_of_string].
  - split; [intros _ c []|reflexivity].
  - destruct (Ascii.ascii_dec " "%char c) as [<-|Hne].
    + destruct rest; cbn; split; try discriminate;
        intros H; exfalso; apply (H " "%char); auto.
    + rewrite IH. split.
      * intros H c' [<-|Hc']; [congruence|auto].
      * intros H c' Hc'. apply H. now right.
Qed.

Lemma replace_space (new : ascii) (s : string) :
  new <> " "%char ->
  PyStr.contains " " (PyStr.replace " " new s) = false.
Proof.
  intros Hnew. apply contains_space.
  induction s as [|c rest IH]; cbn [PyStr.replace list_ascii_of_string].
  - intros c [].
  - intros c' [<-|Hc']; [|auto].
    destruct (Ascii.eqb_spec c " "%char); [exact Hnew|assumption].
Qed.

Lemma replace_lower (new : ascii) (s : string) :
  PyStr.lower_ascii new = new ->
  PyStr.lower (PyStr.replace " " new (PyStr.lower s)) =
    PyStr.replace " " new (PyStr.lower s).
Proof.
  intros Hnew. induction s as [|c rest IH]; cbn; [reflexivity|].
  rewrite IH. f_equal.
  destruct (Ascii.eqb (PyStr.lower_ascii c) " "); [exact Hnew|].
  apply lower_ascii_idempotent.
Qed.

(** X3: The by-name and by-identifier candidates derived from the field name
    hold no space and no upper-case ASCII letter, whatever the name. *)
Theorem derived_candidates_have_no_space_or_capital
    (field : FormField) (x : locator) :
  In x (firstn 4 (tl (strategies field))) ->
  PyStr.contains " " (snd x) = false
  /\ PyStr.lower (snd x) = snd x.
Proof.
  cbn [strategies app tl firstn In].
  intros [<-|[<-|[<-|[<-|[]]]]]; cbn [snd];
    (split; [apply replace_space; discriminate|apply replace_lower; reflexivity]).
Qed.

Lemma normalise_idempotent (t : string) : normalise (normalise t) = normalise t.
Proof.
  unfold normalise at 2 3.
  destruct (String.eqb_spec t "css_selector"); [reflexivity|].
  destruct (String.eqb_spec t "xpath"); [reflexivity|].
  destruct (String.eqb_spec t "id"); [reflexivity|].
  destruct (String.eqb_spec t "name"); [reflexivity|].
  destruct (String.eqb_spec t "class_name"); [reflexivity|].
  unfold normalise.
  destruct (String.eqb_spec t "css_selector"); [contradiction|].
  destruct (String.eqb_spec t "xpath"); [contradiction|].
  destruct (String.eqb_spec t "id"); [contradiction|].
  destruct (String.eqb_spec t "name"); [contradiction|].
  destruct (String.eqb_spec t "class_name"); [contradiction|].
  reflexivity.
Qed.

(** X4: The renaming of strategy names at the head of the loop body changes
    nothing in the candidates the function generates itself: only the
    declared locator can be renamed, and renaming twice is renaming once. *)
Theorem only_declared_locator_is_renamed (field : FormField) :
  (forall x, In x (tl (strategies field)) -> normalise_locator x = x)
  /\ (forall t, normalise (normalise t) = normalise t)
  /\ normalise_locator (normalise_locator (declared_locator field)) =
       normalise_locator (declared_locator field).
Proof.
  split; [|split].
  - unfold strategies. cbn [app tl].
    destruct (PyStr.contains "name" _);
      [|destruct (PyStr.contains "email" _);
        [|destruct (PyStr.contains "phone" _)]];
      cbn [In]; intros x H;
      repeat (destruct H as [<-|H]; [reflexivity|]); destruct H.
  - exact normalise_idempotent.
  - unfold normalise_locator. cbn [fst snd]. now rewrite normalise_idempotent.
Qed.

(** *** Further properties of the interactions *)

Lemma send_each_log (element : WebElement) (text : string) (s : state) :
  exists cs,
    calls (snd (send_each element text s)) = (calls s ++ cs)%list
    /\ String.prefix (keys_sent cs) text = true
    /\ (fst (send_each element text s) = Ok tt ->
        cs = map (fun c => Do (SendKeys element (String c EmptyString)) None)
               (list_ascii_of_string text)
        /\ keys_sent cs = text).
Proof.
  revert s. induction text as [|ch rest IH]; intros s.
  - exists []. cbn. rewrite app_nil_r. auto.
  - cbn [send_each]. unfold bind. rewrite do_run.
    destruct (fst (perform unit (SendKeys element (String ch EmptyString)) (browser s)))
      as [[]|e] eqn:E.
    + match goal with |- context [send_each element rest ?s1] =>
        destruct (IH s1) as (cs & Hc & Hp & Hok) end.
      eexists (_ :: cs). split; [|split].
      * rewrite Hc. cbn [calls]. now rewrite <- app_assoc.
      * unfold keys_sent. cbn [fold_right]. fold (keys_sent cs). cbn.
        destruct (Ascii.ascii_dec ch ch); [exact Hp|contradiction].
      * intros H. destruct (Hok H) as [Hcs Hk]. split; [now rewrite Hcs|].
        unfold keys_sent. cbn [fold_right]. fold (keys_sent cs).
        now rewrite Hk.
    + eexists [_]. cbn [fst snd calls]. split; [reflexivity|]. split.
      * cbn. destruct (Ascii.ascii_dec ch ch); [|contradiction]. now destruct rest.
      * discriminate.
Qed.

(** X5: Typing a value clears the element and then sends the characters of
    the value one call at a time: what is sent is always an initial part
    of the value, in order, and it is the whole value when the typing
    returns. *)
Theorem typing_sends_the_value_in_order
    (element : WebElement) (text : string) (s : state) :
  exists r cs,
    calls (snd (simulate_human_typing element text s)) =
      (calls s ++ Do (Clear element) r :: cs)%list
    /\ String.prefix (keys_sent cs) text = true
    /\ (fst (simulate_human_typing element text s) = Ok tt ->
        r = None
        /\ cs = map (fun c => Do (SendKeys element (String c EmptyString)) None)
                  (list_ascii_of_string text)
        /\ keys_sent cs = text).
Proof.
  unfold simulate_human_typing, bind. rewrite do_run.
  destruct (fst (perform unit (Clear element) (browser s))) as [[]|e] eqn:E.
  - match goal with |- context [send_each element text ?s1] =>
      destruct (send_each_log element text s1) as (cs & Hc & Hp & Hok) end.
    exists None, cs. split; [|split].
    + rewrite Hc. cbn [calls]. now rewrite <- app_assoc.
    + exact Hp.
    + intros H. destruct (Hok H). auto.
  - exists (Some e), []. cbn. split; [reflexivity|].
    split; [now destruct text|discriminate].
Qed.

(** X6: A checkbox or radio button is asked whether it is selected and is
    clicked only when it is not: the branch never clicks a selected
    element, and the profile value plays no part in it. *)
Theorem checkbox_is_clicked_only_when_unselected
    (field_type : string) (element : WebElement) (value : string) (s : state) :
  field_type = "checkbox" \/ field_type = "radio" ->
  let asked := perform bool (IsSelected element) (browser s) in
  let s1 := snd (do (IsSelected element) s) in
  match fst asked with
  | Ok true =>
      fill_by_type field_type element value s = (Ok tt, s1)
      /\ calls s1 = (calls s ++ [Do (IsSelected element) None])%list
  | Ok false =>
      fill_by_type field_type element value s = do (Click element) s1
      /\ exists r,
           calls (snd (do (Click element) s1)) =
             (calls s ++ [Do (IsSelected element) None; Do (Click element) r])%list
  | Raise e =>
      fill_by_type field_type element value s = (Raise e, s1)
      /\ calls s1 = (calls s ++ [Do (IsSelected element) (Some e)])%list
  end.
Proof.
  intros Hty asked s1.
  assert (Hrun : fill_by_type field_type element value s =
                   (selected <- do (IsSelected element) ;;
                    if negb selected then do (Click element) else ret tt) s)
    by (destruct Hty as [-> | ->]; reflexivity).
  rewrite Hrun. unfold bind. subst s1 asked. rewrite !do_run. cbn [fst snd calls].
  destruct (fst (perform bool (IsSelected element) (browser s))) as [[|]|e];
    cbn [negb raised_by].
  - split; reflexivity.
  - split; [now rewrite do_run|]. eexists. now rewrite <- app_assoc.
  - split; reflexivity.
Qed.

Lemma do_calls {T : Type} (c : command T) (s s' : state) (r : outcome T) :
  do c s = (r, s') -> calls s' = (calls s ++ [Do c (raised_by r)])%list.
Proof. rewrite do_run. intros [= <- <-]. reflexivity. Qed.

Lemma select_first_containing_no_match (element : WebElement)
    (opts : list WebElement) (value : string) :
  (forall option d, In option opts ->
     exists text d',
       perform string (ElementText option) d = (Ok text, d')
       /\ PyStr.contains (PyStr.lower value) (PyStr.lower text) = false) ->
  forall s,
    fst (select_first_containing element opts value s) = Ok tt
    /\ exists cs,
         calls (snd (select_first_containing element opts value s)) =
           (calls s ++ cs)%list
         /\ filter changes_page cs = [].
Proof.
  intros Hopts. induction opts as [|o rest IH]; intros s.
  - cbn. split; [reflexivity|]. exists []. now rewrite app_nil_r.
  - cbn [select_first_containing]. unfold bind. rewrite do_run.
    destruct (Hopts o (browser s) (or_introl eq_refl)) as (text & d' & Hp & Hc).
    rewrite Hp. cbn [fst snd raised_by]. rewrite Hc.
    match goal with |- context [select_first_containing element rest value ?s1] =>
      destruct (IH (fun o' d Hin => Hopts o' d (or_intror Hin)) s1)
        as (Hok & cs & Hcalls & Hnone) end.
    split; [exact Hok|].
    exists (Do (ElementText o) None :: cs). split.
    + rewrite Hcalls. cbn [calls]. now rewrite <- app_assoc.
    + cbn. exact Hnone.
Qed.

(** X7: When selecting by visible text and selecting by value both raise and
    no option's text contains the value (compared in lower case), the
    select branch returns without a fault and without having selected
    anything: the only selecting calls it made are the two that raised. *)
Theorem select_branch_returns_when_nothing_matches
    (element : WebElement) (value : string) (opts : list WebElement)
    (s s1 s2 s3 s4 : state) (e1 e2 : exn) :
  do (NewSelect element) s = (Ok tt, s1) ->
  do (SelectByVisibleText element value) s1 = (Raise e1, s2) ->
  do (SelectByValue element value) s2 = (Raise e2, s3) ->
  do (SelectOptions element) s3 = (Ok opts, s4) ->
  (forall option d, In option opts ->
     exists text d',
       perform string (ElementText option) d = (Ok text, d')
       /\ PyStr.contains (PyStr.lower value) (PyStr.lower text) = false) ->
  fst (fill_by_type "select" element value s) = Ok tt
  /\ exists cs,
       calls (snd (fill_by_type "select" element value s)) = (calls s ++ cs)%list
       /\ filter changes_page cs =
            [ Do (SelectByVisibleText element value) (Some e1);
              Do (SelectByValue element value) (Some e2) ].
Proof.
  intros H0 H1 H2 H3 Hopts.
  assert (Hrun : fill_by_type "select" element value s =
                   select_first_containing element opts value s4).
  { change (fill_by_type "select" element value s)
      with ((do (NewSelect element) ;;
             try_except (do (SelectByVisibleText element value))
               (fun _ =>
                  try_except (do (SelectByValue element value))
                    (fun _ =>
                       opts <- do (SelectOptions element) ;;
                       select_first_containing element opts value))) s).
    unfold bind at 1. rewrite H0. unfold try_except at 1. rewrite H1.
    unfold try_except. rewrite H2. unfold bind. now rewrite H3. }
  rewrite Hrun.
  destruct (select_first_containing_no_match element opts value Hopts s4)
    as (Hok & cs & Hcalls & Hnone).
  split; [exact Hok|].
  exists ([ Do (NewSelect element) None;
            Do (SelectByVisibleText element value) (Some e1);
            Do (SelectByValue element value) (Some e2);
            Do (SelectOptions element) None ] ++ cs)%list.
  split.
  - rewrite Hcalls, (do_calls _ _ _ _ H3), (do_calls _ _ _ _ H2),
      (do_calls _ _ _ _ H1), (do_calls _ _ _ _ H0).
    cbn [raised_by]. rewrite <- !app_assoc. reflexivity.
  - cbn. now rewrite Hnone.
Qed.

(** *** Further properties of the profile lookup *)

Lemma first_value_found (test : string -> bool)
    (mapping : list (string * string)) (value : string) :
  first_value test mapping = Some value ->
  exists key, In (key, value) mapping /\ test key = true.
Proof.
  induction mapping as [|[k v] rest IH]; cbn; [discriminate|].
  destruct (test k) eqn:E.
  - intros [= <-]. exists k. auto.
  - intros H. destruct (IH H) as (key & Hin & Ht). exists key. auto.
Qed.

(** X8: A value that is filled in always comes from the mapping: it is a
    non-empty value of an entry whose key occurs in the lowered field name
    or one of whose words does. *)
Theorem filled_value_comes_from_a_matching_key
    (mapping : list (string * string)) (name : string) :
  truthy (find_value mapping name) = true ->
  exists key value,
    find_value mapping name = Some value
    /\ value <> ""
    /\ In (key, value) mapping
    /\ (PyStr.contains key name = true
        \/ exists word, In word (PyStr.split key)
                        /\ PyStr.contains word name = true).
Proof.
  unfold find_value.
  set (whole := first_value (fun key => PyStr.contains key name) mapping).
  set (words := first_value
                  (fun key => existsb (fun word => PyStr.contains word name)
                                (PyStr.split key)) mapping).
  destruct (truthy whole) eqn:E1.
  - intros _. destruct whole as [v|] eqn:F; [|discriminate].
    destruct (first_value_found _ _ _ F) as (key & Hin & Ht).
    exists key, v. repeat split; auto.
    cbn in E1. intros ->. discriminate.
  - destruct words as [v|] eqn:F.
    + intros Htr. destruct (first_value_found _ _ _ F) as (key & Hin & Ht).
      exists key, v. repeat split; auto.
      * cbn in Htr. intros ->. discriminate.
      * right. apply existsb_exists in Ht. exact Ht.
    + intros Htr. rewrite Htr in E1. discriminate.
Qed.

(** X9: Whatever the profile: for a field whose lowered name holds "first" or
    "name", and for which the search by whole key finds no usable value,
    the value looked up is the first name. *)
Theorem name_like_field_gets_first_name (p : profile) (name : string) :
  truthy (first_value (fun key => PyStr.contains key name) (field_mapping p)) = false ->
  (PyStr.contains "first" name || PyStr.contains "name" name)%bool = true ->
  find_value (field_mapping p) name = Some (first_name p).
Proof.
  intros Hnone Hword. unfold find_value. rewrite Hnone.
  unfold field_mapping. cbn [first_value].
  change (PyStr.split "first name") with ["first"; "name"].
  cbn [existsb]. rewrite orb_false_r, Hword. reflexivity.
Qed.

(** *** Further properties of the field loop *)

(** X11: A field is recorded as filled only when a descriptor could be built
    for it, one of its candidates resolved, the element was scrolled into
    view, the profile offered a non-empty value and the interaction with
    the element returned. *)
Theorem filled_field_was_found_and_valued
    (mapping : list (string * string)) (fi : field_info) (s s' : state) :
  process_field mapping fi s = (Ok tt, s') ->
  filled_fields s' <> filled_fields s ->
  exists display field_type field element s1 s2 s3,
    fi_field_name fi = Some display
    /\ fi_field_type fi = Some field_type
    /\ fst (new_FormField fi s) = Ok field
    /\ find_element_with_multiple_strategies field s = (Ok (Some element), s1)
    /\ do (ScrollIntoView element) s1 = (Ok tt, s2)
    /\ truthy (find_value mapping (PyStr.lower display)) = true
    /\ fill_by_type field_type element
         (value_for mapping (PyStr.lower display)) s2 = (Ok tt, s3)
    /\ s' = with_filled display s3.
Proof.
  rewrite process_field_run.
  destruct (fi_field_name fi) as [display|] eqn:En; [|discriminate].
  destruct (fi_field_type fi) as [ty|] eqn:Et; [|discriminate].
  rewrite fill_field_run.
  destruct (fst (new_FormField fi s)) as [field|e] eqn:Enew;
    [|intros [= <-] H; now elim H].
  cbn zeta. pose proof (find_element_search field s) as Hfind.
  destruct (snd (search (browser s) (strategies field))) as [element|];
    [|intros [= <-] H; now elim H].
  set (s1 := logs (waits (fst (search (browser s) (strategies field)))) s) in *.
  pose proof (frames_do (ScrollIntoView element) s1) as Hs.
  destruct (do (ScrollIntoView element) s1) as [[[]|e] s2] eqn:Escroll;
    cbn [snd s1 logs filled_fields failed_fields] in Hs; destruct Hs as [Hs1 Hs2];
    [|intros [= <-] H; now elim H].
  destruct (truthy (find_value mapping (PyStr.lower display))) eqn:Ev;
    [|intros [= <-] H; now elim H].
  fold (value_for mapping (PyStr.lower display)).
  pose proof (frames_fill_by_type ty element
                (value_for mapping (PyStr.lower display)) s2) as Hf.
  destruct (fill_by_type _ _ _ s2) as [[[]|e] s3] eqn:Efill;
    cbn [snd] in Hf; destruct Hf as [Hf1 Hf2].
  - intros [= <-] _. exists display, ty, field, element, s1, s2, s3.
    repeat split; auto.
  - intros [= <-] H. exfalso. apply H. cbn. congruence.
Qed.

Lemma process_fields_stops (mapping : list (string * string))
    (before after : list field_info) (fi : field_info) (s s1 : state) (key : string) :
  process_fields mapping before s = (Ok tt, s1) ->
  process_field mapping fi s1 = (Raise key, s1) ->
  process_fields mapping (before ++ fi :: after) s = (Raise key, s1).
Proof.
  revert s. induction before as [|x rest IH]; intros s.
  - cbn [process_fields ret app]. intros [= <-] Hfi. unfold bind. now rewrite Hfi.
  - cbn [process_fields app]. unfold bind.
    destruct (process_field mapping x s) as [[[]|e] s0]; [|discriminate].
    apply IH.
Qed.

(** X12: A field entry that lacks "field_name" or "field_type" ends the whole
    pass: the two subscripts are outside the per-field [try].  The result
    has status "error", the [KeyError] text as its message, rate 0 and the
    full count as [total_fields]; it keeps what was recorded for the
    fields before the entry, and nothing is done for the entry or for the
    fields after it except the attempt at an error screenshot. *)
Theorem entry_without_name_or_type_ends_the_pass
    (mapping : list (string * string))
    (before after : list field_info) (fi : field_info) (s s1 : state) :
  process_fields mapping before s = (Ok tt, s1) ->
  fi_field_name fi = None
  \/ (fi_field_name fi <> None /\ fi_field_type fi = None) ->
  exists r s' shot,
    fill_pass mapping (before ++ fi :: after) s = (Ok r, s')
    /\ filling_status r = "error"
    /\ error_message r =
         Some (match fi_field_name fi with
               | None => "'field_name'"
               | Some _ => "'field_type'"
               end)
    /\ success_rate r = 0
    /\ total_fields r = length (before ++ fi :: after)
    /\ result_filled_fields r = filled_fields s1
    /\ result_failed_fields r = failed_fields s1
    /\ calls s' = (calls s1 ++ [Do (TakeScreenshot "error_form") shot])%list.
Proof.
  intros Hb Hmissing.
  set (key := match fi_field_name fi with
              | None => "'field_name'"
              | Some _ => "'field_type'"
              end).
  assert (Hfi : process_field mapping fi s1 = (Raise key, s1)).
  { rewrite process_field_run. subst key.
    destruct Hmissing as [->|[Hn ->]]; [reflexivity|].
    destruct (fi_field_name fi); [reflexivity|congruence]. }
  rewrite fill_pass_run, (process_fields_stops _ _ after _ _ _ _ Hb Hfi).
  unfold fault_result, try_except. rewrite do_run.
  destruct (fst (perform string (TakeScreenshot "error_form") (browser s1)))
    as [path|e] eqn:E; cbn [raised_by];
    eexists; eexists; eexists; (split; [reflexivity|]);
    cbn; repeat split; reflexivity.
Qed.

(** *** Properties of the whole tool *)

Lemma fault_result_shape (all_fields : list field_info) (e : exn)
    (s s' : state) (r : FillingResult) :
  fault_result all_fields e s = (Ok r, s') ->
  filling_status r = "error"
  /\ error_message r = Some e
  /\ success_rate r = 0
  /\ total_fields r = length all_fields
  /\ result_filled_fields r = filled_fields s
  /\ result_failed_fields r = failed_fields s.
Proof.
  unfold fault_result.
  assert (Hfr : frames (try_except (do (TakeScreenshot "error_form"))
                          (fun _ => ret ""))) by frame.
  specialize (Hfr s). destruct (try_except _ _ s) as [shot s1].
  cbn [snd] in Hfr. destruct Hfr as [H1 H2].
  intros [= <- <-]. cbn. repeat split; auto.
Qed.

Lemma fault_result_returns (all_fields : list field_info) (e : exn) (s : state) :
  exists r s', fault_result all_fields e s = (Ok r, s').
Proof. unfold fault_result. destruct (try_except _ _ s). eauto. Qed.

(** The session, path by path: a fault while the page is loaded goes to
    the handler; otherwise the session is the fill pass from the state
    reached after the first screenshot. *)
Lemma fill_session_run (u : string) (p : profile)
    (all_fields : list field_info) (s : state) :
  fill_session u p all_fields s =
    match load_page u s with
    | (Raise e, s1) => fault_result all_fields e s1
    | (Ok _, s1) =>
        match wait_for_body s1 with
        | (Raise e, s2) => fault_result all_fields e s2
        | (Ok _, s2) =>
            match do (TakeScreenshot "initial_form") s2 with
            | (Raise e, s3) => fault_result all_fields e s3
            | (Ok _, s3) => fill_pass (field_mapping p) all_fields s3
            end
        end
    end.
Proof.
  unfold fill_session, try_except at 1, bind at 1.
  destruct (load_page u s) as [[[]|e] s1]; [|apply fault_result_run].
  unfold bind at 1.
  destruct (wait_for_body s1) as [[body|e] s2]; [|apply fault_result_run].
  unfold bind at 1.
  destruct (do (TakeScreenshot "initial_form") s2) as [[shot|e] s3];
    [|apply fault_result_run].
  reflexivity.
Qed.

Lemma setup_frames (u : string) (s : state) :
  (filled_fields (snd (load_page u s)) = filled_fields s
   /\ failed_fields (snd (load_page u s)) = failed_fields s)
  /\ (filled_fields (snd (wait_for_body s)) = filled_fields s
      /\ failed_fields (snd (wait_for_body s)) = failed_fields s).
Proof.
  unfold load_page, wait_for_body.
  destruct (driver_get u (browser s)). cbn. auto.
Qed.

(** A session ends in one of two ways: with the result of the fill pass,
    or with the handler's result for a fault raised before the pass. *)
Lemma fill_session_cases (u : string) (p : profile)
    (all_fields : list field_info) (s : state) :
  exists r s',
    fill_session u p all_fields s = (Ok r, s')
    /\ exists s0,
         filled_fields s0 = filled_fields s
         /\ failed_fields s0 = failed_fields s
         /\ (fill_pass (field_mapping p) all_fields s0 = (Ok r, s')
             \/ exists e, fault_result all_fields e s0 = (Ok r, s')).
Proof.
  rewrite fill_session_run.
  destruct (setup_frames u s) as [[L1 L2] _].
  destruct (load_page u s) as [[[]|e] s1]; cbn [snd] in L1, L2.
  - destruct (setup_frames u s1) as [_ [W1 W2]].
    destruct (wait_for_body s1) as [[body|e] s2]; cbn [snd] in W1, W2.
    + pose proof (frames_do (TakeScreenshot "initial_form") s2) as [D1 D2].
      destruct (do (TakeScreenshot "initial_form") s2) as [[shot|e] s3];
        cbn [snd] in D1, D2.
      * destruct (fill_pass_returns (field_mapping p) all_fields s3) as [r Hr].
        destruct (fill_pass (field_mapping p) all_fields s3) as [o s'] eqn:E.
        cbn in Hr. subst o. exists r, s'. split; [reflexivity|].
        exists s3. repeat split; try congruence. now left.
      * destruct (fault_result_returns all_fields e s3) as (r & s' & Hr).
        exists r, s'. split; [exact Hr|]. exists s3.
        repeat split; try congruence. right. eauto.
    + destruct (fault_result_returns all_fields e s2) as (r & s' & Hr).
      exists r, s'. split; [exact Hr|]. exists s2.
      repeat split; try congruence. right. eauto.
  - destruct (fault_result_returns all_fields e s1) as (r & s' & Hr).
    exists r, s'. split; [exact Hr|]. exists s1.
    repeat split; try congruence. right. eauto.
Qed.

Lemma tool_returns (field_data : decoded fields_info)
    (profile_data : option (decoded profile)) :
  tool_return field_data profile_data
    (fst (fill_job_application_form field_data profile_data))
    (snd (fill_job_application_form field_data profile_data)).
Proof.
  unfold fill_job_application_form.
  destruct field_data as [info|msg]; [|constructor].
  destruct (match profile_data with
            | Some data => data
            | None => Decoded Toy.DUMMY_PROFILE
            end) as [p|msg] eqn:Ep; [|constructor].
  destruct (extraction_status info) as [status|] eqn:Es; [|constructor].
  destruct (String.eqb_spec status "success") as [->|Hne].
  - destruct (url info) as [u|] eqn:Eu; [|constructor].
    destruct (required_fields info) as [required|] eqn:Er; [|constructor].
    destruct (optional_fields info) as [optional|] eqn:Eo; [|constructor].
    destruct Chrome as [d|e] eqn:Ec.
    + destruct (fill_session_cases u p (required ++ optional) (initial d))
        as (r & s' & Hrun & _).
      rewrite Hrun. cbn [fst snd]. eapply return_session; eauto.
    + cbn [fst snd]. eapply return_no_browser; eauto.
  - assert (E : forall A (a b : A),
               match status with "success" => a | _ => b end = b).
    { intros A a b.
      destruct status as [|[[] [] [] [] [] [] [] []] rest]; try reflexivity.
      repeat (match goal with
              | |- context [match ?r with EmptyString => _ | String _ _ => _ end] =>
                  destruct r as [|[[] [] [] [] [] [] [] []] ?]; try reflexivity
              end).
      congruence. }
    rewrite E. constructor.
Qed.

Lemma overall_status_values (filled total : nat) :
  overall_status filled total = "success"
  \/ overall_status filled total = "partial"
  \/ overall_status filled total = "error".
Proof.
  unfold overall_status.
  destruct (filled =? total)%nat; [now left|].
  destruct (0 <? filled)%nat; auto.
Qed.

Lemma process_fields_count (mapping : list (string * string))
    (all_fields : list field_info) (s s' : state) (o : outcome unit) :
  process_fields mapping all_fields s = (o, s') ->
  (length (filled_fields s') + length (failed_fields s')
   <= length (filled_fields s) + length (failed_fields s) + length all_fields)%nat.
Proof.
  revert s. induction all_fields as [|fi rest IH]; intros s.
  - cbn. intros [= _ <-]. lia.
  - cbn [process_fields]. unfold bind.
    destruct (process_field mapping fi s) as [[[]|e] s1] eqn:E.
    + intros H. specialize (IH _ H).
      destruct (process_field_one_list _ _ _ _ E) as (display & verdict & _ & Hf & Hx).
      rewrite Hf, Hx, !length_app in IH.
      pose proof (records_length [(display, verdict)]) as Hr. cbn [length] in *. lia.
    + intros [= _ <-]. apply process_field_raise in E. subst s1. cbn [length]. lia.
Qed.

(** What a result of the fill pass always satisfies. *)
Lemma fill_pass_invariants (mapping : list (string * string))
    (all_fields : list field_info) (s s' : state) (r : FillingResult) :
  filled_fields s = [] ->
  failed_fields s = [] ->
  fill_pass mapping all_fields s = (Ok r, s') ->
  total_fields r = length all_fields
  /\ (length (result_filled_fields r) + length (result_failed_fields r)
      <= total_fields r)%nat
  /\ (success_rate r = 0
      \/ success_rate r =
           round2 (compute_success_rate (length (result_filled_fields r))
                     (total_fields r)))
  /\ (filling_status r = "success" \/ filling_status r = "partial"
      \/ filling_status r = "error")
  /\ (error_message r <> None ->
      filling_status r = "error" /\ success_rate r = 0).
Proof.
  intros Hf0 Hx0 Hrun.
  destruct (fill_pass_lists _ _ _ _ _ Hrun) as (o & s1 & Hloop & Hf & Hx).
  pose proof (process_fields_count _ _ _ _ _ Hloop) as Hcount.
  rewrite Hf0, Hx0 in Hcount. cbn [length] in Hcount.
  revert Hrun. rewrite fill_pass_run, Hloop.
  assert (Hfault : forall e s2,
             fault_result all_fields e s2 = (Ok r, s') ->
             total_fields r = length all_fields
             /\ (success_rate r = 0
                 \/ success_rate r =
                      round2 (compute_success_rate
                                (length (result_filled_fields r)) (total_fields r)))
             /\ (filling_status r = "success" \/ filling_status r = "partial"
                 \/ filling_status r = "error")
             /\ (error_message r <> None ->
                 filling_status r = "error" /\ success_rate r = 0)).
  { intros e s2 H. apply fault_result_shape in H.
    destruct H as (H1 & H2 & H3 & H4 & _). rewrite H3.
    repeat split; auto. }
  destruct o as [[]|e].
  - destruct (do (TakeScreenshot "filled_form") s1) as [[path|e] s2] eqn:Eshot.
    + intros [= <- <-].
      pose proof (frames_do (TakeScreenshot "filled_form") s1) as [D1 D2].
      rewrite Eshot in D1, D2. cbn [snd] in D1, D2.
      cbn [summary total_fields result_filled_fields result_failed_fields
             success_rate filling_status error_message].
      rewrite D1, D2. split; [reflexivity|]. split; [lia|]. split.
      * right. reflexivity.
      * split; [apply overall_status_values|]. intros H. now elim H.
    + intros H. destruct (Hfault _ _ H) as (H1 & H2 & H3 & H4).
      split; [exact H1|]. split; [rewrite H1, Hf, Hx; lia|].
      split; [exact H2|]. split; [exact H3|exact H4].
  - intros H. destruct (Hfault _ _ H) as (H1 & H2 & H3 & H4).
    split; [exact H1|]. split; [rewrite H1, Hf, Hx; lia|].
    split; [exact H2|]. split; [exact H3|exact H4].
Qed.

Lemma fill_session_invariants (u : string) (p : profile)
    (all_fields : list field_info) (d : driver) (s' : state) (r : FillingResult) :
  fill_session u p all_fields (initial d) = (Ok r, s') ->
  total_fields r = length all_fields
  /\ (length (result_filled_fields r) + length (result_failed_fields r)
      <= total_fields r)%nat
  /\ (success_rate r = 0
      \/ success_rate r =
           round2 (compute_success_rate (length (result_filled_fields r))
                     (total_fields r)))
  /\ (filling_status r = "success" \/ filling_status r = "partial"
      \/ filling_status r = "error")
  /\ (error_message r <> None ->
      filling_status r = "error" /\ success_rate r = 0).
Proof.
  intros Hrun.
  destruct (fill_session_cases u p all_fields (initial d))
    as (r0 & s0' & Hrun' & s0 & Hf0 & Hx0 & Hcase).
  rewrite Hrun in Hrun'. injection Hrun' as <- <-.
  cbn [initial filled_fields failed_fields] in Hf0, Hx0.
  destruct Hcase as [Hpass|[e Hfault]].
  - exact (fill_pass_invariants _ _ _ _ _ Hf0 Hx0 Hpass).
  - apply fault_result_shape in Hfault.
    destruct Hfault as (H1 & H2 & H3 & H4 & H5 & H6).
    rewrite H3, H4, H5, H6, Hf0, Hx0. cbn [length].
    repeat split; auto; lia.
Qed.

(** X13: Whatever the arguments and whatever the browser does, the result of
    the tool has one of the three statuses; a result that carries an
    error message has status "error" and rate 0, and every result
    obtained without a browser session carries one. *)
Theorem tool_result_status_and_message
    (field_data : decoded fields_info) (profile_data : option (decoded profile)) :
  let r := fst (fill_job_application_form field_data profile_data) in
  (filling_status r = "success" \/ filling_status r = "partial"
   \/ filling_status r = "error")
  /\ (error_message r <> None ->
      filling_status r = "error" /\ success_rate r = 0)
  /\ (snd (fill_job_application_form field_data profile_data) = None ->
      error_message r <> None
      /\ result_filled_fields r = [] /\ result_failed_fields r = []).
Proof.
  cbn zeta. destruct (tool_returns field_data profile_data)
    as [message|info u required optional e _ _ _ _ _ _
        |info p u required optional d r s' _ _ _ _ _ _ _ Hrun].
  - cbn. repeat split; auto; discriminate.
  - cbn. repeat split; auto; discriminate.
  - destruct (fill_session_invariants _ _ _ _ _ _ Hrun) as (_ & _ & _ & H1 & H2).
    split; [exact H1|]. split; [exact H2|]. discriminate.
Qed.

(** X14: In every result of the tool the two lists together are no longer than
    [total_fields], and the rate lies between 0 and 100: the quotient of
    the two counts, its product with 100 and the rounded value stay
    within the bounds 0, 1 and 100, which are floats. *)
Theorem tool_result_counts_and_rate
    (field_data : decoded fields_info) (profile_data : option (decoded profile)) :
  let r := fst (fill_job_application_form field_data profile_data) in
  (length (result_filled_fields r) + length (result_failed_fields r)
   <= total_fields r)%nat
  /\ 0 <= success_rate r <= 100.
Proof.
  cbn zeta. destruct (tool_returns field_data profile_data)
    as [message|info u required optional e _ _ _ _ _ _
        |info p u required optional d r s' _ _ _ _ _ _ _ Hrun].
  - cbn. split; [lia|split; discriminate].
  - cbn. split; [lia|split; discriminate].
  - destruct (fill_session_invariants _ _ _ _ _ _ Hrun)
      as (_ & H1 & [H2|H2] & _); (split; [exact H1|]); rewrite H2.
    + split; discriminate.
    + apply round_range, compute_success_rate_range. lia.
Qed.

Lemma rejected_unless_successful
    (info : fields_info) (profile_data : option (decoded profile)) (p : profile) :
  match profile_data with
  | Some data => data
  | None => Decoded Toy.DUMMY_PROFILE
  end = Decoded p ->
  extraction_status info <> Some "success" ->
  fill_job_application_form (Decoded info) profile_data =
    (rejected "Invalid field data - extraction was not successful", None).
Proof.
  intros Ep Hstatus. unfold fill_job_application_form. rewrite Ep.
  destruct (extraction_status info) as [status|]; [|reflexivity].
  destruct (String.eqb_spec status "success") as [->|Hne]; [congruence|].
  destruct status as [|[[] [] [] [] [] [] [] []] rest]; try reflexivity.
  repeat (match goal with
          | |- context [match ?r with EmptyString => _ | String _ _ => _ end] =>
              destruct r as [|[[] [] [] [] [] [] [] []] ?]; try reflexivity
          end).
  congruence.
Qed.

(** X15: Field data whose extraction status is not "success" is rejected
    before any browser session is started, whatever else it holds: the
    result is the fixed error result, with the message of the status check
    when the profile argument decodes. *)
Theorem unsuccessful_extraction_is_rejected
    (info : fields_info) (profile_data : option (decoded profile)) :
  extraction_status info <> Some "success" ->
  (exists message,
      fill_job_application_form (Decoded info) profile_data =
        (rejected message, None))
  /\ (forall p,
        match profile_data with
        | Some data => data
        | None => Decoded Toy.DUMMY_PROFILE
        end = Decoded p ->
        fill_job_application_form (Decoded info) profile_data =
          (rejected "Invalid field data - extraction was not successful", None)).
Proof.
  intros Hstatus. split.
  - destruct (match profile_data with
              | Some data => data
              | None => Decoded Toy.DUMMY_PROFILE
              end) as [p|msg] eqn:Ep.
    + eexists. exact (rejected_unless_successful _ _ p Ep Hstatus).
    + eexists. unfold fill_job_application_form. rewrite Ep. reflexivity.
  - intros p Ep. exact (rejected_unless_successful _ _ p Ep Hstatus).
Qed.

(** A result without an error message comes from a fill pass run in a
    session, on field data that passed the checks. *)
Lemma tool_run_without_message
    (field_data : decoded fields_info) (profile_data : option (decoded profile))
    (r : FillingResult) (o : option state) :
  fill_job_application_form field_data profile_data = (r, o) ->
  error_message r = None ->
  exists info p required optional s0 s',
    field_data = Decoded info
    /\ extraction_status info = Some "success"
    /\ required_fields info = Some required
    /\ optional_fields info = Some optional
    /\ o = Some s'
    /\ filled_fields s0 = [] /\ failed_fields s0 = []
    /\ fill_pass (field_mapping p) (required ++ optional) s0 = (Ok r, s').
Proof.
  intros Hrun Hmsg. pose proof (tool_returns field_data profile_data) as Hret.
  rewrite Hrun in Hret. cbn [fst snd] in Hret.
  destruct Hret
    as [message|info u required optional e _ _ _ _ _ _
        |info p u required optional d r s' Hfd Hp Hs Hu Hreq Hopt Hc Hsession];
    try discriminate.
  destruct (fill_session_cases u p (required ++ optional) (initial d))
    as (r0 & s0' & Hrun' & s0 & Hf0 & Hx0 & Hcase).
  rewrite Hsession in Hrun'. injection Hrun' as <- <-.
  cbn [initial filled_fields failed_fields] in Hf0, Hx0.
  destruct Hcase as [Hpass|[e Hfault]].
  - exists info, p, required, optional, s0, s'. repeat split; auto.
  - apply fault_result_shape in Hfault. destruct Hfault as (_ & H & _). congruence.
Qed.

(** X16: A result of the tool without an error message is the summary of a
    completed pass over the required fields followed by the optional
    ones: every one of them is recorded, in that order, in exactly one of
    the two lists, [total_fields] is the sum of the two lengths, and the
    status and the rate are those of the two counts. *)
Theorem tool_result_without_message_is_a_completed_pass
    (field_data : decoded fields_info) (profile_data : option (decoded profile))
    (r : FillingResult) (o : option state) :
  fill_job_application_form field_data profile_data = (r, o) ->
  error_message r = None ->
  exists info required optional records,
    field_data = Decoded info
    /\ extraction_status info = Some "success"
    /\ required_fields info = Some required
    /\ optional_fields info = Some optional
    /\ o <> None
    /\ total_fields r = (length required + length optional)%nat
    /\ map (fun x => Some (fst x)) records =
         map fi_field_name (required ++ optional)
    /\ result_filled_fields r = filled_of records
    /\ result_failed_fields r = failed_of records
    /\ filling_status r =
         overall_status (length (result_filled_fields r)) (total_fields r)
    /\ success_rate r =
         round2 (compute_success_rate (length (result_filled_fields r))
                   (total_fields r)).
Proof.
  intros Hrun Hmsg.
  destruct (tool_run_without_message _ _ _ _ Hrun Hmsg)
    as (info & p & required & optional & s0 & s' & Hfd & Hs & Hreq & Hopt & Ho
        & Hf0 & Hx0 & Hpass).
  destruct (fill_pass_completed _ _ _ _ _ Hpass Hmsg)
    as (s1 & path & Hloop & Hf & Hx & ->).
  destruct (process_fields_records _ _ _ _ Hloop) as (records & Hn & Hf1 & Hx1).
  rewrite Hf0 in Hf1. rewrite Hx0 in Hx1. cbn [app] in Hf1, Hx1.
  exists info, required, optional, records.
  cbn [summary total_fields result_filled_fields result_failed_fields
         filling_status success_rate].
  rewrite length_app. repeat split; auto; try congruence.
Qed.

(** X17: In a result without an error message the status is "success" exactly
    when the failure list is empty. *)
Theorem success_means_no_failed_field
    (field_data : decoded fields_info) (profile_data : option (decoded profile))
    (r : FillingResult) (o : option state) :
  fill_job_application_form field_data profile_data = (r, o) ->
  error_message r = None ->
  (filling_status r = "success" <-> result_failed_fields r = []).
Proof.
  intros Hrun Hmsg.
  destruct (tool_run_without_message _ _ _ _ Hrun Hmsg)
    as (info & p & required & optional & s0 & s' & _ & _ & _ & _ & _
        & Hf0 & Hx0 & Hpass).
  destruct (fill_pass_completed _ _ _ _ _ Hpass Hmsg)
    as (s1 & path & Hloop & Hf & Hx & ->).
  destruct (process_fields_records _ _ _ _ Hloop) as (records & Hn & Hf1 & Hx1).
  rewrite Hf0 in Hf1. rewrite Hx0 in Hx1. cbn [app] in Hf1, Hx1.
  pose proof (records_length records) as Hlen.
  assert (Hrec : length records = length (required ++ optional)).
  { rewrite <- (length_map fi_field_name), <- Hn. now rewrite length_map. }
  cbn [summary filling_status result_failed_fields].
  rewrite Hf, Hx, Hf1, Hx1, <- Hrec. unfold overall_status.
  destruct (Nat.eqb_spec (length (filled_of records)) (length records)) as [E|E].
  - split; [|reflexivity]. intros _.
    destruct (failed_of records); [reflexivity|cbn in Hlen; lia].
  - split.
    + destruct (0 <? length (filled_of records))%nat; discriminate.
    + intros H0. rewrite H0 in Hlen. cbn in Hlen. lia.
Qed.

(** *** Properties of the extraction tool *)

Lemma extraction_error_has_shape (u : string) (e : exn) :
  extraction_shape u (extraction_error u e).
Proof.
  split; [reflexivity|]. right. right. cbn. repeat split; discriminate.
Qed.

Lemma extraction_handler_has_shape (u page_title html_content body : string)
    (e : exn) :
  extraction_shape u (extraction_handler u page_title html_content body e).
Proof.
  unfold extraction_handler.
  destruct (mentions_length_limit e); [|apply extraction_error_has_shape].
  destruct (llm_invoke _) as [content|e']; [|apply extraction_error_has_shape].
  destruct (json_loads content) as [data|msg]; [|apply extraction_error_has_shape].
  split; [reflexivity|]. right. left. cbn. repeat split; discriminate.
Qed.

(** X18: Whatever the browser and the model do, the extraction tool returns a
    result for the URL it was given with one of three shapes: status
    "success" with [total_fields] the number of required and optional
    fields; status "partial" with a warning and [total_fields] 0, whatever
    fields it lists; or status "error" with an error message, no field and
    [total_fields] 0. *)
Theorem extraction_result_has_one_of_three_shapes (u : string) :
  extraction_shape u (extract_job_application_fields_with_locators u).
Proof.
  unfold extract_job_application_fields_with_locators.
  destruct Chrome_headless as [d0|e]; [|apply extraction_error_has_shape].
  destruct (driver_get u d0) as [[[]|e] d]; [|apply extraction_error_has_shape].
  destruct (body_located d) as [el|e]; [|apply extraction_error_has_shape].
  destruct (driver_title d) as [page_title|e]; [|apply extraction_error_has_shape].
  destruct (page_source d) as [html_content|e]; [|apply extraction_error_has_shape].
  destruct (body_text d) as [body|e]; [|apply extraction_error_has_shape].
  cbn zeta.
  destruct (llm_invoke _) as [content|e]; [|apply extraction_handler_has_shape].
  destruct (json_loads content) as [data|msg]; [|apply extraction_handler_has_shape].
  split; [reflexivity|]. left. cbn. repeat split; reflexivity.
Qed.

(** X19: A partial result is returned only after the page was loaded and
    read: the first request to the model raised, or its answer could not
    be decoded; the text of that exception mentions the length limit; and
    the model answered the simplified prompt, built from the shorter
    samples of the same page, with an answer that could be decoded. *)
Theorem partial_result_needs_a_length_limit_message (u : string) :
  x_extraction_status (extract_job_application_fields_with_locators u) = "partial" ->
  exists d0 d el page_title html_content body e,
    Chrome_headless = Ok d0
    /\ driver_get u d0 = (Ok tt, d)
    /\ body_located d = Ok el
    /\ driver_title d = Ok page_title
    /\ page_source d = Ok html_content
    /\ body_text d = Ok body
    /\ (llm_invoke (extraction_prompt page_title (take 8000 html_content) u)
          = Raise e
        \/ exists content msg,
             llm_invoke (extraction_prompt page_title (take 8000 html_content) u)
               = Ok content
             /\ json_loads content = JSONDecodeError msg
             /\ e = "Invalid JSON response from LLM: " ++ msg)
    /\ mentions_length_limit e = true
    /\ extract_job_application_fields_with_locators u =
         extraction_handler u page_title html_content body e
    /\ exists content data,
         llm_invoke (simplified_prompt page_title (take 3000 html_content)
                       (take 1000 body) u) = Ok content
         /\ json_loads content = Decoded data.
Proof.
  unfold extract_job_application_fields_with_locators.
  destruct Chrome_headless as [d0|e]; [|discriminate].
  destruct (driver_get u d0) as [[[]|e] d] eqn:Eget; [|discriminate].
  destruct (body_located d) as [el|e] eqn:Ebody; [|discriminate].
  destruct (driver_title d) as [page_title|e] eqn:Etitle; [|discriminate].
  destruct (page_source d) as [html_content|e] eqn:Esource; [|discriminate].
  destruct (body_text d) as [body|e] eqn:Etext; [|discriminate].
  cbn zeta.
  assert (Hh : forall e,
             x_extraction_status
               (extraction_handler u page_title html_content body e) = "partial" ->
             mentions_length_limit e = true
             /\ exists content data,
                  llm_invoke (simplified_prompt page_title (take 3000 html_content)
                                (take 1000 body) u) = Ok content
                  /\ json_loads content = Decoded data).
  { intros e. unfold extraction_handler.
    destruct (mentions_length_limit e); [|discriminate].
    destruct (llm_invoke (simplified_prompt _ _ _ _)) as [content|e'];
      [|discriminate].
    destruct (json_loads content) as [data|msg] eqn:Ed; [|discriminate].
    intros _. split; [reflexivity|]. eauto. }
  destruct (llm_invoke (extraction_prompt _ _ _)) as [content|e] eqn:Ellm.
  - destruct (json_loads content) as [data|msg] eqn:Eloads; [discriminate|].
    intros H. destruct (Hh _ H) as [Hm Hrest].
    exists d0, d, el, page_title, html_content, body,
      ("Invalid JSON response from LLM: " ++ msg).
    repeat (split; [reflexivity || assumption|]).
    split; [right; exists content, msg; auto|]. auto.
  - intros H. destruct (Hh _ H) as [Hm Hrest].
    exists d0, d, el, page_title, html_content, body, e.
    repeat (split; [reflexivity || assumption|]).
    split; [left; exact Ellm|]. auto.
Qed.

End Tool.

(** ** Runs on the concrete browser *)

Arguments browser {driver} s.
Arguments calls {driver} s.
Arguments filled_fields {driver} s.
Arguments failed_fields {driver} s.
Arguments initial {driver} d.
Arguments with_failed {driver} name reason s.
Arguments with_filled {driver} name s.
Arguments logs {driver} cs s.

Abbreviation toy_run faults :=
  (run_fill_pass Toy.driver Toy.presence (Toy.perform faults)
     Exact.truediv Exact.float_mul Exact.round).
Abbreviation toy_find :=
  (find_element_with_multiple_strategies Toy.driver Toy.presence).
Abbreviation toy_field faults :=
  (process_field Toy.driver Toy.presence (Toy.perform faults)).
Abbreviation toy_fields faults :=
  (process_fields Toy.driver Toy.presence (Toy.perform faults)).
Abbreviation toy_do faults :=
  (do Toy.driver (Toy.perform faults)).
Abbreviation toy_fill faults :=
  (fill_by_type Toy.driver (Toy.perform faults)).
Abbreviation toy_resolves := (resolves Toy.driver Toy.presence).
Abbreviation toy_recorded faults :=
  (recorded Toy.driver Toy.presence (Toy.perform faults)).

(** Runs the pass of the goal and takes its result and final state as the
    two witnesses; [Hrun] records the run. *)
Ltac run_pass Hrun :=
  lazymatch goal with
  | |- exists r s', ?run = (Ok r, s') /\ _ =>
      let v := eval vm_compute in run in
      lazymatch v with
      | (Ok ?r0, ?s0) =>
          exists r0, s0;
          assert (Hrun : run = (Ok r0, s0)) by (vm_compute; reflexivity);
          split; [exact Hrun|]
      end
  end.

Ltac none_resolves :=
  let x := fresh "x" in
  let H := fresh "H" in
  intros x H; cbn in H;
  repeat (destruct H as [<-|H]; [reflexivity|]); destruct H.

(** Resolution of "Email Address" on a page whose only match is the
    [type=email] input: the five first candidates fail, the probe is
    waited for and yields the element. *)
Lemma email_address_resolves_by_type_probe :
  let field := Toy.descriptor "Email Address" "email" "id" "applicant-email" in
  let s := initial Toy.email_page in
  (forall x, In x (firstn 5 (strategies field)) ->
             toy_resolves (browser s) x = false)
  /\ field_name field = "Email Address"
  /\ Toy.presence (browser s) email_type_probe = Ok (Toy.element "email-input")
  /\ toy_find field s =
       (Ok (Some (Toy.element "email-input")),
        logs (waits (firstn 5 (strategies field)) ++ [Wait email_type_probe]) s).
Proof.
  intros field s.
  assert (H5 : forall x, In x (firstn 5 (strategies field)) ->
                         toy_resolves (browser s) x = false)
    by none_resolves.
  split; [exact H5|]. split; [reflexivity|]. split; [reflexivity|].
  exact (proj2 (email_probe_attempted_unless_name_field
                  Toy.driver Toy.presence field s H5)
           eq_refl (Toy.element "email-input") eq_refl).
Defined.

(** C3 fails as stated: the lowered name "username or email" contains
    "email", none of the five first candidates resolves and the page has
    an input of type email, yet resolution reports not-found without ever
    waiting for the [type=email] probe. *)
Lemma email_probe_skipped_when_name_occurs :
  let field := Toy.descriptor "Username or Email" "email" "id" "login" in
  let s := initial Toy.email_page in
  PyStr.contains "email" (PyStr.lower (field_name field)) = true
  /\ (forall x, In x (firstn 5 (strategies field)) ->
                toy_resolves (browser s) x = false)
  /\ Toy.presence (browser s) email_type_probe = Ok (Toy.element "email-input")
  /\ fst (toy_find field s) = Ok None
  /\ ~ In (Wait email_type_probe) (calls (snd (toy_find field s))).
Proof.
  intros field s. split; [reflexivity|]. split; [none_resolves|].
  split; [reflexivity|]. split; [reflexivity|].
  cbn. intros H.
  repeat (destruct H as [H|H]; [discriminate H|]). exact H.
Qed.

(** "Email Address" on a page whose only match is the [type=email]
    input: the five first candidates are waited for in vain, the sixth
    yields the element and the seventh is not waited for.  "Resume" on a
    page that has its declared locator: that is the only candidate waited
    for. *)
Lemma first_resolving_candidate_is_returned :
  let field := Toy.descriptor "Email Address" "email" "id" "applicant-email" in
  let s := initial Toy.email_page in
  let resume := Toy.descriptor "Resume" "file" "id" "resume-upload" in
  let s' := initial Toy.application_page in
  toy_find field s =
    (Ok (Some (Toy.element "email-input")),
     logs [ Wait (By.ID, "applicant-email");
            Wait (By.NAME, "email_address");
            Wait (By.NAME, "email-address");
            Wait (By.ID, "email_address");
            Wait (By.ID, "email-address");
            Wait (By.XPATH, "//input[@type='email']") ] s)
  /\ toy_find resume s' =
       (Ok (Some (Toy.element "resume-input")),
        logs [Wait (By.ID, "resume-upload")] s').
Proof.
  intros field s resume s'. split.
  - refine (proj1 (proj2 (resolution_first_match_in_priority_order
                            Toy.driver Toy.presence field s))
              (firstn 5 (strategies field)) email_type_probe
              [(By.XPATH, "//input[contains(@placeholder, 'email')]")]
              (Toy.element "email-input") eq_refl _ eq_refl).
    none_resolves.
  - exact (proj2 (proj2 (proj2 (resolution_first_match_in_priority_order
                                  Toy.driver Toy.presence resume s')))
             (Toy.element "resume-input") eq_refl).
Defined.

(** "Favorite Color" on a page where nothing matches: resolution returns
    [None] and the field is recorded as failed with a reason. *)
Lemma favorite_color_is_reported_not_found :
  let fi := Toy.entry "Favorite Color" "text" "css_selector" "#favorite" in
  let field := Toy.descriptor "Favorite Color" "text" "css_selector" "#favorite" in
  let s := initial Toy.email_page in
  (forall x, In x (strategies field) -> toy_resolves (browser s) x = false)
  /\ toy_find field s = (Ok None, logs (waits (strategies field)) s)
  /\ toy_field Toy.no_faults (field_mapping Toy.DUMMY_PROFILE) fi s =
       (Ok tt,
        with_failed "Favorite Color" "Element not found with any strategy"
          (logs (waits (strategies field)) s)).
Proof.
  intros fi field s.
  assert (Hall : forall x, In x (strategies field) ->
                           toy_resolves (browser s) x = false)
    by none_resolves.
  split; [exact Hall|].
  destruct (proj2 (resolution_not_found_is_reported_as_data
                     Toy.driver Toy.presence (Toy.perform Toy.no_faults)
                     (field_mapping Toy.DUMMY_PROFILE) fi field s) Hall)
    as [Hfind Hcaller].
  split; [exact Hfind|]. exact (Hcaller eq_refl).
Defined.

(** Three fields, one filled: the two lists partition the fields. *)
Lemma three_fields_are_partitioned :
  exists r s',
    toy_run Toy.no_faults Toy.DUMMY_PROFILE Toy.three_fields Toy.application_page
      = (Ok r, s')
    /\ error_message r = None
    /\ result_filled_fields r = ["Email Address"]
    /\ (length (result_filled_fields r) + length (result_failed_fields r)
        = total_fields r)%nat.
Proof.
  run_pass Hrun. split; [reflexivity|]. split; [reflexivity|].
  exact (proj2 (completed_pass_partitions_fields
                  Toy.driver Toy.presence (Toy.perform Toy.no_faults)
                   Exact.truediv Exact.float_mul Exact.round
                  Toy.DUMMY_PROFILE Toy.three_fields Toy.application_page
                  _ _ Hrun eq_refl)).
Defined.

(** One field out of three is filled: the reported rate is a number of
    hundredths within 0.005 of [100 / 3]. *)
Lemma one_of_three_is_rounded :
  exists r s',
    toy_run Toy.no_faults Toy.DUMMY_PROFILE Toy.three_fields Toy.application_page
      = (Ok r, s')
    /\ error_message r = None
    /\ (0 < total_fields r)%nat
    /\ exists n : Z,
         Qabs (success_rate r - (n # 100)) <= 1 # 2 ^ 47
         /\ Qabs ((n # 100)
                  - 100 * inject_Z (Z.of_nat (length (result_filled_fields r)))
                    / inject_Z (Z.of_nat (total_fields r)))
            <= (1 # 200) + (1 # 2 ^ 45).
Proof.
  run_pass Hrun. split; [reflexivity|].
  assert (Hpos : (0 < 3)%nat) by lia.
  split; [exact Hpos|].
  exact (proj1 (proj2 (reported_success_rate_is_rounded_ratio
                         Toy.driver Toy.presence (Toy.perform Toy.no_faults)
                         Exact.truediv Exact.float_mul Exact.round
                         exact_truediv_unit exact_truediv_near
                         exact_float_mul_range exact_float_mul_near
                         exact_round_near exact_round_zero
                         Toy.DUMMY_PROFILE Toy.three_fields Toy.application_page
                         _ _ Hrun eq_refl) Hpos)).
Defined.

(** C1 fails as stated: with one field filled out of three the pass
    reports 33.33, which is not [100 * 1 / 3]. *)
Lemma one_of_three_is_not_the_exact_ratio :
  exists r s',
    toy_run Toy.no_faults Toy.DUMMY_PROFILE Toy.three_fields Toy.application_page
      = (Ok r, s')
    /\ error_message r = None
    /\ length (result_filled_fields r) = 1%nat
    /\ total_fields r = 3%nat
    /\ success_rate r = 3333 # 100
    /\ ~ success_rate r ==
         100 * inject_Z (Z.of_nat (length (result_filled_fields r)))
         / inject_Z (Z.of_nat (total_fields r)).
Proof.
  run_pass Hrun. split; [reflexivity|].
  split; [reflexivity|]. split; [reflexivity|]. split; [reflexivity|].
  cbn. unfold Qeq. cbn. lia.
Qed.

(** A pass over the single field "Favorite Color", which nothing on the
    page matches, has status "error". *)
Lemma single_field_not_found_is_error :
  exists r s',
    toy_run Toy.no_faults Toy.DUMMY_PROFILE
      [Toy.entry "Favorite Color" "text" "css_selector" "#favorite"]
      Toy.email_page = (Ok r, s')
    /\ filling_status r = "error"
    /\ result_failed_fields r =
         [{| failed_name := "Favorite Color";
             error := "Element not found with any strategy" |}].
Proof.
  run_pass Hrun.
  refine (proj2 (aggregate_status_of_counts
                   Toy.driver Toy.presence (Toy.perform Toy.no_faults)
                   Exact.truediv Exact.float_mul Exact.round
                   Toy.DUMMY_PROFILE
                   [Toy.entry "Favorite Color" "text" "css_selector" "#favorite"]
                   Toy.email_page _ _ Hrun)
            (Toy.entry "Favorite Color" "text" "css_selector" "#favorite")
            (Toy.descriptor "Favorite Color" "text" "css_selector" "#favorite")
            eq_refl eq_refl _).
  none_resolves.
Defined.

(** C2 fails as stated: a pass over no field at all fills zero fields and
    reports "success", not "error". *)
Lemma empty_pass_is_success :
  exists r s',
    toy_run Toy.no_faults Toy.DUMMY_PROFILE [] Toy.email_page = (Ok r, s')
    /\ error_message r = None
    /\ length (result_filled_fields r) = 0%nat
    /\ filling_status r = "success"
    /\ filling_status r <> "error".
Proof.
  run_pass Hrun. split; [reflexivity|].
  split; [reflexivity|]. split; [reflexivity|]. discriminate.
Qed.

(** Every failure of the three-field pass is explained by one of its
    fields. *)
Lemma three_fields_failures_are_explained :
  exists r s',
    toy_run Toy.no_faults Toy.DUMMY_PROFILE Toy.three_fields Toy.application_page
      = (Ok r, s')
    /\ forall f, In f (result_failed_fields r) ->
       exists fi s0 k,
         In fi Toy.three_fields
         /\ toy_recorded Toy.no_faults (field_mapping Toy.DUMMY_PROFILE) fi s0 f k
         /\ fi_field_name fi = Some (failed_name f)
         /\ (k = LookupFailure -> error f = "Element not found with any strategy")
         /\ (k = NoProfileData -> error f = "No matching profile data found").
Proof.
  run_pass Hrun.
  exact (recorded_failures_have_five_kinds
           Toy.driver Toy.presence (Toy.perform Toy.no_faults)
                   Exact.truediv Exact.float_mul Exact.round
           Toy.DUMMY_PROFILE Toy.three_fields Toy.application_page
           _ _ Hrun).
Defined.

(** C6 fails as stated: the file input of "Resume" is found and no
    interaction with it raises (none is even attempted), yet the field is
    recorded as failed, because the profile has no value for it.  The
    failure is neither a lookup failure nor a fill failure. *)
Lemma resume_failure_is_a_third_kind :
  let fi := Toy.entry "Resume" "file" "id" "resume-upload" in
  let mapping := field_mapping Toy.DUMMY_PROFILE in
  let f := {| failed_name := "Resume";
              error := "No matching profile data found" |} in
  exists r s',
    toy_run Toy.no_faults Toy.DUMMY_PROFILE [fi] Toy.application_page = (Ok r, s')
    /\ result_failed_fields r = [f]
    /\ calls s' =
         [ Wait (By.ID, "resume-upload");
           Do (ScrollIntoView (Toy.element "resume-input")) None;
           Do (TakeScreenshot "filled_form") None ]
    /\ fst (toy_find (Toy.descriptor "Resume" "file" "id" "resume-upload")
              (initial Toy.application_page))
       = Ok (Some (Toy.element "resume-input"))
    /\ toy_recorded Toy.no_faults mapping fi (initial Toy.application_page)
         f NoProfileData
    /\ ~ toy_recorded Toy.no_faults mapping fi (initial Toy.application_page)
           f LookupFailure
    /\ ~ toy_recorded Toy.no_faults mapping fi (initial Toy.application_page)
           f FillFault.
Proof.
  intros fi mapping f. run_pass Hrun.
  split; [reflexivity|]. split; [reflexivity|]. split; [reflexivity|].
  split; [|split].
  - eapply recorded_no_profile; reflexivity.
  - intros H. inversion H.
  - intros H.
    inversion H as [ | | | |display ty field element s1 s2 e Hn Ht Hnew Hfind Hs Hv Hfill].
    cbn in Ht. injection Ht as <-.
    rewrite fill_by_type_unhandled in Hfill by reflexivity. discriminate Hfill.
Qed.

(** The e-mail input cannot be cleared: the fault of the typing is
    recorded with its message, no further call is made for the field, and
    the loop goes on.  "United States" cannot be selected by visible text
    in the country list: the fault stays in the select branch, which
    selects by value and returns. *)
Lemma typing_fault_is_recorded :
  let fi := Toy.entry "Email Address" "email" "xpath" "//input[@type='email']" in
  let field := Toy.descriptor "Email Address" "email" "xpath" "//input[@type='email']" in
  let mapping := field_mapping Toy.DUMMY_PROFILE in
  let rest := [Toy.entry "Resume" "file" "id" "resume-upload"] in
  let element := Toy.element "email-input" in
  let s := initial Toy.application_page in
  let e := "Message: element not interactable" in
  let country := Toy.element "country-select" in
  let e1 := "Message: Could not locate element with visible text: United States" in
  (exists s1 s2 s3,
      find_element_with_multiple_strategies Toy.driver Toy.presence field s
        = (Ok (Some element), s1)
      /\ toy_do Toy.not_interactable (ScrollIntoView element) s1 = (Ok tt, s2)
      /\ truthy (find_value mapping (PyStr.lower "Email Address")) = true
      /\ toy_fill Toy.not_interactable "email" element
           (value_for mapping (PyStr.lower "Email Address")) s2
         = (Raise e, s3)
      /\ toy_field Toy.not_interactable mapping fi s
         = (Ok tt, with_failed "Email Address" e s3)
      /\ toy_fields Toy.not_interactable mapping (fi :: rest) s
         = toy_fields Toy.not_interactable mapping rest
             (with_failed "Email Address" e s3)
      /\ calls s3 = (calls s2 ++ [Do (Clear element) (Some e)])%list)
  /\ (exists s1 s2 s3,
        toy_do Toy.no_such_visible_text (NewSelect country) s = (Ok tt, s1)
        /\ toy_do Toy.no_such_visible_text
             (SelectByVisibleText country "United States") s1 = (Raise e1, s2)
        /\ toy_do Toy.no_such_visible_text
             (SelectByValue country "United States") s2 = (Ok tt, s3)
        /\ toy_fill Toy.no_such_visible_text "select" country "United States" s
           = (Ok tt, s3)).
Proof.
  intros fi field mapping rest element s e country e1. split.
  - eexists. eexists. eexists.
    split; [reflexivity|]. split; [reflexivity|]. split; [reflexivity|].
    split; [reflexivity|].
    destruct (proj1 (interaction_fault_is_recorded_and_pass_continues
                       Toy.driver Toy.presence (Toy.perform Toy.not_interactable)
                       mapping fi rest field "Email Address" "email" element
                       "jane.doe@example.com")
                s _ _ _ e eq_refl eq_refl eq_refl eq_refl eq_refl eq_refl eq_refl)
      as (Hfield & Hloop & _).
    split; [exact Hfield|]. split; [exact Hloop|]. reflexivity.
  - eexists. eexists. eexists.
    split; [reflexivity|]. split; [reflexivity|]. split; [reflexivity|].
    exact (proj1 (proj2 (proj2 (proj2
             (interaction_fault_is_recorded_and_pass_continues
                Toy.driver Toy.presence (Toy.perform Toy.no_such_visible_text)
                mapping fi rest field "Country" "select" country
                "United States"))))
             s _ _ _ e1 eq_refl eq_refl eq_refl).
Defined.

(** C7 fails as stated: selecting "United States" by visible text raises,
    the fault is caught inside the select branch, another way of selecting
    is tried on the same element, and the field is recorded as filled:
    the fault reaches neither the field level nor the failure list. *)
Lemma select_fault_is_absorbed :
  let fi := Toy.entry "Country" "select" "id" "country" in
  let page := [((By.ID, "country"), Toy.element "country-select")] in
  let element := Toy.element "country-select" in
  let e := "Message: Could not locate element with visible text: United States" in
  exists r s',
    toy_run Toy.no_such_visible_text Toy.DUMMY_PROFILE [fi] page = (Ok r, s')
    /\ calls s' =
         [ Wait (By.ID, "country");
           Do (ScrollIntoView element) None;
           Do (NewSelect element) None;
           Do (SelectByVisibleText element "United States") (Some e);
           Do (SelectByValue element "United States") None;
           Do (TakeScreenshot "filled_form") None ]
    /\ result_failed_fields r = []
    /\ result_filled_fields r = ["Country"]
    /\ filling_status r = "success".
Proof.
  intros fi page element e. run_pass Hrun. repeat split; reflexivity.
Qed.

(** An entry without locator keys cannot be turned into a descriptor and
    is recorded as failed without any lookup. *)
Lemma entry_without_locator_is_rejected :
  let fi := Toy.entry_without_locator "Email Address" "email" in
  let mapping := field_mapping Toy.DUMMY_PROFILE in
  let s := initial Toy.email_page in
  (fi_locator_type fi = None \/ fi_locator_value fi = None)
  /\ (exists e, new_FormField Toy.driver fi s = (Raise e, s))
  /\ (exists e, toy_field Toy.no_faults mapping fi s
                = (Ok tt, with_failed "Email Address" e s)).
Proof.
  intros fi mapping s.
  assert (Hmissing : fi_locator_type fi = None \/ fi_locator_value fi = None)
    by (left; reflexivity).
  split; [exact Hmissing|].
  destruct (proj1 (declared_locator_is_required
                     Toy.driver Toy.presence (Toy.perform Toy.no_faults)
                     mapping fi
                     (Toy.descriptor "Email Address" "email" "id" "applicant-email")
                     s) Hmissing) as [Hnew Hfield].
  split; [exact Hnew|]. exact (Hfield "Email Address" "email" eq_refl eq_refl).
Defined.

(** C8 fails as stated: from an entry without a declared locator no
    descriptor is constructed, and resolution does not begin with the
    by-name underscore candidate: it does not begin at all, although that
    candidate resolves on the page. *)
Lemma no_resolution_without_declared_locator :
  let fi := Toy.entry_without_locator "Email Address" "email" in
  let page := [((By.NAME, "email_address"), Toy.element "email-input")] in
  fi_locator_type fi = None
  /\ fi_locator_value fi = None
  /\ fst (new_FormField Toy.driver fi (initial page))
     = Raise (validation_error "locator_type")
  /\ toy_resolves page (By.NAME, PyStr.replace " " "_" (PyStr.lower "Email Address"))
     = true
  /\ exists r s',
       toy_run Toy.no_faults Toy.DUMMY_PROFILE [fi] page = (Ok r, s')
       /\ result_filled_fields r = []
       /\ result_failed_fields r =
            [{| failed_name := "Email Address";
                error := validation_error "locator_type" |}]
       /\ calls s' = [Do (TakeScreenshot "filled_form") None].
Proof.
  intros fi page. repeat split; try reflexivity.
  run_pass Hrun. repeat split; reflexivity.
Qed.

(** "Graduation Date" has the unhandled type "date": its element is found,
    the profile has a value, nothing is typed, and the field is recorded as
    filled. *)
Lemma date_field_is_recorded_as_filled :
  let fi := Toy.entry "Graduation Date" "date" "id" "grad-date" in
  let field := Toy.descriptor "Graduation Date" "date" "id" "grad-date" in
  let page := [((By.ID, "grad-date"), Toy.element "grad-input")] in
  let mapping := field_mapping Toy.DUMMY_PROFILE in
  let element := Toy.element "grad-input" in
  let s := initial page in
  exists s1 s2,
    PyStr.mem "date"
      ["text"; "email"; "tel"; "url"; "password"; "textarea"; "select";
       "checkbox"; "radio"] = false
    /\ find_element_with_multiple_strategies Toy.driver Toy.presence field s
       = (Ok (Some element), s1)
    /\ toy_do Toy.no_faults (ScrollIntoView element) s1 = (Ok tt, s2)
    /\ truthy (find_value mapping (PyStr.lower "Graduation Date")) = true
    /\ toy_field Toy.no_faults mapping fi s
       = (Ok tt, with_filled "Graduation Date" s2)
    /\ calls s2 = (calls s1 ++ [Do (ScrollIntoView element) None])%list.
Proof.
  intros fi field page mapping element s. eexists. eexists.
  split; [reflexivity|]. split; [reflexivity|]. split; [reflexivity|].
  split; [reflexivity|].
  destruct (unhandled_type_is_recorded_as_filled
              Toy.driver Toy.presence (Toy.perform Toy.no_faults)
              mapping fi field "Graduation Date" "date" element s _ _
              eq_refl eq_refl eq_refl eq_refl eq_refl eq_refl eq_refl)
    as (Hfield & _ & Hcalls).
  split; [exact Hfield|exact Hcalls].
Defined.

(** C10 fails as stated: the field has an unhandled type, its element is
    found and the profile has a value for it, but scrolling the element
    into view raises; the field is recorded as failed, not as filled. *)
Lemma date_field_fails_when_scroll_raises :
  let fi := Toy.entry "Graduation Date" "date" "id" "grad-date" in
  let field := Toy.descriptor "Graduation Date" "date" "id" "grad-date" in
  let page := [((By.ID, "grad-date"), Toy.element "grad-input")] in
  let mapping := field_mapping Toy.DUMMY_PROFILE in
  PyStr.mem "date"
    ["text"; "email"; "tel"; "url"; "password"; "textarea"; "select";
     "checkbox"; "radio"] = false
  /\ fst (find_element_with_multiple_strategies Toy.driver Toy.presence field
            (initial page)) = Ok (Some (Toy.element "grad-input"))
  /\ truthy (find_value mapping (PyStr.lower "Graduation Date")) = true
  /\ exists r s',
       toy_run Toy.stale_on_scroll Toy.DUMMY_PROFILE [fi] page = (Ok r, s')
       /\ result_filled_fields r = []
       /\ result_failed_fields r =
            [{| failed_name := "Graduation Date";
                error := "Message: stale element reference" |}].
Proof.
  intros fi field page mapping. repeat split; try reflexivity.
  run_pass Hrun. split; reflexivity.
Qed.

(** ** Further runs on the concrete browser *)

Arguments Decoded {A} a.
Arguments JSONDecodeError {A} msg.

Abbreviation toy_tool faults page :=
  (fill_job_application_form Toy.driver Toy.presence (Toy.perform faults)
     Exact.truediv Exact.float_mul Exact.round
     (Ok page) (fun _ d => (Ok tt, d)) (fun _ => Ok (Toy.element "body"))).

(** The extraction tool on a page the browser reads without fault, with a
    model that answers [answer] to the first prompt and [retry] to the
    second, and a decoder that finds no key in any answer. *)
Abbreviation toy_extract answer retry :=
  (extract_job_application_fields_with_locators Toy.driver
     (fun _ d => (Ok tt, d)) (fun _ => Ok (Toy.element "body")) unit
     (Ok Toy.email_page)
     (fun _ => Ok "Software Engineer") (fun _ => Ok "<html></html>")
     (fun _ => Ok "Apply")
     (fun prompt => if String.eqb prompt "first" then answer else retry)
     (fun _ => Decoded (Build_result_data unit None None None None None None))
     (fun _ _ _ => "first") (fun _ _ _ _ => "second")).

(** Takes the state a run ends in as the witness; [Hrun] records the run. *)
Ltac run_to Hrun :=
  lazymatch goal with
  | |- exists s', ?run = (Ok tt, s') /\ _ =>
      let v := eval vm_compute in run in
      lazymatch v with
      | (Ok tt, ?s0) =>
          exists s0;
          assert (Hrun : run = (Ok tt, s0)) by (vm_compute; reflexivity);
          split; [exact Hrun|]
      end
  end.

(** The by-name underscore candidate of "Email Address". *)
Lemma email_address_candidate_is_clean :
  let field := Toy.descriptor "Email Address" "email" "id" "applicant-email" in
  In (By.NAME, "email_address") (firstn 4 (tl (strategies field)))
  /\ PyStr.contains " " "email_address" = false
  /\ PyStr.lower "email_address" = "email_address".
Proof.
  intros field.
  assert (Hin : In (By.NAME, "email_address") (firstn 4 (tl (strategies field))))
    by (left; reflexivity).
  split; [exact Hin|].
  exact (derived_candidates_have_no_space_or_capital field _ Hin).
Defined.

(** An unselected checkbox is clicked once. *)
Lemma unselected_checkbox_is_clicked :
  let element := Toy.element "terms" in
  let s := initial Toy.email_page in
  ("checkbox" = "checkbox" \/ "checkbox" = "radio")
  /\ toy_fill Toy.no_faults "checkbox" element "US Citizen" s =
       toy_do Toy.no_faults (Click element)
         (snd (toy_do Toy.no_faults (IsSelected element) s))
  /\ exists r,
       calls (snd (toy_do Toy.no_faults (Click element)
                     (snd (toy_do Toy.no_faults (IsSelected element) s)))) =
         (calls s ++ [Do (IsSelected element) None; Do (Click element) r])%list.
Proof.
  intros element s.
  assert (Hty : "checkbox" = "checkbox" \/ "checkbox" = "radio") by (left; reflexivity).
  split; [exact Hty|].
  exact (checkbox_is_clicked_only_when_unselected
           Toy.driver (Toy.perform Toy.no_faults) "checkbox" element
           "US Citizen" s Hty).
Defined.

(** "United States" is in neither of the two options: the select branch
    returns, and the only selecting calls are the two that raised. *)
Lemma country_not_among_options :
  let element := Toy.element "country-select" in
  let value := "United States" in
  let s := initial Toy.email_page in
  exists s1 s2 s3 s4 e1 e2,
    do Toy.driver Selector.perform (NewSelect element) s = (Ok tt, s1)
    /\ do Toy.driver Selector.perform (SelectByVisibleText element value) s1
       = (Raise e1, s2)
    /\ do Toy.driver Selector.perform (SelectByValue element value) s2
       = (Raise e2, s3)
    /\ do Toy.driver Selector.perform (SelectOptions element) s3
       = (Ok [Selector.canada; Selector.mexico], s4)
    /\ fst (fill_by_type Toy.driver Selector.perform "select" element value s) = Ok tt
    /\ exists cs,
         calls (snd (fill_by_type Toy.driver Selector.perform "select" element value s))
           = (calls s ++ cs)%list
         /\ filter changes_page cs =
              [ Do (SelectByVisibleText element value) (Some e1);
                Do (SelectByValue element value) (Some e2) ].
Proof.
  intros element value s.
  eexists. eexists. eexists. eexists. eexists. eexists.
  split; [reflexivity|]. split; [reflexivity|]. split; [reflexivity|].
  split; [reflexivity|].
  refine (select_branch_returns_when_nothing_matches
            Toy.driver Selector.perform element value
            [Selector.canada; Selector.mexico] s _ _ _ _ _ _
            eq_refl eq_refl eq_refl eq_refl _).
  intros option d [<-|[<-|[]]]; eexists; eexists; split; reflexivity.
Defined.

(** The value for "email address" comes from the key "email". *)
Lemma email_address_value_comes_from_the_mapping :
  let mapping := field_mapping Toy.DUMMY_PROFILE in
  truthy (find_value mapping "email address") = true
  /\ exists key value,
       find_value mapping "email address" = Some value
       /\ value <> ""
       /\ In (key, value) mapping
       /\ (PyStr.contains key "email address" = true
           \/ exists word, In word (PyStr.split key)
                           /\ PyStr.contains word "email address" = true).
Proof.
  intros mapping.
  assert (H : truthy (find_value mapping "email address") = true) by reflexivity.
  split; [exact H|].
  exact (filled_value_comes_from_a_matching_key mapping "email address" H).
Defined.

(** "company name" holds no key of the mapping but holds the word "name":
    the value looked up is the first name. *)
Lemma company_name_gets_first_name :
  truthy (first_value (fun key => PyStr.contains key "company name")
            (field_mapping Toy.DUMMY_PROFILE)) = false
  /\ (PyStr.contains "first" "company name"
      || PyStr.contains "name" "company name")%bool = true
  /\ find_value (field_mapping Toy.DUMMY_PROFILE) "company name" = Some "John".
Proof.
  assert (H1 : truthy (first_value (fun key => PyStr.contains key "company name")
                         (field_mapping Toy.DUMMY_PROFILE)) = false)
    by reflexivity.
  assert (H2 : (PyStr.contains "first" "company name"
                || PyStr.contains "name" "company name")%bool = true)
    by reflexivity.
  split; [exact H1|]. split; [exact H2|].
  exact (name_like_field_gets_first_name Toy.DUMMY_PROFILE "company name" H1 H2).
Defined.

(** The e-mail field of the application page is filled: its element was
    found and the profile had a value. *)
Lemma filled_email_field_was_found :
  let fi := Toy.entry "Email Address" "email" "id" "applicant-email" in
  let mapping := field_mapping Toy.DUMMY_PROFILE in
  let s := initial Toy.application_page in
  exists s',
    toy_field Toy.no_faults mapping fi s = (Ok tt, s')
    /\ filled_fields s' <> filled_fields s
    /\ exists display field_type field element s1 s2 s3,
         fi_field_name fi = Some display
         /\ fi_field_type fi = Some field_type
         /\ fst (new_FormField Toy.driver fi s) = Ok field
         /\ toy_find field s = (Ok (Some element), s1)
         /\ toy_do Toy.no_faults (ScrollIntoView element) s1 = (Ok tt, s2)
         /\ truthy (find_value mapping (PyStr.lower display)) = true
         /\ toy_fill Toy.no_faults field_type element
              (value_for mapping (PyStr.lower display)) s2 = (Ok tt, s3)
         /\ s' = with_filled display s3.
Proof.
  intros fi mapping s. run_to Hrun.
  assert (Hne : filled_fields
                  (snd (toy_field Toy.no_faults mapping fi s)) <> filled_fields s).
  { rewrite Hrun. cbn. discriminate. }
  rewrite Hrun in Hne. cbn [snd] in Hne.
  split; [exact Hne|].
  exact (filled_field_was_found_and_valued
           Toy.driver Toy.presence (Toy.perform Toy.no_faults)
           mapping fi s _ Hrun Hne).
Defined.

(** The second of three entries has no "field_name": the pass ends there
    with the first field recorded and nothing done for the third. *)
Lemma nameless_entry_ends_the_pass :
  let mapping := field_mapping Toy.DUMMY_PROFILE in
  let before := [Toy.entry "Email Address" "email" "id" "applicant-email"] in
  let fi := {| fi_field_name := None;
               fi_field_type := Some "text";
               fi_locator_type := Some "id";
               fi_locator_value := Some "x";
               fi_is_required := Some false;
               fi_placeholder_text := None;
               fi_options := None |} in
  let after := [Toy.entry "Resume" "file" "id" "resume-upload"] in
  let s := initial Toy.application_page in
  exists s1,
    toy_fields Toy.no_faults mapping before s = (Ok tt, s1)
    /\ (fi_field_name fi = None
        \/ (fi_field_name fi <> None /\ fi_field_type fi = None))
    /\ exists r s' shot,
         fill_pass Toy.driver Toy.presence (Toy.perform Toy.no_faults)
           Exact.truediv Exact.float_mul Exact.round mapping
           (before ++ fi :: after) s = (Ok r, s')
         /\ filling_status r = "error"
         /\ error_message r = Some "'field_name'"
         /\ success_rate r = 0
         /\ total_fields r = 3%nat
         /\ result_filled_fields r = filled_fields s1
         /\ result_failed_fields r = failed_fields s1
         /\ calls s' = (calls s1 ++ [Do (TakeScreenshot "error_form") shot])%list.
Proof.
  intros mapping before fi after s. run_to Hrun.
  assert (Hmissing : fi_field_name fi = None
                     \/ (fi_field_name fi <> None /\ fi_field_type fi = None))
    by (left; reflexivity).
  split; [exact Hmissing|].
  exact (entry_without_name_or_type_ends_the_pass
           Toy.driver Toy.presence (Toy.perform Toy.no_faults)
           Exact.truediv Exact.float_mul Exact.round
           mapping before after fi s _ Hrun Hmissing).
Defined.

(** A partial extraction is rejected before the browser is started. *)
Lemma partial_extraction_is_rejected :
  let info := {| extraction_status := Some "partial";
                 url := Some "https://jobs.example.com/apply";
                 required_fields := Some Toy.three_fields;
                 optional_fields := Some [] |} in
  extraction_status info <> Some "success"
  /\ toy_tool Toy.no_faults Toy.application_page (Decoded info) None =
       (rejected "Invalid field data - extraction was not successful", None).
Proof.
  intros info.
  assert (H : extraction_status info <> Some "success") by discriminate.
  split; [exact H|].
  exact (proj2 (unsuccessful_extraction_is_rejected
                  Toy.driver Toy.presence (Toy.perform Toy.no_faults)
                  Exact.truediv Exact.float_mul Exact.round
                  (Ok Toy.application_page) (fun _ d => (Ok tt, d))
                  (fun _ => Ok (Toy.element "body")) info None H)
           Toy.DUMMY_PROFILE eq_refl).
Defined.

(** Takes the result of a run of the tool as the witnesses. *)
Ltac run_tool Hrun :=
  lazymatch goal with
  | |- exists r o, ?run = (r, o) /\ _ =>
      let v := eval vm_compute in run in
      lazymatch v with
      | (?r0, ?o0) =>
          exists r0, o0;
          assert (Hrun : run = (r0, o0)) by (vm_compute; reflexivity);
          split; [exact Hrun|]
      end
  end.

(** The tool on one required and two optional fields, one of them
    filled: the two lists hold three names and the rate is 33.33. *)
Lemma three_fields_counts_and_rate :
  let info := {| extraction_status := Some "success";
                 url := Some "https://jobs.example.com/apply";
                 required_fields :=
                   Some [Toy.entry "Email Address" "email" "id" "applicant-email"];
                 optional_fields :=
                   Some [ Toy.entry "Favorite Color" "text" "css_selector" "#favorite";
                          Toy.entry "Resume" "file" "id" "resume-upload" ] |} in
  let r := fst (toy_tool Toy.no_faults Toy.application_page (Decoded info) None) in
  success_rate r = 3333 # 100
  /\ (length (result_filled_fields r) + length (result_failed_fields r)
      <= total_fields r)%nat
  /\ 0 <= success_rate r <= 100.
Proof.
  intros info r. split; [vm_compute; reflexivity|].
  exact (tool_result_counts_and_rate
           Toy.driver Toy.presence (Toy.perform Toy.no_faults)
           Exact.truediv Exact.float_mul Exact.round
           exact_truediv_unit exact_float_mul_range exact_round_range
           (Ok Toy.application_page) (fun _ d => (Ok tt, d))
           (fun _ => Ok (Toy.element "body"))
           (Decoded info) None).
Defined.

(** The tool on one required and two optional fields: the result has no
    error message and is the summary of the pass over the three. *)
Lemma three_fields_through_the_tool :
  let info := {| extraction_status := Some "success";
                 url := Some "https://jobs.example.com/apply";
                 required_fields :=
                   Some [Toy.entry "Email Address" "email" "id" "applicant-email"];
                 optional_fields :=
                   Some [ Toy.entry "Favorite Color" "text" "css_selector" "#favorite";
                          Toy.entry "Resume" "file" "id" "resume-upload" ] |} in
  exists r o,
    toy_tool Toy.no_faults Toy.application_page (Decoded info) None = (r, o)
    /\ error_message r = None
    /\ total_fields r = 3%nat
    /\ filling_status r = "partial"
    /\ exists info' required optional records,
         Decoded info = Decoded info'
         /\ extraction_status info' = Some "success"
         /\ required_fields info' = Some required
         /\ optional_fields info' = Some optional
         /\ o <> None
         /\ total_fields r = (length required + length optional)%nat
         /\ map (fun x => Some (fst x)) records =
              map fi_field_name (required ++ optional)
         /\ result_filled_fields r = filled_of records
         /\ result_failed_fields r = failed_of records
         /\ filling_status r =
              overall_status (length (result_filled_fields r)) (total_fields r)
         /\ success_rate r =
              round2 Exact.round
                (compute_success_rate Exact.truediv Exact.float_mul
                   (length (result_filled_fields r)) (total_fields r)).
Proof.
  intros info. run_tool Hrun.
  split; [reflexivity|]. split; [reflexivity|]. split; [reflexivity|].
  exact (tool_result_without_message_is_a_completed_pass
           Toy.driver Toy.presence (Toy.perform Toy.no_faults)
           Exact.truediv Exact.float_mul Exact.round
           (Ok Toy.application_page) (fun _ d => (Ok tt, d))
           (fun _ => Ok (Toy.element "body"))
           (Decoded info) None _ _ Hrun eq_refl).
Defined.

(** The tool on the single field "Graduation Date": nothing fails and the
    status is "success". *)
Lemma one_field_filled_is_success :
  let info := {| extraction_status := Some "success";
                 url := Some "https://jobs.example.com/apply";
                 required_fields :=
                   Some [Toy.entry "Graduation Date" "date" "id" "grad-date"];
                 optional_fields := Some [] |} in
  let page := [((By.ID, "grad-date"), Toy.element "grad-input")] in
  exists r o,
    toy_tool Toy.no_faults page (Decoded info) None = (r, o)
    /\ error_message r = None
    /\ result_failed_fields r = []
    /\ (filling_status r = "success" <-> result_failed_fields r = []).
Proof.
  intros info page. run_tool Hrun.
  split; [reflexivity|]. split; [reflexivity|].
  exact (success_means_no_failed_field
           Toy.driver Toy.presence (Toy.perform Toy.no_faults)
           Exact.truediv Exact.float_mul Exact.round
           (Ok page) (fun _ d => (Ok tt, d)) (fun _ => Ok (Toy.element "body"))
           (Decoded info) None _ _ Hrun eq_refl).
Defined.

(** The model refuses the first prompt for its length and answers the
    second: the extraction is partial, after the page was read. *)
Lemma length_limit_gives_a_partial_extraction :
  let e := "Could not parse response content as the length limit was reached" in
  let u := "https://jobs.example.com/apply" in
  let llm := fun prompt : string =>
               if String.eqb prompt "first" then Raise e else Ok "{}" in
  let loads := fun _ : string =>
                 Decoded (Build_result_data unit None None None None None None) in
  let x := toy_extract (Raise e) (Ok "{}") u in
  x_extraction_status unit x = "partial"
  /\ x_total_fields unit x = 0%nat
  /\ exists d0 d el page_title html_content body e',
       Ok Toy.email_page = Ok d0
       /\ (Ok tt, d0) = (Ok tt, d)
       /\ Ok (Toy.element "body") = Ok el
       /\ Ok "Software Engineer" = Ok page_title
       /\ Ok "<html></html>" = Ok html_content
       /\ Ok "Apply" = Ok body
       /\ (llm "first" = Raise e'
           \/ exists content msg,
                llm "first" = Ok content
                /\ loads content = JSONDecodeError msg
                /\ e' = "Invalid JSON response from LLM: " ++ msg)
       /\ mentions_length_limit e' = true
       /\ x = extraction_handler unit llm loads (fun _ _ _ _ => "second")
                u page_title html_content body e'
       /\ exists content data,
            llm "second" = Ok content /\ loads content = Decoded data.
Proof.
  intros e u llm loads x.
  assert (H : x_extraction_status unit x = "partial") by reflexivity.
  split; [exact H|]. split; [reflexivity|].
  exact (partial_result_needs_a_length_limit_message
           Toy.driver (fun _ d => (Ok tt, d)) (fun _ => Ok (Toy.element "body"))
           unit (Ok Toy.email_page)
           (fun _ => Ok "Software Engineer") (fun _ => Ok "<html></html>")
           (fun _ => Ok "Apply") llm loads
           (fun _ _ _ => "first") (fun _ _ _ _ => "second") u H).
Defined.
